(** * Training loop and checkpoint lifecycle of paxml

    A shallow embedding of [paxml/train.py] and [paxml/executors.py]:
    the duration parser, the two Orbax training checkpointers (sharded
    [pjit] and replicated [pmap]) and the training loop
    [_train_and_evaluate_common] in both of its versions, followed by
    the properties of the design document that concern them.

    Conventions.  Python [int] is [Z]; [str] is [string]; [None] is
    [option]'s [None]; a raised exception is the [Raise] constructor of
    [Result].  Collaborators that live outside these two files
    (the checkpoint manager, the train, eval and decode programs, the
    early-stopping policy) are taken as interfaces: records of
    functions, instantiated by concrete ones where a statement is
    evaluated.  Calls to collaborators are total functions of their
    arguments; exceptions raised from inside a collaborator are outside
    the model. *)

From Stdlib Require Import ZArith List String Ascii Bool Lia.
From Stdlib Require DecimalString.
Import ListNotations.
Local Open Scope Z_scope.

Set Implicit Arguments.

(** ** Exceptions and results *)

Inductive Exn : Type :=
| ValueError (msg : string)
| OverflowError
| AssertionError
| ZeroDivisionError.

Inductive Result (A : Type) : Type :=
| Ok (a : A)
| Raise (e : Exn).

Arguments Ok {A} a.
Arguments Raise {A} e.

Definition bindR {A B : Type} (r : Result A) (k : A -> Result B) : Result B :=
  match r with
  | Ok a => k a
  | Raise e => Raise e
  end.

Declare Scope result_scope.
Delimit Scope result_scope with result.
Notation "x <- c ;; k" := (bindR c (fun x => k))
  (at level 61, c at next level, right associativity) : result_scope.
Notation "c ;;; k" := (bindR c (fun _ => k))
  (at level 61, right associativity) : result_scope.

(** [cfg and step % cfg == 0] with Python's short-circuit [and], for an
    optional integer option such as [train_p.eval_interval_steps]:
    [None] and [0] are false. *)
Definition interval_hit (interval : option Z) (step : Z) : bool :=
  match interval with
  | None => false
  | Some n => negb (n =? 0) && (step mod n =? 0)
  end.

(** ** train.py: [_parse_duration]

    A [string] stands for the [str] whose characters are the code
    points of its elements, in order.  Every [str] over the code points
    below 256 is read this way, and no other: a [str] with a character
    from U+0100 on is outside this model.  [int] is CPython's, with its
    default limit on the number of digits. *)

Module Duration.

(** [datetime.timedelta], normalised as Python stores it. *)
Record timedelta : Type := mk_timedelta {
  days : Z;
  seconds : Z;
  microseconds : Z
}.

Definition total_seconds (t : timedelta) : Z :=
  days t * 86400 + seconds t.

(** [datetime.timedelta(seconds=v)]: the day count must have magnitude
    at most 999999999. *)
Definition timedelta_of_seconds (v : Z) : Result timedelta :=
  let d := v / 86400 in
  if (Z.abs d <=? 999999999)
  then Ok (mk_timedelta d (v mod 86400) 0)
  else Raise OverflowError.

(** The code point of a character. *)
Definition code (c : ascii) : Z := Z.of_nat (nat_of_ascii c).

(** [\d] of a [str] pattern: the Unicode decimal digits.  Below 256
    these are [0] to [9]. *)
Definition is_digit (c : ascii) : bool :=
  (48 <=? code c) && (code c <=? 57).

Definition between (lo hi : Z) (c : ascii) : bool :=
  (lo <=? code c) && (code c <=? hi).

(** [\w] of a [str] pattern: the characters for which [str.isalnum]
    holds, and the underscore.  Below 256 these are the ASCII letters
    and digits, the underscore, and from the Latin-1 supplement
    U+00AA, U+00B2, U+00B3, U+00B5, U+00B9, U+00BA, U+00BC to U+00BE,
    and U+00C0 to U+00FF without U+00D7 and U+00F7. *)
Definition is_word (c : ascii) : bool :=
  is_digit c
  || between 65 90 c
  || between 97 122 c
  || (code c =? 95)
  || (code c =? 170)
  || between 178 179 c
  || (code c =? 181)
  || between 185 186 c
  || between 188 190 c
  || between 192 214 c
  || between 216 246 c
  || between 248 255 c.

(** The longest prefix whose characters satisfy [p], and the rest. *)
Fixpoint span (p : ascii -> bool) (s : string) : string * string :=
  match s with
  | EmptyString => (EmptyString, EmptyString)
  | String c r =>
      if p c
      then let (a, b) := span p r in (String c a, b)
      else (EmptyString, s)
  end.

Fixpoint last_char (s : string) : option ascii :=
  match s with
  | EmptyString => None
  | String c EmptyString => Some c
  | String _ r => last_char r
  end.

(** A match object of the pattern [(\d+)(\w)*]: group 1 and group 2.
    A repeated group keeps its last iteration, and is [None] when it
    never took part in the match. *)
Record Match : Type := mk_match {
  group1 : string;
  group2 : option ascii
}.

Definition groups_len (m : Match) : Z := 2.

(** [re.compile(r'(\d+)(\w)*').match(s)]: anchored at the start of
    [s] only.  Both quantifiers are greedy and the second one may
    match nothing, so no backtracking ever happens. *)
Definition pattern_match (s : string) : option Match :=
  let (ds, rest) := span is_digit s in
  match ds with
  | EmptyString => None
  | _ => let (ws, _) := span is_word rest in
         Some (mk_match ds (last_char ws))
  end.

Fixpoint int_of_digits (acc : Z) (s : string) : Z :=
  match s with
  | EmptyString => acc
  | String c r => int_of_digits (10 * acc + (code c - 48)) r
  end.

(** The decimal value of a string of digits. *)
Definition decimal_value (s : string) : Z := int_of_digits 0 s.

(** The longest string of digits that [int] converts:
    [sys.get_int_max_str_digits()], 4300 unless configured otherwise. *)
Definition int_max_str_digits : Z := 4300.

Definition digits_of_length (n : nat) : string :=
  DecimalString.NilZero.string_of_uint (Nat.to_uint n).

(** The [ValueError] of [int] for a string of [n] digits, more than the
    limit. *)
Definition exceeds_limit (n : nat) : Exn :=
  ValueError
    ("Exceeds the limit (4300 digits) for integer string conversion: value has "
       ++ digits_of_length n
       ++ " digits; use sys.set_int_max_str_digits() to increase the limit").

(** Python's [int(s)] on a nonempty string of decimal digits. *)
Definition int_of (s : string) : Result Z :=
  if int_max_str_digits <? Z.of_nat (String.length s)
  then Raise (exceeds_limit (String.length s))
  else Ok (decimal_value s).

Definition unit_ok (g : option ascii) : bool :=
  match g with
  | None => true
  | Some c => (c =? "s")%char || (c =? "m")%char
              || (c =? "h")%char || (c =? "d")%char
  end.

Definition unable (duration_str : string) : Exn :=
  ValueError ("Unable to parse string duration `" ++ duration_str ++ "`.").

(** The [if]/[elif] chain on the unit; its last branch raises. *)
Definition scale (duration_str : string) (g : option ascii) (int_value : Z)
  : Result Z :=
  match g with
  | None => Ok int_value
  | Some c =>
      if (c =? "s")%char then Ok int_value
      else if (c =? "m")%char then Ok (int_value * 60)
      else if (c =? "h")%char then Ok (int_value * 3600)
      else if (c =? "d")%char then Ok (int_value * 86400)
      else Raise (unable duration_str)
  end.

Definition _parse_duration (duration_str : option string)
  : Result (option timedelta) :=
  match duration_str with
  | None => Ok None
  | Some EmptyString => Ok None
  | Some s =>
      match pattern_match s with
      | None => Raise (unable s)
      | Some m =>
          if negb (groups_len m =? 2) || negb (unit_ok (group2 m))
          then Raise (unable s)
          else
            (int_value <- int_of (group1 m) ;;
             int_value <- scale s (group2 m) int_value ;;
             t <- timedelta_of_seconds int_value ;;
             Ok (Some t))%result
      end
  end.

(** The parsed duration in seconds, for reading results. *)
Definition parsed_seconds (r : Result (option timedelta)) : Result (option Z) :=
  match r with
  | Ok None => Ok None
  | Ok (Some t) => Ok (Some (total_seconds t))
  | Raise e => Raise e
  end.

End Duration.


(** ** The checkpointing interfaces *)

Inductive CheckpointType : Type := FLAX | GDA | PERSISTENCE.

Definition is_flax (t : CheckpointType) : bool :=
  match t with FLAX => true | _ => false end.

Section Interfaces.

(** [TrainState] is the state of the computation, [Spec] stands for the
    static shape and placement descriptions (shapes, partition specs,
    meshes), [Key] for PRNG keys and [M] for the state of the
    checkpoint manager, that is the checkpoint directory together with
    whatever writes are still in flight. *)
Variables TrainState Spec Key M : Type.

(** [trainer_lib.TrainStateMetadata]. *)
Record TrainStateMetadata : Type := {
  input_shape_dtype : Spec;
  padded_global_shapes : Spec;
  unpadded_global_shapes : Spec;
  partition_specs : Spec
}.

(** The [restore_kwargs] dictionaries built by [_restore_with_args]. *)
Inductive RestoreKwargs : Type :=
| NoKwargs
| GdaKwargs (specs : Spec) (mesh : option Spec)
| PersistenceKwargs (state_specs : Spec) (global_mesh : option Spec).

(** [checkpoint_managers.OrbaxCheckpointManager], through the methods
    the two files call.  [should_save] and [latest_step] are queries;
    [save] and [wait_until_finished] (the field [drain]) are the only
    methods that act on the manager's state.  [check_for_errors] polls the background
    writer and is recorded as a call. *)
Record CheckpointManager : Type := {
  should_save : M -> Z -> bool;
  latest_step : M -> option Z;
  save : M -> Z -> TrainState -> bool -> M;
  restore : M -> Z -> Spec -> RestoreKwargs -> option TrainState;
  drain : M -> M
}.

(** The calls a checkpointer issues, in the order it issues them. *)
Inductive MgrCall : Type :=
| Save (step : Z) (st : TrainState) (force : bool)
| Restore (step : Z) (shapes : Spec) (kw : RestoreKwargs)
| CheckForErrors
| WaitUntilFinished
| MakeCheckpointDir
| RestoreFromTensorstore (shapes : Spec).

Record World : Type := mk_world {
  mgr : M;
  calls : list MgrCall
}.

Definition record (c : MgrCall) (w : World) : World :=
  mk_world (mgr w) (calls w ++ [c]).

Definition is_save (c : MgrCall) : bool :=
  match c with Save _ _ _ => true | _ => false end.

Variable cm : CheckpointManager.

Definition manager_save (step_i : Z) (st : TrainState) (force : bool)
           (w : World) : World :=
  record (Save step_i st force)
         (mk_world (save cm (mgr w) step_i st force) (calls w)).

Definition manager_wait_until_finished (w : World) : World :=
  record WaitUntilFinished (mk_world (drain cm (mgr w)) (calls w)).

Definition manager_check_for_errors (w : World) : World :=
  record CheckForErrors w.

Definition manager_restore (step_i : Z) (shapes : Spec) (kw : RestoreKwargs)
           (w : World) : option TrainState * World :=
  (restore cm (mgr w) step_i shapes kw, record (Restore step_i shapes kw) w).

(** What [jax], [py_utils], [trainer_lib] and [tasks_lib] supply to the
    checkpointers. *)
Record Runtime : Type := {
  local_device_count : Z;
  pmap_use_tensorstore : bool;
  total_num_vars : TrainState -> Z;
  initialize_partitioned_model_states :
    Key -> Spec -> option Spec -> CheckpointType -> Spec -> TrainState;
  initialize_model_state : Key -> Spec -> CheckpointType -> TrainState;
  replicate_model_state : TrainState -> TrainState;
  restore_pmap_from_tensorstore :
    M -> Spec -> CheckpointType -> option TrainState;
  convert_host_local_array_to_global_array : TrainState -> TrainState;
  first_replica : TrainState -> TrainState
}.

(** The abstract class [_TrainingCheckpointer].  The
    [train_state_pspecs] argument of the two save methods is dropped by
    both implementations and is left out. *)
Record TrainingCheckpointer : Type := {
  save_if_needed : Z -> TrainState -> World -> World;
  save_final : Z -> TrainState -> World -> World;
  get_model_states :
    option Spec -> TrainStateMetadata -> Key -> World ->
    Result (TrainState * Z) * World;
  checkpoint_type : CheckpointType;
  wait_until_finished : World -> World
}.

End Interfaces.

Arguments NoKwargs {Spec}.
Arguments CheckForErrors {TrainState Spec}.
Arguments WaitUntilFinished {TrainState Spec}.
Arguments MakeCheckpointDir {TrainState Spec}.
Arguments RestoreFromTensorstore {TrainState Spec} shapes.
Arguments Save {TrainState Spec} step st force.
Arguments Restore {TrainState Spec} step shapes kw.

(** ** train.py: [_OrbaxPjitTrainingCheckpointer] *)

Module OrbaxPjitTrainingCheckpointer.
Section Pjit.

Context {TrainState Spec Key M : Type}.
Variable cm : CheckpointManager TrainState Spec M.
Variable rt : Runtime TrainState Spec Key M.

Local Abbreviation World := (World TrainState Spec M).

Record t : Type := {
  _checkpoint_type : CheckpointType;
  _enable_checkpoint_saving : bool
}.

Definition __init__ (checkpoint_type : CheckpointType)
           (enable_checkpoint_saving : bool) : Result t :=
  if is_flax checkpoint_type
  then Raise (ValueError "FLAX checkpointing not supported for pjit models.")
  else Ok {| _checkpoint_type := checkpoint_type;
             _enable_checkpoint_saving := enable_checkpoint_saving |}.

Definition wait_until_finished (self : t) (w : World) : World :=
  manager_wait_until_finished cm w.

Definition _save_with_args (self : t) (step_i : Z)
           (partitioned_train_state : TrainState) (force : bool)
           (w : World) : World :=
  if negb (_enable_checkpoint_saving self) then w
  else manager_save cm step_i partitioned_train_state force w.

Definition _restore_with_args (self : t) (step_i : Z)
           (train_state_global_shapes : Spec) (global_mesh : option Spec)
           (train_state_pspecs : Spec) (w : World)
  : option TrainState * World :=
  let restore_args :=
    match _checkpoint_type self with
    | GDA => GdaKwargs train_state_pspecs global_mesh
    | PERSISTENCE => PersistenceKwargs train_state_pspecs global_mesh
    | FLAX => NoKwargs
    end in
  manager_restore cm step_i train_state_global_shapes restore_args w.

Definition save_final (self : t) (step_i : Z)
           (partitioned_train_state : TrainState) (w : World) : World :=
  let latest_step := latest_step cm (mgr w) in
  match latest_step with
  | None => _save_with_args self step_i partitioned_train_state true w
  | Some l =>
      if l <? step_i
      then _save_with_args self step_i partitioned_train_state true w
      else w
  end.

Definition save_if_needed (self : t) (step_i : Z)
           (partitioned_train_state : TrainState) (w : World) : World :=
  if negb (should_save cm (mgr w) step_i) then w
  else
    let w := _save_with_args self step_i partitioned_train_state false w in
    manager_check_for_errors w.

Definition get_model_states (self : t) (global_mesh : option Spec)
           (metadata : TrainStateMetadata Spec) (init_key : Key) (w : World)
  : Result (TrainState * Z) * World :=
  let step := latest_step cm (mgr w) in
  let '(partitioned_train_state, w) :=
    match step with
    | None => (None, w)
    | Some step =>
        _restore_with_args self step (padded_global_shapes metadata)
                           global_mesh (partition_specs metadata) w
    end in
  let partitioned_train_state :=
    match partitioned_train_state with
    | Some s => s
    | None =>
        initialize_partitioned_model_states
          rt init_key (input_shape_dtype metadata) global_mesh
          (_checkpoint_type self) (partition_specs metadata)
    end in
  let total_num_params := total_num_vars rt partitioned_train_state in
  (Ok (partitioned_train_state, total_num_params), w).

Definition as_checkpointer (self : t)
  : TrainingCheckpointer TrainState Spec Key M :=
  Build_TrainingCheckpointer
    (save_if_needed self) (save_final self) (get_model_states self)
    (_checkpoint_type self) (wait_until_finished self).

End Pjit.
End OrbaxPjitTrainingCheckpointer.

(** ** train.py: [_OrbaxPmapTrainingCheckpointer] *)

Module OrbaxPmapTrainingCheckpointer.
Section Pmap.

Context {TrainState Spec Key M : Type}.
Variable cm : CheckpointManager TrainState Spec M.
Variable rt : Runtime TrainState Spec Key M.

Local Abbreviation World := (World TrainState Spec M).

Record t : Type := {
  job_log_dir : string;
  _checkpoint_type : CheckpointType;
  _enable_checkpoint_saving : bool
}.

Definition __init__ (job_log_dir : string) (checkpoint_type : CheckpointType)
           (enable_checkpoint_saving : bool) : t :=
  {| job_log_dir := job_log_dir;
     _checkpoint_type := checkpoint_type;
     _enable_checkpoint_saving := enable_checkpoint_saving |}.

Definition wait_until_finished (self : t) (w : World) : World :=
  manager_wait_until_finished cm w.

Definition _restore_from_tensorstore (self : t)
           (train_state_global_shapes : Spec) (w : World)
  : option TrainState * World :=
  let w := record MakeCheckpointDir w in
  (restore_pmap_from_tensorstore rt (mgr w) train_state_global_shapes
                                 (_checkpoint_type self),
   record (RestoreFromTensorstore train_state_global_shapes) w).

(** Python's [a % b == 0] and [a // b]; both raise on a zero divisor. *)
Definition py_divides (a b : Z) : Result bool :=
  if b =? 0 then Raise ZeroDivisionError else Ok (a mod b =? 0).

Definition py_floordiv (a b : Z) : Result Z :=
  if b =? 0 then Raise ZeroDivisionError else Ok (a / b).

Definition get_model_states (self : t) (global_mesh : option Spec)
           (metadata : TrainStateMetadata Spec) (init_key : Key) (w : World)
  : Result (TrainState * Z) * World :=
  let train_state_global_shapes := unpadded_global_shapes metadata in
  let '(train_state, w) :=
    if pmap_use_tensorstore rt
    then _restore_from_tensorstore self train_state_global_shapes w
    else
      match latest_step cm (mgr w) with
      | None => (None, w)
      | Some step =>
          manager_restore cm step train_state_global_shapes NoKwargs w
      end in
  let train_state :=
    match train_state with
    | Some s => s
    | None =>
        initialize_model_state rt init_key (input_shape_dtype metadata)
                               (_checkpoint_type self)
    end in
  let partitioned_train_state := replicate_model_state rt train_state in
  let total_num_params := total_num_vars rt partitioned_train_state in
  ((ok <- py_divides total_num_params (local_device_count rt) ;;
    if negb ok then Raise AssertionError
    else
      total_num_params <-
        py_floordiv total_num_params (local_device_count rt) ;;
      Ok (partitioned_train_state, total_num_params))%result,
   w).

Definition _save_with_args (self : t) (step_i : Z) (train_state : TrainState)
           (force : bool) (w : World) : World :=
  manager_save cm step_i train_state force w.

Definition _save (self : t) (step_i : Z)
           (partitioned_train_state : TrainState) (is_final : bool)
           (w : World) : World :=
  if negb (_enable_checkpoint_saving self) then w
  else if pmap_use_tensorstore rt
  then
    let fully_replicated_gda_train_state :=
      convert_host_local_array_to_global_array rt partitioned_train_state in
    _save_with_args self step_i fully_replicated_gda_train_state is_final w
  else
    let unreplicated_train_state :=
      first_replica rt partitioned_train_state in
    _save_with_args self step_i unreplicated_train_state is_final w.

Definition save_if_needed (self : t) (step_i : Z)
           (partitioned_train_state : TrainState) (w : World) : World :=
  if negb (should_save cm (mgr w) step_i) then w
  else
    let w := _save self step_i partitioned_train_state false w in
    manager_check_for_errors w.

Definition save_final (self : t) (step_i : Z)
           (partitioned_train_state : TrainState) (w : World) : World :=
  let latest_step := latest_step cm (mgr w) in
  match latest_step with
  | None => _save self step_i partitioned_train_state true w
  | Some l =>
      if l <? step_i
      then _save self step_i partitioned_train_state true w
      else w
  end.

(** The state handed to the manager for a loop state [s]. *)
Definition marshal (s : TrainState) : TrainState :=
  if pmap_use_tensorstore rt
  then convert_host_local_array_to_global_array rt s
  else first_replica rt s.

Definition as_checkpointer (self : t)
  : TrainingCheckpointer TrainState Spec Key M :=
  Build_TrainingCheckpointer
    (save_if_needed self) (save_final self) (get_model_states self)
    (_checkpoint_type self) (wait_until_finished self).

End Pmap.
End OrbaxPmapTrainingCheckpointer.

(** ** The training loop

    The [while True] loop of [_train_and_evaluate_common].  The two files
    carry the same loop; [executors.py] adds the preemption check after
    [save_if_needed] and passes [train_to_end] to
    [tuning_lib.is_last_checkpoint].  The loop is written once, over
    [exit_after_ondemand_checkpoint] and [passes_train_to_end];
    [train.py] is the loop with both off, [executors.py] the loop with
    its own [exit_after_ondemand_checkpoint] and [passes_train_to_end]
    on.

    [E] is the state of the programs' environment (input iterators,
    random streams, summary sinks): [run], the eval loop, decode and the
    early-stopping policy may all change it.  The loop keeps a log of the
    calls it makes, in order. *)

Record BaseInput : Type := { name : string }.

(** [trainer_lib.RunningMode.detect]'s three arguments. *)
Record RunningMode : Type := detect {
  has_train_metrics : bool;
  has_eval_metrics : bool;
  has_decode_metrics : bool
}.

(** [task_p.train], the options the loop reads. *)
Record TrainHParams : Type := {
  num_train_steps : Z;
  eval_interval_steps : option Z;
  decode_interval_steps : option Z;
  save_interval_steps : option Z;
  decode_use_ema_states : bool
}.

Inductive StopReason : Type := completed | early_stop.

Section TrainingLoop.

Context {TrainState Spec M Metrics E : Type}.

Local Abbreviation World := (World TrainState Spec M).

Record ProgramOutputAux : Type := {
  new_train_step : Z;
  weighted_scalars : Metrics;
  steps_per_sec : Metrics;
  eval_train_metrics : Metrics
}.

Record ProgramOutput : Type := {
  state : TrainState;
  aux : ProgramOutputAux
}.

(** [programs.BaseTrainProgram]. *)
Record TrainProgram : Type := {
  setup : Z -> E -> E;
  should_run : TrainState -> Z -> bool;
  run : TrainState -> Z -> E -> ProgramOutput * E
}.

(** [programs.BaseEvalProgram]. *)
Record EvalProgram : Type := {
  eval_input : BaseInput;
  eval_setup : E -> E
}.

(** What the early-stopping policy is given at one step. *)
Record StepMetrics : Type := {
  train_weighted_scalars : Metrics;
  sm_eval_train_metrics : Metrics;
  eval_metrics : option Metrics;
  decode_metrics : option Metrics;
  train_steps_per_sec : Metrics;
  num_params : Z
}.

(** [trainer_lib.EarlyStoppingFn], with its optional [train_to_end]
    attribute ([getattr(early_stopping_fn, 'train_to_end', False)]). *)
Record EarlyStoppingFn : Type := {
  train_to_end : bool;
  should_early_stop : Z -> bool -> StepMetrics -> E -> bool * E
}.

(** [eval_lib], [programs], [tasks_lib] and [tuning_lib], as the loop
    uses them. *)
Record Collaborators : Type := {
  step_of : TrainState -> Z;
  get_eval_train_state : TrainState -> TrainState;
  run_eval_loop_over_test_splits :
    list EvalProgram -> TrainState -> Z -> E -> Metrics * E;
  decode_once_fn : TrainState -> E -> Metrics * E;
  has_ema : bool;
  extract_ema : TrainState -> TrainState;
  is_last_checkpoint :
    RunningMode -> Z -> Z -> option Z -> option Z -> option Z -> bool -> bool
}.

(** The checkpointer as the loop holds it. *)
Record LoopCheckpointer : Type := {
  ck_save_if_needed : Z -> TrainState -> World -> World;
  ck_save_final : Z -> TrainState -> World -> World;
  ck_wait_until_finished : World -> World;
  ck_reached_preemption : World -> Z -> bool
}.

Inductive Call : Type :=
| CallSaveIfNeeded (step : Z) (st : TrainState)
| CallReachedPreemption (step : Z) (ans : bool)
| CallShouldRun (step : Z) (st : TrainState) (ans : bool)
| CallRun (step : Z) (st : TrainState)
| CallEval (step : Z) (st : TrainState)
| CallDecode (st : TrainState)
| CallEarlyStop (step : Z) (is_last_ckpt : bool) (ans : bool)
| CallSaveFinal (step : Z) (st : TrainState)
| CallWaitUntilFinished
| CallSetup (step : Z)
| CallEvalSetup (input : BaseInput).

Record LoopState : Type := mk_loop {
  step_i : Z;
  partitioned_train_state : TrainState;
  world : World;
  env : E;
  log : list Call
}.

Definition emit (c : Call) (ls : LoopState) : LoopState :=
  mk_loop (step_i ls) (partitioned_train_state ls) (world ls) (env ls)
          (log ls ++ [c]).

Definition with_world (w : World) (ls : LoopState) : LoopState :=
  mk_loop (step_i ls) (partitioned_train_state ls) w (env ls) (log ls).

Definition with_env (e : E) (ls : LoopState) : LoopState :=
  mk_loop (step_i ls) (partitioned_train_state ls) (world ls) e (log ls).

(** How one pass through the loop body ends. *)
Inductive Step : Type :=
| Continue (ls : LoopState)
| Break (reason : StopReason) (ls : LoopState)
| Exit (code : Z) (ls : LoopState)
| Throw (e : Exn) (ls : LoopState).

Variable train_p : TrainHParams.
Variable co : Collaborators.
Variable train_program : TrainProgram.
Variable eval_programs : list EvalProgram.
Variable decode_input_p : list BaseInput.
Variable total_num_params : Z.
Variable early_stopping_fn : option EarlyStoppingFn.
Variable checkpointer : LoopCheckpointer.
Variable exit_after_ondemand_checkpoint : bool.
Variable passes_train_to_end : bool.

Definition nonempty {A : Type} (l : list A) : bool :=
  match l with [] => false | _ => true end.

Definition is_some {A : Type} (o : option A) : bool :=
  match o with Some _ => true | None => false end.

Definition ema_error : Exn :=
  ValueError
    "decode_use_ema_states is requested but the learner does not seem to have ema enabled".

(** Run eval at regular step interval. *)
Definition eval_phase (ls : LoopState) : option Metrics * LoopState :=
  if interval_hit (eval_interval_steps train_p) (step_i ls) then
    let eval_partitioned_train_state :=
      get_eval_train_state co (partitioned_train_state ls) in
    if nonempty eval_programs then
      let ls := emit (CallEval (step_i ls) eval_partitioned_train_state) ls in
      let '(m, e) :=
        run_eval_loop_over_test_splits
          co eval_programs eval_partitioned_train_state (step_i ls) (env ls) in
      (Some m, with_env e ls)
    else (None, ls)
  else (None, ls).

Definition decode_phase (ls : LoopState)
  : Result (option Metrics) * LoopState :=
  if nonempty decode_input_p
     && interval_hit (decode_interval_steps train_p) (step_i ls)
  then
    if decode_use_ema_states train_p then
      if negb (has_ema co) then (Raise ema_error, ls)
      else
        let decode_partitioned_train_state :=
          extract_ema co (partitioned_train_state ls) in
        let ls := emit (CallDecode decode_partitioned_train_state) ls in
        let '(m, e) :=
          decode_once_fn co decode_partitioned_train_state (env ls) in
        (Ok (Some m), with_env e ls)
    else
      let decode_partitioned_train_state := partitioned_train_state ls in
      let ls := emit (CallDecode decode_partitioned_train_state) ls in
      let '(m, e) :=
        decode_once_fn co decode_partitioned_train_state (env ls) in
      (Ok (Some m), with_env e ls)
  else (Ok None, ls).

Definition early_stop_phase (out : ProgramOutput)
           (eval_metrics decode_metrics : option Metrics) (ls : LoopState)
  : Step :=
  match early_stopping_fn with
  | None => Continue ls
  | Some fn =>
      let is_last_ckpt :=
        is_last_checkpoint
          co
          (detect true (is_some eval_metrics) (is_some decode_metrics))
          (step_i ls) (num_train_steps train_p)
          (eval_interval_steps train_p) (decode_interval_steps train_p)
          (save_interval_steps train_p)
          (passes_train_to_end && train_to_end fn) in
      let '(stop, e) :=
        should_early_stop
          fn (step_i ls) is_last_ckpt
          {| train_weighted_scalars := weighted_scalars (aux out);
             sm_eval_train_metrics := eval_train_metrics (aux out);
             eval_metrics := eval_metrics;
             decode_metrics := decode_metrics;
             train_steps_per_sec := steps_per_sec (aux out);
             num_params := total_num_params |}
          (env ls) in
      let ls := emit (CallEarlyStop (step_i ls) is_last_ckpt stop)
                     (with_env e ls) in
      if stop then Break early_stop ls else Continue ls
  end.

(** The train step and what follows it in the body. *)
Definition train_phase (ls : LoopState) : Step :=
  let ls := emit (CallRun (step_i ls) (partitioned_train_state ls)) ls in
  let '(program_output, e) :=
    run train_program (partitioned_train_state ls) (step_i ls) (env ls) in
  let ls :=
    mk_loop (new_train_step (aux program_output)) (state program_output)
            (world ls) e (log ls) in
  let '(eval_metrics, ls) := eval_phase ls in
  match decode_phase ls with
  | (Raise e, ls) => Throw e ls
  | (Ok decode_metrics, ls) =>
      early_stop_phase program_output eval_metrics decode_metrics ls
  end.

Definition loop_body (ls : LoopState) : Step :=
  let ls :=
    emit (CallSaveIfNeeded (step_i ls) (partitioned_train_state ls)) ls in
  let ls :=
    with_world
      (ck_save_if_needed checkpointer (step_i ls)
                         (partitioned_train_state ls) (world ls)) ls in
  let continue_body (ls : LoopState) : Step :=
    let go := should_run train_program (partitioned_train_state ls)
                         (step_i ls) in
    let ls :=
      emit (CallShouldRun (step_i ls) (partitioned_train_state ls) go) ls in
    if negb go then Break completed ls else train_phase ls in
  if exit_after_ondemand_checkpoint then
    let hit := ck_reached_preemption checkpointer (world ls) (step_i ls) in
    let ls := emit (CallReachedPreemption (step_i ls) hit) ls in
    if hit then
      let ls :=
        with_world (ck_wait_until_finished checkpointer (world ls)) ls in
      Exit 1 (emit CallWaitUntilFinished ls)
    else continue_body ls
  else continue_body ls.

(** How [_train_and_evaluate_common] ends.  [Returned] is the normal
    return to the caller; [Diverged] marks a run whose fuel ran out
    before the loop stopped. *)
Inductive Outcome : Type :=
| Returned (reason : StopReason) (ls : LoopState)
| Exited (code : Z) (ls : LoopState)
| Raised (e : Exn) (ls : LoopState)
| Diverged (ls : LoopState).

(** Save checkpoint for the last step, then wait. *)
Definition finish (ls : LoopState) : LoopState :=
  let ls :=
    emit (CallSaveFinal (step_i ls) (partitioned_train_state ls)) ls in
  let ls :=
    with_world
      (ck_save_final checkpointer (step_i ls) (partitioned_train_state ls)
                     (world ls)) ls in
  let ls := with_world (ck_wait_until_finished checkpointer (world ls)) ls in
  emit CallWaitUntilFinished ls.

Fixpoint while_true (fuel : nat) (ls : LoopState) : Outcome :=
  match fuel with
  | O => Diverged ls
  | S fuel =>
      match loop_body ls with
      | Continue ls => while_true fuel ls
      | Break reason ls => Returned reason (finish ls)
      | Exit code ls => Exited code ls
      | Throw e ls => Raised e ls
      end
  end.

Definition final_state (o : Outcome) : LoopState :=
  match o with
  | Returned _ ls | Exited _ ls | Raised _ ls | Diverged ls => ls
  end.

End TrainingLoop.

(** ** [trainer_lib.check_unique_names] *)

(** Modelled from the spec: [trainer_lib.check_unique_names] is not part
    of the two files.  The design document requires the declared
    input-source names of programs registered together to be pairwise
    distinct, a duplicate being a fatal configuration error; the check
    walks the inputs and raises at the first name seen before. *)
Fixpoint check_unique_names_from (seen : list string) (inputs : list BaseInput)
  : Result unit :=
  match inputs with
  | [] => Ok tt
  | inp :: rest =>
      if existsb (String.eqb (name inp)) seen
      then Raise (ValueError ("Duplicate param/input name found: " ++ name inp))
      else check_unique_names_from (name inp :: seen) rest
  end.

Definition check_unique_names (inputs : list BaseInput) : Result unit :=
  check_unique_names_from [] inputs.

(** ** executors.py: [_train_and_evaluate_common] *)

Module Executors.
Section Executors.

Context {TrainState Spec M Metrics E : Type}.

Local Abbreviation World := (World TrainState Spec M).
Local Abbreviation LoopState := (@LoopState TrainState Spec M E).
Local Abbreviation Outcome := (@Outcome TrainState Spec M E).

(** [checkpoints.TrainingCheckpointer] as this file uses it.  The
    shape, partition-spec and input-pipeline arguments of the save
    methods are fixed for the run and are part of the closures. *)
Record TrainingCheckpointer : Type := {
  methods : @LoopCheckpointer TrainState Spec M;
  step_to_restore : option Z
}.

(** [DefaultExecutor._create_decode_programs]. *)
Definition _create_decode_programs (decode_input_params : list BaseInput)
  : Result (list BaseInput) :=
  (check_unique_names decode_input_params ;;; Ok decode_input_params)%result.

(** [DefaultExecutor.partition_decode_once_fns], up to the names it
    returns. *)
Definition partition_decode_once_fns (decode_input_ps : list BaseInput)
  : Result (list string) :=
  (decode_programs <- _create_decode_programs decode_input_ps ;;
   Ok (map name decode_programs))%result.

Fixpoint setup_eval_programs (programs : list (@EvalProgram E))
         (ls : LoopState) : LoopState :=
  match programs with
  | [] => ls
  | program :: rest =>
      let ls := emit (CallEvalSetup (eval_input program)) ls in
      setup_eval_programs rest (with_env (eval_setup program (env ls)) ls)
  end.

Definition _train_and_evaluate_common
           (fuel : nat)
           (train_p : TrainHParams)
           (co : @Collaborators TrainState Metrics E)
           (train_program : @TrainProgram TrainState Metrics E)
           (partitioned_train_state : TrainState)
           (eval_programs : list (@EvalProgram E))
           (decode_input_p : list BaseInput)
           (total_num_params : Z)
           (early_stopping_fn : option (@EarlyStoppingFn Metrics E))
           (checkpointer : TrainingCheckpointer)
           (exit_after_ondemand_checkpoint : bool)
           (w : World) (e : E) : Outcome :=
  let ls0 := mk_loop (step_of co partitioned_train_state)
                     partitioned_train_state w e [] in
  match (if nonempty decode_input_p
         then partition_decode_once_fns decode_input_p
         else Ok []) with
  | Raise err => Raised err ls0
  | Ok decode_input_names =>
      let initial_global_step := step_of co partitioned_train_state in
      if match step_to_restore checkpointer with
         | None => false
         | Some r => negb (r =? initial_global_step)
         end
      then Raised AssertionError ls0
      else
        let step_i := initial_global_step in
        let ls := emit (CallSetup step_i)
                       (with_env (setup train_program step_i e) ls0) in
        let ls := setup_eval_programs eval_programs ls in
        match check_unique_names (map eval_input eval_programs) with
        | Raise err => Raised err ls
        | Ok _ =>
            while_true train_p co train_program eval_programs
                       decode_input_p total_num_params early_stopping_fn
                       (methods checkpointer)
                       exit_after_ondemand_checkpoint true fuel ls
        end
  end.

End Executors.
End Executors.

(** ** train.py: the loop and its two entry points *)

Module Train.
Section Train.

Context {TrainState Spec Key M Metrics E : Type}.

Local Abbreviation World := (World TrainState Spec M).
Local Abbreviation LoopState := (@LoopState TrainState Spec M E).
Local Abbreviation Outcome := (@Outcome TrainState Spec M E).

(** A [_TrainingCheckpointer] as the loop holds it; the loop of this
    file never asks about preemption. *)
Definition loop_checkpointer
           (checkpointer : TrainingCheckpointer TrainState Spec Key M)
  : @LoopCheckpointer TrainState Spec M :=
  {| ck_save_if_needed := save_if_needed checkpointer;
     ck_save_final := save_final checkpointer;
     ck_wait_until_finished := wait_until_finished checkpointer;
     ck_reached_preemption := fun _ _ => false |}.

Definition _train_and_evaluate_common
           (fuel : nat)
           (train_p : TrainHParams)
           (co : @Collaborators TrainState Metrics E)
           (train_program : @TrainProgram TrainState Metrics E)
           (partitioned_train_state : TrainState)
           (test_eval_programs : list (@EvalProgram E))
           (decode_input_p : list BaseInput)
           (total_num_params : Z)
           (early_stopping_fn : option (@EarlyStoppingFn Metrics E))
           (checkpointer : TrainingCheckpointer TrainState Spec Key M)
           (partition_decode_once_fns : list BaseInput -> Result unit)
           (w : World) (e : E) : Outcome :=
  let ls0 := mk_loop (step_of co partitioned_train_state)
                     partitioned_train_state w e [] in
  match (if nonempty decode_input_p
         then partition_decode_once_fns decode_input_p
         else Ok tt) with
  | Raise err => Raised err ls0
  | Ok _ =>
      let step_i := step_of co partitioned_train_state in
      let ls := emit (CallSetup step_i)
                     (with_env (setup train_program step_i e) ls0) in
      while_true train_p co train_program test_eval_programs
                 decode_input_p total_num_params early_stopping_fn
                 (loop_checkpointer checkpointer) false false fuel ls
  end.

(** [_create_program_and_states], restricted to what it hands to the
    loop: the restored or initialized state and the parameter count. *)
Definition _create_program_and_states
           (checkpointer : TrainingCheckpointer TrainState Spec Key M)
           (global_mesh : option Spec)
           (train_state_metadata : TrainStateMetadata Spec)
           (init_key : Key) (w : World)
  : Result (TrainState * Z) * World :=
  get_model_states checkpointer global_mesh train_state_metadata init_key w.

(** The merge of the task's own early-stopping function with the one
    passed as an argument. *)
Definition merge_early_stopping
           (early_stopping_fn_inst early_stopping_fn
              : option (@EarlyStoppingFn Metrics E))
  : Result (option (@EarlyStoppingFn Metrics E)) :=
  match early_stopping_fn_inst with
  | None => Ok early_stopping_fn
  | Some f =>
      match early_stopping_fn with
      | None => Ok (Some f)
      | Some _ =>
          Raise (ValueError
                   "early_stopping_fn is set in both task and train_and_evel function parameter.")
      end
  end.

(** [programs.SingleTaskEvalProgram(task, e_input_p, partitioner)]. *)
Definition SingleTaskEvalProgram (e_input_p : BaseInput) : @EvalProgram E :=
  {| eval_input := e_input_p; eval_setup := fun e => e |}.

Definition train_and_evaluate_pmap
           (fuel : nat)
           (train_p : TrainHParams)
           (co : @Collaborators TrainState Metrics E)
           (train_program : @TrainProgram TrainState Metrics E)
           (checkpointer : TrainingCheckpointer TrainState Spec Key M)
           (global_mesh : option Spec)
           (train_state_metadata : TrainStateMetadata Spec)
           (init_key : Key)
           (eval_input_p decode_input_p : list BaseInput)
           (early_stopping_fn_inst early_stopping_fn
              : option (@EarlyStoppingFn Metrics E))
           (w : World) (e : E) : Result Outcome :=
  match _create_program_and_states checkpointer global_mesh
                                   train_state_metadata init_key w with
  | (Raise err, _) => Raise err
  | (Ok (partitioned_train_state, total_num_params), w) =>
      if is_some global_mesh then Raise AssertionError
      else
        (early_stopping_fn <-
           merge_early_stopping early_stopping_fn_inst early_stopping_fn ;;
         let test_eval_programs := map SingleTaskEvalProgram eval_input_p in
         check_unique_names (map eval_input test_eval_programs) ;;;
         Ok (_train_and_evaluate_common
               fuel train_p co train_program partitioned_train_state
               test_eval_programs decode_input_p total_num_params
               early_stopping_fn checkpointer check_unique_names w e))%result
  end.

Definition train_and_evaluate_spmd_model
           (fuel : nat)
           (train_p : TrainHParams)
           (co : @Collaborators TrainState Metrics E)
           (train_program : @TrainProgram TrainState Metrics E)
           (checkpointer : TrainingCheckpointer TrainState Spec Key M)
           (global_mesh : option Spec)
           (train_state_metadata : TrainStateMetadata Spec)
           (init_key : Key)
           (eval_input_p decode_input_p : list BaseInput)
           (early_stopping_fn_inst early_stopping_fn
              : option (@EarlyStoppingFn Metrics E))
           (w : World) (e : E) : Result Outcome :=
  match _create_program_and_states checkpointer global_mesh
                                   train_state_metadata init_key w with
  | (Raise err, _) => Raise err
  | (Ok (partitioned_train_state, total_num_params), w) =>
      (early_stopping_fn <-
         merge_early_stopping early_stopping_fn_inst early_stopping_fn ;;
       let test_eval_programs := map SingleTaskEvalProgram eval_input_p in
       Ok (_train_and_evaluate_common
             fuel train_p co train_program partitioned_train_state
             test_eval_programs decode_input_p total_num_params
             early_stopping_fn checkpointer check_unique_names w e))%result
  end.

End Train.
End Train.

(** ** Observing the call log *)

Section Observation.

Context {TrainState Spec M Metrics E : Type}.

Local Abbreviation LoopState := (@LoopState TrainState Spec M E).

Variable co : @Collaborators TrainState Metrics E.
Variable train_program : @TrainProgram TrainState Metrics E.

(** An observer of the call log: the step and state the loop should be
    holding, and whether the save decision for them has been taken. *)
Record Observer : Type := mk_obs {
  obs_step : Z;
  obs_state : TrainState;
  decided : bool
}.

(** The calls the observer admits, and how each moves it.  Only [run]
    moves the step and the state, and it moves them to the output of
    the train program; [run] needs the save decision taken; every save
    is of the step and state held. *)
Inductive admits (o : Observer) : @Call TrainState -> Observer -> Prop :=
| admits_save_if_needed :
    decided o = false ->
    admits o (CallSaveIfNeeded (obs_step o) (obs_state o))
           (mk_obs (obs_step o) (obs_state o) true)
| admits_run (e : E) :
    decided o = true ->
    admits o (CallRun (obs_step o) (obs_state o))
           (mk_obs
              (new_train_step
                 (aux (fst (run train_program (obs_state o) (obs_step o) e))))
              (state (fst (run train_program (obs_state o) (obs_step o) e)))
              false)
| admits_eval :
    decided o = false ->
    admits o (CallEval (obs_step o) (get_eval_train_state co (obs_state o))) o
| admits_decode :
    decided o = false ->
    admits o (CallDecode (obs_state o)) o
| admits_decode_ema :
    decided o = false ->
    admits o (CallDecode (extract_ema co (obs_state o))) o
| admits_early_stop (is_last ans : bool) :
    decided o = false ->
    admits o (CallEarlyStop (obs_step o) is_last ans) o
| admits_save_final :
    admits o (CallSaveFinal (obs_step o) (obs_state o)) o
| admits_should_run (ans : bool) :
    decided o = true ->
    admits o (CallShouldRun (obs_step o) (obs_state o) ans) o
| admits_reached_preemption (ans : bool) :
    decided o = true ->
    admits o (CallReachedPreemption (obs_step o) ans) o
| admits_wait : admits o CallWaitUntilFinished o
| admits_setup (n : Z) : admits o (CallSetup n) o
| admits_eval_setup (i : BaseInput) : admits o (CallEvalSetup i) o.

Inductive observes (o : Observer) : list (@Call TrainState) -> Observer -> Prop :=
| observes_nil : observes o [] o
| observes_cons c l o1 o2 :
    admits o c o1 -> observes o1 l o2 -> observes o (c :: l) o2.

(** The observer, started at [o0], has followed the log of [ls] and
    holds the step and state of [ls]. *)
Definition tracks (o0 : Observer) (d : bool) (ls : LoopState) : Prop :=
  observes o0 (log ls) (mk_obs (step_i ls) (partitioned_train_state ls) d).

Definition step_state (s : @Step TrainState Spec M E) : LoopState :=
  match s with
  | Continue ls | Break _ ls | Exit _ ls | Throw _ ls => ls
  end.

End Observation.

(** Counting calls of one kind in a log, and the answer of the first
    early-stopping call. *)
Section Counting.

Context {TrainState : Type}.

Definition is_run (c : @Call TrainState) : bool :=
  match c with CallRun _ _ => true | _ => false end.

Definition is_decode (c : @Call TrainState) : bool :=
  match c with CallDecode _ => true | _ => false end.

Definition is_eval (c : @Call TrainState) : bool :=
  match c with CallEval _ _ => true | _ => false end.

Definition count (p : @Call TrainState -> bool) (l : list (@Call TrainState))
  : nat :=
  List.length (filter p l).

Fixpoint first_early_stop (l : list (@Call TrainState)) : option bool :=
  match l with
  | [] => None
  | CallEarlyStop _ _ ans :: _ => Some ans
  | _ :: r => first_early_stop r
  end.

End Counting.

(** ** A checkpoint manager after the design document *)

Module IntervalManager.
Section IntervalManager.

Variables TrainState Spec : Type.

(** Modelled from the spec: [checkpoint_managers.OrbaxCheckpointManager]
    is not part of the two files.  After the design document:
    [should_save step] holds when [step] is a multiple of
    [save_interval_steps]; a forced save is unconditional; the latest
    step is the newest checkpoint's step; [restore] returns the
    checkpoint taken at the step asked for.  Writes complete at once, so
    draining changes nothing. *)
Record Dir : Type := {
  interval : Z;
  checkpoints : list (Z * TrainState)
}.

Definition should_save (d : Dir) (step : Z) : bool :=
  step mod interval d =? 0.

Fixpoint newest (l : list (Z * TrainState)) : option Z :=
  match l with
  | [] => None
  | (n, _) :: r =>
      match newest r with
      | None => Some n
      | Some m => Some (Z.max n m)
      end
  end.

Definition latest_step (d : Dir) : option Z := newest (checkpoints d).

Definition save (d : Dir) (step : Z) (st : TrainState) (force : bool) : Dir :=
  if force || should_save d step
  then {| interval := interval d; checkpoints := (step, st) :: checkpoints d |}
  else d.

Fixpoint lookup (l : list (Z * TrainState)) (step : Z) : option TrainState :=
  match l with
  | [] => None
  | (n, st) :: r => if n =? step then Some st else lookup r step
  end.

Definition restore (d : Dir) (step : Z) (shapes : Spec)
           (kw : RestoreKwargs Spec) : option TrainState :=
  lookup (checkpoints d) step.

Definition manager : CheckpointManager TrainState Spec Dir :=
  Build_CheckpointManager should_save latest_step save restore (fun d => d).

End IntervalManager.
End IntervalManager.

(** ** A small instance

    A train state of three integers, a train program that advances the
    step by one up to a horizon, and collaborators that do nothing; used
    where a statement is evaluated. *)

Module Demo.

Record State : Type := {
  at_step : Z;
  weights : Z;
  num_vars : Z
}.

Definition Dir : Type := IntervalManager.Dir State.

Definition manager : CheckpointManager State unit Dir :=
  IntervalManager.manager State unit.

Definition output (s : State) (step : Z) : @ProgramOutput State unit :=
  {| state := {| at_step := step + 1;
                 weights := weights s + 1;
                 num_vars := num_vars s |};
     aux := {| new_train_step := step + 1;
               weighted_scalars := tt;
               steps_per_sec := tt;
               eval_train_metrics := tt |} |}.

(** The environment counts the calls of the early-stopping policy. *)
Definition program (K : Z) : @TrainProgram State unit nat :=
  {| setup := fun _ e => e;
     should_run := fun _ step => step <? K;
     run := fun s step e => (output s step, e) |}.

Definition collaborators (ema : bool) : @Collaborators State unit nat :=
  {| step_of := at_step;
     get_eval_train_state := fun s => s;
     run_eval_loop_over_test_splits := fun _ _ _ e => (tt, e);
     decode_once_fn := fun _ e => (tt, e);
     has_ema := ema;
     extract_ema := fun s => s;
     is_last_checkpoint := fun _ step n _ _ _ _ => n <=? step |}.

(** A policy that stops at its first call. *)
Definition stop_at_once : @EarlyStoppingFn unit nat :=
  {| train_to_end := false;
     should_early_stop := fun _ _ _ e => (Nat.eqb e 0, S e) |}.

Definition hparams (K : Z) (decode_every : option Z) (use_ema : bool)
  : TrainHParams :=
  {| num_train_steps := K;
     eval_interval_steps := None;
     decode_interval_steps := decode_every;
     save_interval_steps := Some 5;
     decode_use_ema_states := use_ema |}.

Definition runtime (devices : Z) (tensorstore : bool)
  : Runtime State unit unit Dir :=
  {| local_device_count := devices;
     pmap_use_tensorstore := tensorstore;
     total_num_vars := num_vars;
     initialize_partitioned_model_states :=
       fun _ _ _ _ _ => {| at_step := 0; weights := 0; num_vars := 7 |};
     initialize_model_state :=
       fun _ _ _ => {| at_step := 0; weights := 0; num_vars := 7 |};
     replicate_model_state :=
       fun s => {| at_step := at_step s; weights := weights s;
                   num_vars := devices * num_vars s |};
     restore_pmap_from_tensorstore :=
       fun d _ _ =>
         match IntervalManager.latest_step d with
         | None => None
         | Some n => IntervalManager.lookup (IntervalManager.checkpoints d) n
         end;
     convert_host_local_array_to_global_array := fun s => s;
     first_replica :=
       fun s => {| at_step := at_step s; weights := weights s;
                   num_vars := num_vars s / devices |} |}.

Definition metadata : TrainStateMetadata unit :=
  {| input_shape_dtype := tt;
     padded_global_shapes := tt;
     unpadded_global_shapes := tt;
     partition_specs := tt |}.

Definition start : State := {| at_step := 0; weights := 0; num_vars := 7 |}.

Definition empty_dir : Dir :=
  {| IntervalManager.interval := 5; IntervalManager.checkpoints := [] |}.

Definition world0 : World State unit Dir := mk_world empty_dir [].

Definition pjit (enable : bool) : OrbaxPjitTrainingCheckpointer.t :=
  {| OrbaxPjitTrainingCheckpointer._checkpoint_type := GDA;
     OrbaxPjitTrainingCheckpointer._enable_checkpoint_saving := enable |}.

Definition pmap (enable : bool) : OrbaxPmapTrainingCheckpointer.t :=
  {| OrbaxPmapTrainingCheckpointer.job_log_dir := "/logs";
     OrbaxPmapTrainingCheckpointer._checkpoint_type := GDA;
     OrbaxPmapTrainingCheckpointer._enable_checkpoint_saving := enable |}.

Definition pjit_checkpointer (enable : bool)
  : TrainingCheckpointer State unit unit Dir :=
  OrbaxPjitTrainingCheckpointer.as_checkpointer manager (runtime 1 false)
                                                (pjit enable).

(** A checkpointer for [executors.py]: the sharded checkpointer of
    [train.py], with preemption signalled from step [from] on. *)
Definition exec_checkpointer (preempt_from : option Z)
  : @Executors.TrainingCheckpointer State unit Dir :=
  {| Executors.methods :=
       {| ck_save_if_needed :=
            OrbaxPjitTrainingCheckpointer.save_if_needed manager (pjit true);
          ck_save_final :=
            OrbaxPjitTrainingCheckpointer.save_final manager (pjit true);
          ck_wait_until_finished :=
            OrbaxPjitTrainingCheckpointer.wait_until_finished manager
                                                              (pjit true);
          ck_reached_preemption :=
            fun _ step =>
              match preempt_from with
              | None => false
              | Some n => n <=? step
              end |};
     Executors.step_to_restore := None |}.

End Demo.

(** ** What a save operation did *)

Section SaveEffects.

Context {TrainState Spec M : Type}.

(** From [w] to [w'] exactly one call was issued to the manager: a
    forced save at step [N]. *)
Definition performs_forced_save (w w' : World TrainState Spec M) (N : Z)
  : Prop :=
  exists st, calls w' = calls w ++ [Save N st true].

(** From [w] to [w'] the manager's state is the same and no save call was
    issued. *)
Definition writes_nothing (w w' : World TrainState Spec M) : Prop :=
  mgr w' = mgr w
  /\ filter (@is_save TrainState Spec) (calls w')
     = filter (@is_save TrainState Spec) (calls w).

(** No checkpoint yet, or the newest one is older than step [N]. *)
Definition none_or_older (latest : option Z) (N : Z) : Prop :=
  match latest with
  | None => True
  | Some l => l < N
  end.

End SaveEffects.

(** ** Words for one pass through the loop body *)

Section LoopVocabulary.

Context {TrainState Spec M Metrics E : Type}.

Local Abbreviation LoopState := (@LoopState TrainState Spec M E).

Variable train_p : TrainHParams.
Variable co : @Collaborators TrainState Metrics E.
Variable decode_input_p : list BaseInput.
Variable checkpointer : @LoopCheckpointer TrainState Spec M.
Variable exit_after_ondemand_checkpoint : bool.

(** [ls'] holds the step, state and world of [ls]; its log is the log of
    [ls] followed by [evs]. *)
Definition extends (ls ls' : LoopState) (evs : list (@Call TrainState)) : Prop :=
  step_i ls' = step_i ls
  /\ partitioned_train_state ls' = partitioned_train_state ls
  /\ world ls' = world ls
  /\ log ls' = log ls ++ evs.

(** Decode is due at [step], and EMA states are asked for though the
    task has none. *)
Definition decode_due (step : Z) : bool :=
  nonempty decode_input_p && interval_hit (decode_interval_steps train_p) step.

Definition ema_unavailable : bool :=
  decode_use_ema_states train_p && negb (has_ema co).

(** The world after the save decision for the step and state of [ls]. *)
Definition decided_world (ls : LoopState) : World TrainState Spec M :=
  ck_save_if_needed checkpointer (step_i ls) (partitioned_train_state ls)
                    (world ls).

(** Whether this pass leaves through the preemption exit. *)
Definition preempted (ls : LoopState) : bool :=
  exit_after_ondemand_checkpoint
  && ck_reached_preemption checkpointer (decided_world ls) (step_i ls).

(** The calls of the body up to and including [should_run]. *)
Definition prologue (ls : LoopState) : list (@Call TrainState) :=
  CallSaveIfNeeded (step_i ls) (partitioned_train_state ls)
  :: (if exit_after_ondemand_checkpoint
      then [CallReachedPreemption
              (step_i ls)
              (ck_reached_preemption checkpointer (decided_world ls) (step_i ls))]
      else []).

(** The steps still to run before the horizon [K]. *)
Definition remaining (K : Z) (ls : LoopState) : nat := Z.to_nat (K - step_i ls).

End LoopVocabulary.

(** ** Words for duration strings *)

(** Every character of [s] satisfies [p]. *)
Fixpoint all_chars (p : ascii -> bool) (s : string) : bool :=
  match s with
  | EmptyString => true
  | String c r => p c && all_chars p r
  end.

(** [s] is empty or begins with a character that fails [p]. *)
Definition stops (p : ascii -> bool) (s : string) : Prop :=
  match s with
  | EmptyString => True
  | String c _ => p c = false
  end.

(** The largest number of seconds a [timedelta] holds, plus one. *)
Definition timedelta_limit : Z := 86400 * 1000000000.

(** ** What is asked of a checkpoint manager *)

Section ManagerLaws.

Context {TrainState Spec M : Type}.
Variable cm : CheckpointManager TrainState Spec M.

(** A forced save at a step newer than every checkpoint becomes the
    latest step, and restoring that step gives back the state saved. *)
Definition keeps_forced_saves : Prop :=
  forall m N st,
    none_or_older (latest_step cm m) N ->
    latest_step cm (save cm m N st true) = Some N
    /\ forall shapes kw, restore cm (save cm m N st true) N shapes kw = Some st.

(** After a save the manager was due to take, forced or asked for by
    [should_save], the latest step is that step or a later one. *)
Definition latest_follows_saves : Prop :=
  forall m N st force,
    force || should_save cm m N = true ->
    exists l, latest_step cm (save cm m N st force) = Some l /\ N <= l.

(** Waiting for the writes in flight does not change which step is the
    latest. *)
Definition drain_keeps_latest : Prop :=
  forall m, latest_step cm (drain cm m) = latest_step cm m.

End ManagerLaws.

(** ** More kinds of calls *)

Section MoreCounting.

Context {TrainState : Type}.

Definition is_save_if_needed (c : @Call TrainState) : bool :=
  match c with CallSaveIfNeeded _ _ => true | _ => false end.

Definition is_save_final (c : @Call TrainState) : bool :=
  match c with CallSaveFinal _ _ => true | _ => false end.

Definition is_wait (c : @Call TrainState) : bool :=
  match c with CallWaitUntilFinished => true | _ => false end.

Definition is_early_stop (c : @Call TrainState) : bool :=
  match c with CallEarlyStop _ _ _ => true | _ => false end.

(** The calls that may follow [run] inside one pass. *)
Definition after_run (c : @Call TrainState) : bool :=
  is_eval c || is_decode c || is_early_stop c.

(** Every eval call of the log is at a step the interval asks for. *)
Definition evals_on_interval (interval : option Z) (l : list (@Call TrainState))
  : bool :=
  forallb (fun c => match c with
                    | CallEval n _ => interval_hit interval n
                    | _ => true
                    end) l.

End MoreCounting.

(** ** Where the loop may place a call *)

Section Placement.

Context {TrainState Metrics E : Type}.

Variable train_p : TrainHParams.
Variable eval_programs : list (@EvalProgram E).
Variable decode_input_p : list BaseInput.
Variable early_stopping_fn : option (@EarlyStoppingFn Metrics E).
Variable exit_after_ondemand_checkpoint : bool.

(** An optional interval that is set and not zero. *)
Definition interval_set (interval : option Z) : bool :=
  match interval with
  | None => false
  | Some n => negb (n =? 0)
  end.

(** What the configuration allows of a call made inside the loop: eval
    only at a step its interval hits and with eval programs to run,
    decode only with decode inputs and a decode interval, the
    early-stopping policy only when there is one, the preemption query
    only under [exit_after_ondemand_checkpoint]; the set-up calls are
    not made inside the loop. *)
Definition well_placed (c : @Call TrainState) : bool :=
  match c with
  | CallEval n _ =>
      nonempty eval_programs && interval_hit (eval_interval_steps train_p) n
  | CallDecode _ =>
      nonempty decode_input_p && interval_set (decode_interval_steps train_p)
  | CallEarlyStop _ _ _ => is_some early_stopping_fn
  | CallReachedPreemption _ _ => exit_after_ondemand_checkpoint
  | CallSetup _ | CallEvalSetup _ => false
  | _ => true
  end.

Definition is_should_run (c : @Call TrainState) : bool :=
  match c with CallShouldRun _ _ _ => true | _ => false end.

(** The passes of the loop an outcome owes a train step to: every pass
    but the one that found nothing left to run or left through the
    preemption exit. *)
Definition passes_without_run {Spec M : Type}
           (o : @Outcome TrainState Spec M E) : nat :=
  match o with
  | Returned completed _ | Exited _ _ => 1%nat
  | Returned early_stop _ | Raised _ _ | Diverged _ => 0%nat
  end.

(** The save calls among the calls the manager has seen. *)
Definition saves_of {Spec M : Type} (w : World TrainState Spec M)
  : list (MgrCall TrainState Spec) :=
  filter (@is_save TrainState Spec) (calls w).

End Placement.

(** ** train.py: from the experiment to the loop

    [_create_checkpointer], [_maybe_update_latest_model_step],
    [_create_program_and_states] with its partitioner and its choice of
    train program, the two entry points with the arguments they pass
    on, and [train_and_evaluate].  Writing the model hparams file,
    logging, the registration of type handlers and the conversion of
    [fprop_dtype] are left out; the PRNG keys of the programs are part
    of the environment [E]. *)

Module Launch.
Section Launch.

Context {TrainState Spec Key M Metrics E Async : Type}.

Local Abbreviation World := (World TrainState Spec M).
Local Abbreviation Outcome := (@Outcome TrainState Spec M E).

(** [base_input.BaseInput.HParams], as these functions read and write
    it.  [instance p] is [instantiate(p)], which carries the name;
    [is_input_hparams] is the [isinstance] test of [train_and_evaluate]
    and [to_text] the text its error message shows;
    [deterministic_input_start_index] is [None] for params without that
    attribute and holds its [_latest_model_step] otherwise. *)
Record InputHParams : Type := {
  instance : BaseInput;
  is_training : bool;
  num_infeed_hosts : Z;
  infeed_host_index : Z;
  is_input_hparams : bool;
  to_text : string;
  deterministic_input_start_index : option (option Z)
}.

Definition instantiate (p : InputHParams) : BaseInput := instance p.

(** [tasks_lib.SingleTask.HParams]: [model.ici_mesh_shape], the [train]
    options the loop reads, the two further [train] options that
    [_create_checkpointer] reads, and the [early_stopping_fn_inst] of
    the task instantiated from it. *)
Record TaskHParams : Type := {
  ici_mesh_shape : option (list Z);
  train : TrainHParams;
  save_max_to_keep : option Z;
  save_keep_interval_duration : option string;
  early_stopping_fn_inst : option (@EarlyStoppingFn Metrics E)
}.

(** [base_experiment.BaseExperiment], through the four methods
    [train_and_evaluate] calls. *)
Record BaseExperiment : Type := {
  task : TaskHParams;
  datasets : list InputHParams;
  decoder_datasets : list InputHParams;
  experiment_train_program : option (@TrainProgram TrainState Metrics E)
}.

(** [checkpoint_managers.CheckpointManagerOptions]. *)
Record CheckpointManagerOptions : Type := {
  max_to_keep : option Z;
  options_save_interval_steps : option Z;
  keep_time_interval : option Duration.timedelta;
  todelete_subdir : option string
}.

(** The Orbax checkpointer handed to the manager:
    [FlaxCheckpointer(FlaxCheckpointHandler())],
    [Checkpointer(PaxCheckpointHandler())], or the [async_checkpointer]
    given. *)
Inductive OrbaxCheckpointer : Type :=
| FlaxCheckpointer
| Checkpointer
| Given (async_checkpointer : Async).

(** A [_TrainingCheckpointer] made by [_create_checkpointer], with the
    manager it holds. *)
Inductive Created : Type :=
| Sharded (checkpoint_manager : CheckpointManager TrainState Spec M)
          (self : OrbaxPjitTrainingCheckpointer.t)
| Replicated (checkpoint_manager : CheckpointManager TrainState Spec M)
             (self : OrbaxPmapTrainingCheckpointer.t).

(** [partitioning.Partitioner], once the train inputs are set. *)
Record Partitioner : Type := {
  global_mesh : option Spec;
  get_train_state_metadata : TrainStateMetadata Spec
}.

(** The value bound to the parameter [enable_auto_sharding] of
    [_create_program_and_states]: a [bool] by its annotation, but
    [train_and_evaluate_pmap] passes its [experiment_train_program]
    there. *)
Inductive PyArg : Type :=
| PyBool (b : bool)
| PyNone
| PyObject (program : @TrainProgram TrainState Metrics E).

(** What [epath], [jax], [checkpoints], [checkpoint_managers],
    [partitioning] and [programs] supply. *)
Variable joinpath : string -> string -> string.
Variable process_count : Z.
Variable process_index : Z.
Variable retrieve_checkpoint_type : bool -> TaskHParams -> CheckpointType.
Variable OrbaxCheckpointManager :
  string -> OrbaxCheckpointer -> CheckpointManagerOptions -> CheckpointType ->
  CheckpointManager TrainState Spec M.
Variable rt : Runtime TrainState Spec Key M.
Variable co : @Collaborators TrainState Metrics E.
Variable init_key : TaskHParams -> Key.
Variable create_partitioner :
  TaskHParams -> InputHParams -> bool -> bool -> Partitioner.
Variable preprocess_input_params : Partitioner -> InputHParams -> InputHParams.
Variable SingleTaskTrainProgram :
  TaskHParams -> InputHParams -> Partitioner ->
  @TrainProgram TrainState Metrics E.
Variable program_truth : @TrainProgram TrainState Metrics E -> bool.

(** Python's truth value of an argument. *)
Definition truth (a : PyArg) : bool :=
  match a with
  | PyBool b => b
  | PyNone => false
  | PyObject p => program_truth p
  end.

Definition _checkpoint_dir (job_log_dir : string) : string :=
  joinpath job_log_dir "checkpoints".

Definition _make_checkpoint_dir (job_log_dir : string) (w : World)
  : string * World :=
  (_checkpoint_dir job_log_dir, record MakeCheckpointDir w).

Definition as_training_checkpointer (c : Created)
  : TrainingCheckpointer TrainState Spec Key M :=
  match c with
  | Sharded cm self => OrbaxPjitTrainingCheckpointer.as_checkpointer cm rt self
  | Replicated cm self =>
      OrbaxPmapTrainingCheckpointer.as_checkpointer cm rt self
  end.

Definition is_persistence (t : CheckpointType) : bool :=
  match t with PERSISTENCE => true | _ => false end.

(** [CheckpointType] has the members the two files name; under [FLAX]
    the Orbax checkpointer is always set, so the last branch, the one of
    the source for any other member, is not reached. *)
Definition _create_checkpointer
           (task_p : TaskHParams) (job_log_dir : string)
           (checkpoint_type : CheckpointType)
           (todelete_subdir : option string)
           (async_checkpointer : option Async)
           (enable_checkpoint_saving : bool) (w : World)
  : Result Created * World :=
  let '(checkpoint_dir, w) := _make_checkpoint_dir job_log_dir w in
  let train_p := train task_p in
  let max_to_keep := save_max_to_keep task_p in
  let save_interval_steps := save_interval_steps train_p in
  ((keep_interval_timedelta <-
      Duration._parse_duration (save_keep_interval_duration task_p) ;;
    let options :=
      {| max_to_keep := max_to_keep;
         options_save_interval_steps := save_interval_steps;
         keep_time_interval := keep_interval_timedelta;
         todelete_subdir := todelete_subdir |} in
    let checkpointer := option_map Given async_checkpointer in
    let checkpointer :=
      if is_flax checkpoint_type then Some FlaxCheckpointer
      else checkpointer in
    checkpointer <-
      match checkpointer with
      | Some c => Ok c
      | None =>
          match checkpoint_type with
          | GDA => Ok Checkpointer
          | PERSISTENCE =>
              Raise (ValueError "Checkpointer must already be initialized.")
          | FLAX =>
              Raise (ValueError
                       "Unsupported Orbax checkpoint type: CheckpointType.FLAX")
          end
      end ;;
    let checkpoint_manager :=
      OrbaxCheckpointManager checkpoint_dir checkpointer options
                             checkpoint_type in
    if is_some (ici_mesh_shape task_p) then
      self <- OrbaxPjitTrainingCheckpointer.__init__
                checkpoint_type enable_checkpoint_saving ;;
      Ok (Sharded checkpoint_manager self)
    else
      Ok (Replicated
            checkpoint_manager
            (OrbaxPmapTrainingCheckpointer.__init__
               job_log_dir checkpoint_type enable_checkpoint_saving)))%result,
   w).

(** The params of the train input after the update; the pipeline handed
    on is instantiated from them. *)
Definition _maybe_update_latest_model_step
           (train_input_p : InputHParams) (initial_global_step : Z)
  : InputHParams :=
  match deterministic_input_start_index train_input_p with
  | None => train_input_p
  | Some _ =>
      {| instance := instance train_input_p;
         is_training := is_training train_input_p;
         num_infeed_hosts := num_infeed_hosts train_input_p;
         infeed_host_index := infeed_host_index train_input_p;
         is_input_hparams := is_input_hparams train_input_p;
         to_text := to_text train_input_p;
         deterministic_input_start_index := Some (Some initial_global_step) |}
  end.

Definition _create_program_and_states
           (task_p : TaskHParams) (train_input_p : InputHParams)
           (job_log_dir : string)
           (checkpointer : TrainingCheckpointer TrainState Spec Key M)
           (checkpoint_type : CheckpointType)
           (enable_auto_sharding : PyArg)
           (experiment_train_program
              : option (@TrainProgram TrainState Metrics E))
           (w : World)
  : Result (Partitioner * @TrainProgram TrainState Metrics E * TrainState * Z)
    * World :=
  let reshard_inputs := negb (is_persistence checkpoint_type) in
  let partitioner :=
    create_partitioner task_p train_input_p reshard_inputs
                       (truth enable_auto_sharding) in
  let train_input_p := preprocess_input_params partitioner train_input_p in
  let train_state_metadata := get_train_state_metadata partitioner in
  match Train._create_program_and_states
          checkpointer (global_mesh partitioner) train_state_metadata
          (init_key task_p) w with
  | (Raise err, w) => (Raise err, w)
  | (Ok (partitioned_train_state, total_num_params), w) =>
      let initial_global_step := step_of co partitioned_train_state in
      let train_input_p :=
        _maybe_update_latest_model_step train_input_p initial_global_step in
      let train_program :=
        match experiment_train_program with
        | Some p =>
            if program_truth p then p
            else SingleTaskTrainProgram task_p train_input_p partitioner
        | None => SingleTaskTrainProgram task_p train_input_p partitioner
        end in
      (Ok (partitioner, train_program, partitioned_train_state,
           total_num_params), w)
  end.

(** An optional program as a positional argument. *)
Definition as_argument
           (experiment_train_program
              : option (@TrainProgram TrainState Metrics E)) : PyArg :=
  match experiment_train_program with
  | Some p => PyObject p
  | None => PyNone
  end.

(** The call of [_create_program_and_states] passes six positional
    arguments: the sixth, [experiment_train_program], is bound to the
    parameter [enable_auto_sharding], and the parameter
    [experiment_train_program] keeps its default [None]. *)
Definition train_and_evaluate_pmap
           (fuel : nat) (task_p : TaskHParams) (train_input_p : InputHParams)
           (job_log_dir : string)
           (checkpointer : TrainingCheckpointer TrainState Spec Key M)
           (checkpoint_type : CheckpointType)
           (eval_input_p decode_input_p : list InputHParams)
           (early_stopping_fn : option (@EarlyStoppingFn Metrics E))
           (experiment_train_program
              : option (@TrainProgram TrainState Metrics E))
           (w : World) (e : E) : Result Outcome :=
  match _create_program_and_states
          task_p train_input_p job_log_dir checkpointer checkpoint_type
          (as_argument experiment_train_program) None w with
  | (Raise err, _) => Raise err
  | (Ok (partitioner, train_program, partitioned_train_state,
         total_num_params), w) =>
      if is_some (global_mesh partitioner) then Raise AssertionError
      else
        (early_stopping_fn <-
           Train.merge_early_stopping (early_stopping_fn_inst task_p)
                                      early_stopping_fn ;;
         let test_eval_programs :=
           map (fun e_input_p =>
                  Train.SingleTaskEvalProgram (instantiate e_input_p))
               eval_input_p in
         check_unique_names (map eval_input test_eval_programs) ;;;
         Ok (Train._train_and_evaluate_common
               fuel (train task_p) co train_program partitioned_train_state
               test_eval_programs (map instantiate decode_input_p)
               total_num_params early_stopping_fn checkpointer
               check_unique_names w e))%result
  end.

Definition train_and_evaluate_spmd_model
           (fuel : nat) (task_p : TaskHParams) (train_input_p : InputHParams)
           (job_log_dir : string)
           (checkpointer : TrainingCheckpointer TrainState Spec Key M)
           (checkpoint_type : CheckpointType)
           (eval_input_p decode_input_p : list InputHParams)
           (early_stopping_fn : option (@EarlyStoppingFn Metrics E))
           (enable_auto_sharding : bool)
           (experiment_train_program
              : option (@TrainProgram TrainState Metrics E))
           (w : World) (e : E) : Result Outcome :=
  match _create_program_and_states
          task_p train_input_p job_log_dir checkpointer checkpoint_type
          (PyBool enable_auto_sharding) experiment_train_program w with
  | (Raise err, _) => Raise err
  | (Ok (partitioner, train_program, partitioned_train_state,
         total_num_params), w) =>
      (early_stopping_fn <-
         Train.merge_early_stopping (early_stopping_fn_inst task_p)
                                    early_stopping_fn ;;
       let test_eval_programs :=
         map (fun e_input_p =>
                Train.SingleTaskEvalProgram (instantiate e_input_p))
             eval_input_p in
       Ok (Train._train_and_evaluate_common
             fuel (train task_p) co train_program partitioned_train_state
             test_eval_programs (map instantiate decode_input_p)
             total_num_params early_stopping_fn checkpointer
             check_unique_names w e))%result
  end.

(** The body of the two loops of [train_and_evaluate] over input
    params. *)
Definition set_infeed (inp : InputHParams) : InputHParams :=
  {| instance := instance inp;
     is_training := is_training inp;
     num_infeed_hosts :=
       if num_infeed_hosts inp =? 0 then process_count
       else num_infeed_hosts inp;
     infeed_host_index := process_index;
     is_input_hparams := is_input_hparams inp;
     to_text := to_text inp;
     deterministic_input_start_index := deterministic_input_start_index inp |}.

(** The first loop, over [experiment_config.datasets()]. *)
Fixpoint check_datasets (input_p : list InputHParams)
  : Result (list InputHParams) :=
  match input_p with
  | [] => Ok []
  | inp :: rest =>
      if negb (is_input_hparams inp)
      then Raise (ValueError
                    ("Expecting BaseInput.HParams from datasets(), got: "
                       ++ to_text inp))
      else
        (rest <- check_datasets rest ;; Ok (set_infeed inp :: rest))%result
  end.

(** [interval is not None and interval > 0]. *)
Definition positive (interval : option Z) : bool :=
  match interval with
  | None => false
  | Some n => 0 <? n
  end.

(** Python's truth value of an [Optional[bool]]. *)
Definition is_true (b : option bool) : bool :=
  match b with
  | Some true => true
  | _ => false
  end.

Definition decimal (n : nat) : string :=
  DecimalString.NilZero.string_of_uint (Nat.to_uint n).

Definition train_and_evaluate
           (fuel : nat) (experiment_config : BaseExperiment)
           (job_log_dir : string)
           (maybe_use_persistence_checkpointing : bool)
           (eval_on_test : option bool)
           (checkpoint_todelete_subdir : option string)
           (early_stopping_fn : option (@EarlyStoppingFn Metrics E))
           (run_decode : bool) (enable_auto_sharding : bool)
           (async_checkpointer : option Async)
           (enable_checkpoint_saving : bool)
           (w : World) (e : E) : Result Outcome :=
  let task_p := task experiment_config in
  (input_p <- check_datasets (datasets experiment_config) ;;
   let train_input_p := filter is_training input_p in
   match train_input_p with
   | [train_input_p] =>
       let eval_input_p :=
         if is_true eval_on_test
            && positive (eval_interval_steps (train task_p))
         then filter (fun v => negb (is_training v)) input_p
         else [] in
       let decode_input_p :=
         if run_decode && positive (decode_interval_steps (train task_p))
         then decoder_datasets experiment_config
         else [] in
       let decode_input_p := map set_infeed decode_input_p in
       let checkpoint_type :=
         retrieve_checkpoint_type maybe_use_persistence_checkpointing task_p in
       match _create_checkpointer
               task_p job_log_dir checkpoint_type checkpoint_todelete_subdir
               async_checkpointer enable_checkpoint_saving w with
       | (Raise err, _) => Raise err
       | (Ok checkpointer, w) =>
           if is_some (ici_mesh_shape task_p) then
             train_and_evaluate_spmd_model
               fuel task_p train_input_p job_log_dir
               (as_training_checkpointer checkpointer) checkpoint_type
               eval_input_p decode_input_p early_stopping_fn
               enable_auto_sharding
               (experiment_train_program experiment_config) w e
           else
             train_and_evaluate_pmap
               fuel task_p train_input_p job_log_dir
               (as_training_checkpointer checkpointer) checkpoint_type
               eval_input_p decode_input_p early_stopping_fn
               (experiment_train_program experiment_config) w e
       end
   | _ =>
       Raise (ValueError
                ("Expecting exactly one training split. Got `"
                   ++ decimal (List.length train_input_p) ++ "`."))
   end)%result.

End Launch.
End Launch.

(** ** A small experiment

    An experiment over the small instance: one training split and one
    test split, no decoder datasets, a partitioner that has a global
    mesh exactly when the model has a mesh shape, and the program of the
    small instance with horizon 3 as the default train program. *)

Module DemoLaunch.

Definition task (mesh : option (list Z)) (eval_every : option Z)
  : @Launch.TaskHParams unit nat :=
  {| Launch.ici_mesh_shape := mesh;
     Launch.train :=
       {| num_train_steps := 3;
          eval_interval_steps := eval_every;
          decode_interval_steps := None;
          save_interval_steps := Some 5;
          decode_use_ema_states := false |};
     Launch.save_max_to_keep := Some 10;
     Launch.save_keep_interval_duration := Some "12h"%string;
     Launch.early_stopping_fn_inst := None |}.

Definition input (n : string) (training : bool) : Launch.InputHParams :=
  {| Launch.instance := {| name := n |};
     Launch.is_training := training;
     Launch.num_infeed_hosts := 0;
     Launch.infeed_host_index := 0;
     Launch.is_input_hparams := true;
     Launch.to_text := n;
     Launch.deterministic_input_start_index := None |}.

Definition experiment (mesh : option (list Z)) (eval_every : option Z)
           (program : option (@TrainProgram Demo.State unit nat))
  : @Launch.BaseExperiment Demo.State unit nat :=
  {| Launch.task := task mesh eval_every;
     Launch.datasets := [input "train" true; input "test" false];
     Launch.decoder_datasets := [];
     Launch.experiment_train_program := program |}.

Definition partitioner (task_p : @Launch.TaskHParams unit nat)
           (train_input_p : Launch.InputHParams)
           (reshard_inputs auto_sharding : bool) : @Launch.Partitioner unit :=
  {| Launch.global_mesh :=
       match Launch.ici_mesh_shape task_p with
       | Some _ => Some tt
       | None => None
       end;
     Launch.get_train_state_metadata := Demo.metadata |}.

Definition default_program (task_p : @Launch.TaskHParams unit nat)
           (train_input_p : Launch.InputHParams)
           (p : @Launch.Partitioner unit)
  : @TrainProgram Demo.State unit nat :=
  Demo.program 3.

Definition train_and_evaluate_pmap :=
  @Launch.train_and_evaluate_pmap
    Demo.State unit unit Demo.Dir unit nat (Demo.collaborators false)
    (fun _ => tt) partitioner (fun _ p => p) default_program (fun _ => true).

Definition train_and_evaluate :=
  @Launch.train_and_evaluate
    Demo.State unit unit Demo.Dir unit nat unit
    (fun a b => (a ++ "/" ++ b)%string) 1 0 (fun _ _ => GDA)
    (fun _ _ _ _ => Demo.manager) (Demo.runtime 1 false)
    (Demo.collaborators false) (fun _ => tt) partitioner (fun _ p => p)
    default_program (fun _ => true).

(** The outcome of a launch that reached the loop. *)
Definition outcome (r : Result (@Outcome Demo.State unit Demo.Dir nat))
  : @Outcome Demo.State unit Demo.Dir nat :=
  match r with
  | Ok o => o
  | Raise _ => Diverged (mk_loop 0 Demo.start Demo.world0 0%nat [])
  end.

(** Two launches of the experiment on the path without a mesh shape:
    with test evaluation asked for at the interval [-1], and with
    checkpoint saving disabled. *)
Definition launch_negative_interval :=
  train_and_evaluate 10 (experiment None (Some (-1)) None) "/logs" false
                     (Some true) None None false false None true
                     Demo.world0 0%nat.

Definition launch_saving_disabled :=
  train_and_evaluate 10 (experiment None (Some 2) None) "/logs" false
                     (Some true) None None false false None false
                     Demo.world0 0%nat.

End DemoLaunch.

(** * Properties *)

(** ** Order of the calls in the loop *)

Section CallOrder.

Context {TrainState Spec M Metrics E : Type}.

Local Abbreviation LoopState := (@LoopState TrainState Spec M E).

Variable train_p : TrainHParams.
Variable co : @Collaborators TrainState Metrics E.
Variable train_program : @TrainProgram TrainState Metrics E.
Variable eval_programs : list (@EvalProgram E).
Variable decode_input_p : list BaseInput.
Variable total_num_params : Z.
Variable early_stopping_fn : option (@EarlyStoppingFn Metrics E).
Variable checkpointer : @LoopCheckpointer TrainState Spec M.
Variable exit_after_ondemand_checkpoint : bool.
Variable passes_train_to_end : bool.

Local Abbreviation observes := (observes co train_program).
Local Abbreviation admits := (admits co train_program).
Local Abbreviation tracks := (@tracks TrainState Spec M Metrics E co train_program).

Lemma observes_snoc o l o1 c o2 :
  observes o l o1 -> admits o1 c o2 -> observes o (l ++ [c]) o2.
Proof.
  induction 1 as [|c' l' oa ob oc Hc Hl IH]; intro Ha; simpl.
  - econstructor; [eassumption | constructor].
  - econstructor; [eassumption | auto].
Qed.

Lemma tracks_emit o0 d d' ls c :
  tracks o0 d ls ->
  admits (mk_obs (step_i ls) (partitioned_train_state ls) d) c
         (mk_obs (step_i ls) (partitioned_train_state ls) d') ->
  tracks o0 d' (emit c ls).
Proof.
  unfold tracks; intros H Ha; simpl.
  eapply observes_snoc; eassumption.
Qed.

Lemma tracks_with_world o0 d ls w :
  tracks o0 d ls -> tracks o0 d (with_world w ls).
Proof. exact (fun H => H). Qed.

Lemma tracks_with_env o0 d ls e :
  tracks o0 d ls -> tracks o0 d (with_env e ls).
Proof. exact (fun H => H). Qed.

Local Abbreviation body :=
  (loop_body train_p co train_program eval_programs decode_input_p
             total_num_params early_stopping_fn checkpointer
             exit_after_ondemand_checkpoint passes_train_to_end).

Lemma eval_phase_tracks o0 ls :
  tracks o0 false ls ->
  tracks o0 false (snd (eval_phase train_p co eval_programs ls)).
Proof.
  intro H. unfold eval_phase.
  destruct (interval_hit _ _); [|exact H].
  destruct (nonempty eval_programs); [|exact H].
  destruct (run_eval_loop_over_test_splits _ _ _ _ _) as [m e]; simpl.
  apply tracks_with_env.
  eapply tracks_emit; [exact H|].
  exact (admits_eval co train_program (mk_obs _ _ false) eq_refl).
Qed.

Lemma decode_phase_tracks o0 ls :
  tracks o0 false ls ->
  tracks o0 false (snd (decode_phase train_p co decode_input_p ls)).
Proof.
  intro H. unfold decode_phase.
  destruct (nonempty decode_input_p && _); [|exact H].
  destruct (decode_use_ema_states train_p).
  - destruct (has_ema co); simpl; [|exact H].
    destruct (decode_once_fn _ _ _) as [m e]; simpl.
    apply tracks_with_env.
    eapply tracks_emit; [exact H|].
    exact (admits_decode_ema co train_program (mk_obs _ _ false) eq_refl).
  - destruct (decode_once_fn _ _ _) as [m e]; simpl.
    apply tracks_with_env.
    eapply tracks_emit; [exact H|].
    exact (admits_decode co train_program (mk_obs _ _ false) eq_refl).
Qed.

Lemma early_stop_phase_tracks o0 out em dm ls :
  tracks o0 false ls ->
  tracks o0 false
         (step_state (early_stop_phase train_p co total_num_params
                                       early_stopping_fn passes_train_to_end
                                       out em dm ls)).
Proof.
  intro H. unfold early_stop_phase.
  destruct early_stopping_fn as [fn|]; [|exact H].
  destruct (should_early_stop _ _ _ _ _) as [stop e].
  assert (T : tracks o0 false
                (emit (CallEarlyStop (step_i ls)
                         (is_last_checkpoint co
                            (detect true (is_some em) (is_some dm))
                            (step_i ls) (num_train_steps train_p)
                            (eval_interval_steps train_p)
                            (decode_interval_steps train_p)
                            (save_interval_steps train_p)
                            (passes_train_to_end && train_to_end fn)) stop)
                      (with_env e ls))).
  { eapply tracks_emit; [apply tracks_with_env; exact H|].
    exact (admits_early_stop co train_program (mk_obs _ _ false) _ _ eq_refl). }
  destruct stop; exact T.
Qed.

Lemma train_phase_tracks o0 ls :
  tracks o0 true ls ->
  tracks o0 false
         (step_state (train_phase train_p co train_program eval_programs
                                  decode_input_p total_num_params
                                  early_stopping_fn passes_train_to_end ls)).
Proof.
  intro H. unfold train_phase.
  pose proof (admits_run co train_program (mk_obs (step_i ls) (partitioned_train_state ls) true)
                         (env ls) eq_refl) as Ha.
  simpl in Ha.
  change (env (emit _ ls)) with (env ls).
  change (step_i (emit _ ls)) with (step_i ls).
  change (partitioned_train_state (emit _ ls))
    with (partitioned_train_state ls).
  destruct (run train_program (partitioned_train_state ls) (step_i ls) (env ls))
    as [out e] eqn:R.
  simpl in Ha.
  set (ls1 := mk_loop (new_train_step (aux out)) (state out) _ e _).
  assert (T1 : tracks o0 false ls1).
  { unfold tracks, ls1; simpl. eapply observes_snoc; [exact H|exact Ha]. }
  pose proof (eval_phase_tracks T1) as T2.
  destruct (eval_phase train_p co eval_programs ls1) as [em ls2].
  simpl in T2.
  pose proof (decode_phase_tracks T2) as T3.
  destruct (decode_phase train_p co decode_input_p ls2) as [[dm|err] ls3];
    simpl in T3.
  - apply early_stop_phase_tracks; exact T3.
  - exact T3.
Qed.

Lemma loop_body_tracks o0 ls :
  tracks o0 false ls ->
  match body ls with
  | Continue ls' => tracks o0 false ls'
  | Break _ ls' | Exit _ ls' | Throw _ ls' => exists d, tracks o0 d ls'
  end.
Proof.
  intro H. unfold loop_body.
  set (ls1 := with_world _ (emit _ ls)).
  assert (T1 : tracks o0 true ls1).
  { apply tracks_with_world. eapply tracks_emit; [exact H|].
    exact (admits_save_if_needed co train_program (mk_obs _ _ false) eq_refl). }
  assert (K : forall l, tracks o0 true l ->
              match
                (if negb (should_run train_program (partitioned_train_state l)
                                     (step_i l))
                 then Break completed
                        (emit (CallShouldRun (step_i l)
                                 (partitioned_train_state l)
                                 (should_run train_program
                                    (partitioned_train_state l) (step_i l))) l)
                 else train_phase train_p co train_program eval_programs
                        decode_input_p total_num_params early_stopping_fn
                        passes_train_to_end
                        (emit (CallShouldRun (step_i l)
                                 (partitioned_train_state l)
                                 (should_run train_program
                                    (partitioned_train_state l) (step_i l))) l))
              with
              | Continue ls' => tracks o0 false ls'
              | Break _ ls' | Exit _ ls' | Throw _ ls' =>
                  exists d, tracks o0 d ls'
              end).
  { intros l Hl.
    assert (T : tracks o0 true
                  (emit (CallShouldRun (step_i l) (partitioned_train_state l)
                           (should_run train_program
                              (partitioned_train_state l) (step_i l))) l)).
    { eapply tracks_emit; [exact Hl|].
      exact (admits_should_run co train_program (mk_obs _ _ true) _ eq_refl). }
    destruct (should_run train_program _ _); simpl.
    - pose proof (train_phase_tracks T) as T'.
      destruct (train_phase _ _ _ _ _ _ _ _ _); simpl in T';
        first [exact T' | exists false; exact T'].
    - exists true; exact T. }
  destruct exit_after_ondemand_checkpoint.
  - assert (T2 : tracks o0 true
                   (emit (CallReachedPreemption (step_i ls1)
                            (ck_reached_preemption checkpointer (world ls1)
                                                   (step_i ls1))) ls1)).
    { eapply tracks_emit; [exact T1|].
      exact (admits_reached_preemption co train_program (mk_obs _ _ true) _ eq_refl). }
    destruct (ck_reached_preemption checkpointer (world ls1) (step_i ls1)).
    + exists true. eapply tracks_emit.
      * apply tracks_with_world; exact T2.
      * apply admits_wait.
    + apply (K _ T2).
  - apply (K _ T1).
Qed.

Lemma finish_tracks o0 d ls :
  tracks o0 d ls -> tracks o0 d (finish checkpointer ls).
Proof.
  intro H. unfold finish.
  eapply tracks_emit; [|apply admits_wait].
  do 2 apply tracks_with_world.
  eapply tracks_emit; [exact H|].
  exact (admits_save_final co train_program (mk_obs _ _ d)).
Qed.

Lemma while_true_tracks o0 fuel :
  forall ls,
    tracks o0 false ls ->
    exists d,
      tracks o0 d
             (final_state
                (while_true train_p co train_program eval_programs
                            decode_input_p total_num_params early_stopping_fn
                            checkpointer exit_after_ondemand_checkpoint
                            passes_train_to_end fuel ls)).
Proof.
  induction fuel as [|fuel IH]; intros ls H; simpl.
  - exists false; exact H.
  - pose proof (loop_body_tracks H) as B.
    destruct (body ls) as [ls'|r ls'|c ls'|e ls']; simpl.
    + apply IH; exact B.
    + destruct B as [d B]. exists d. apply finish_tracks; exact B.
    + exact B.
    + exact B.
Qed.

End CallOrder.

Section WholeRun.

Context {TrainState Spec Key M Metrics E : Type}.

Variable co : @Collaborators TrainState Metrics E.
Variable train_program : @TrainProgram TrainState Metrics E.

Local Abbreviation tracks := (@tracks TrainState Spec M Metrics E co train_program).

Lemma setup_eval_programs_tracks o0 d programs :
  forall ls, tracks o0 d ls ->
             tracks o0 d (Executors.setup_eval_programs programs ls).
Proof.
  induction programs as [|p r IH]; intros ls H; simpl; [exact H|].
  apply IH. apply tracks_with_env.
  eapply tracks_emit; [exact H|]. apply admits_eval_setup.
Qed.

Lemma tracks_start (s : TrainState) (w : World TrainState Spec M) (e : E) :
  tracks (mk_obs (step_of co s) s false) false
         (mk_loop (step_of co s) s w e []).
Proof. apply observes_nil. Qed.

Lemma executors_run_tracks
      fuel train_p s eval_programs decode_input_p total_num_params
      early_stopping_fn checkpointer exit_after_ondemand_checkpoint w e :
  exists d,
    tracks (mk_obs (step_of co s) s false) d
           (final_state
              (Executors._train_and_evaluate_common
                 fuel train_p co train_program s eval_programs decode_input_p
                 total_num_params early_stopping_fn checkpointer
                 exit_after_ondemand_checkpoint w e)).
Proof.
  unfold Executors._train_and_evaluate_common.
  destruct (if nonempty decode_input_p then _ else _).
  2:{ exists false; apply tracks_start. }
  destruct (match Executors.step_to_restore checkpointer with
            | Some r => _ | None => _ end).
  { exists false; apply tracks_start. }
  set (ls := Executors.setup_eval_programs _ _).
  assert (T : tracks (mk_obs (step_of co s) s false) false ls).
  { apply setup_eval_programs_tracks.
    eapply tracks_emit; [apply tracks_with_env, tracks_start|].
    apply admits_setup. }
  destruct (check_unique_names _).
  - apply while_true_tracks; exact T.
  - exists false; exact T.
Qed.

Lemma train_run_tracks
      fuel train_p s test_eval_programs decode_input_p total_num_params
      early_stopping_fn
      (checkpointer : TrainingCheckpointer TrainState Spec Key M)
      partition_decode_once_fns w e :
  exists d,
    tracks (mk_obs (step_of co s) s false) d
           (final_state
              (Train._train_and_evaluate_common
                 fuel train_p co train_program s test_eval_programs
                 decode_input_p total_num_params early_stopping_fn
                 checkpointer partition_decode_once_fns w e)).
Proof.
  unfold Train._train_and_evaluate_common.
  destruct (if nonempty decode_input_p then _ else _).
  2:{ exists false; apply tracks_start. }
  apply while_true_tracks.
  eapply tracks_emit; [apply tracks_with_env, tracks_start|].
  apply admits_setup.
Qed.

(** C1.  In every run of the training loop, of either file, the log of
    calls is admitted by the observer started at the initial step and
    state: each [run] comes after the [save_if_needed] call for the
    step and state it starts from; the step and state the loop holds
    change at [run] only, to the new step and the state of the
    program's output; eval, decode and the early-stopping call leave
    them as they are; so every [save_if_needed] and [save_final] call
    carries the step and state as the last train update left them,
    before the next one begins. *)
Theorem save_decision_precedes_train_step
        fuel train_p s eval_programs decode_input_p total_num_params
        early_stopping_fn exec_checkpointer exit_after_ondemand_checkpoint
        (checkpointer : TrainingCheckpointer TrainState Spec Key M)
        partition_decode_once_fns w e :
  (exists d,
      tracks (mk_obs (step_of co s) s false) d
             (final_state
                (Executors._train_and_evaluate_common
                   fuel train_p co train_program s eval_programs
                   decode_input_p total_num_params early_stopping_fn
                   exec_checkpointer exit_after_ondemand_checkpoint w e)))
  /\
  (exists d,
      tracks (mk_obs (step_of co s) s false) d
             (final_state
                (Train._train_and_evaluate_common
                   fuel train_p co train_program s eval_programs
                   decode_input_p total_num_params early_stopping_fn
                   checkpointer partition_decode_once_fns w e))).
Proof.
  split; [apply executors_run_tracks | apply train_run_tracks].
Qed.

End WholeRun.


(** ** The duration parser *)

Import Duration.

Example parse_duration_none :
  _parse_duration None = Ok None /\ _parse_duration (Some ""%string) = Ok None.
Proof. split; reflexivity. Qed.

Example parse_duration_units :
  parsed_seconds (_parse_duration (Some "45"%string)) = Ok (Some 45)
  /\ parsed_seconds (_parse_duration (Some "45s"%string)) = Ok (Some 45)
  /\ parsed_seconds (_parse_duration (Some "10m"%string)) = Ok (Some 600)
  /\ parsed_seconds (_parse_duration (Some "3h"%string)) = Ok (Some 10800)
  /\ parsed_seconds (_parse_duration (Some "2d"%string)) = Ok (Some 172800).
Proof. repeat split; reflexivity. Qed.

Example parse_duration_rejects_single_letter :
  _parse_duration (Some "45x"%string) = Raise (unable "45x")
  /\ _parse_duration (Some "x"%string) = Raise (unable "x").
Proof. split; reflexivity. Qed.

(** C5.  The parser takes ["10ms"] for ten seconds: the pattern is
    matched at the start of the string only and its second group keeps
    the last word character, so the unit read is ["s"].  Text after the
    digits that does not end in a word character other than the four
    units is not rejected: ["45!"] and ["5 days"] parse as seconds
    too. *)
Theorem parse_duration_accepts_other_suffixes :
  parsed_seconds (_parse_duration (Some "10ms"%string)) = Ok (Some 10)
  /\ parsed_seconds (_parse_duration (Some "45!"%string)) = Ok (Some 45)
  /\ parsed_seconds (_parse_duration (Some "5 days"%string)) = Ok (Some 5)
  /\ parsed_seconds (_parse_duration (Some "3hd"%string)) = Ok (Some 259200).
Proof. repeat split; reflexivity. Qed.

(** ** The save operations of the two checkpointers *)

Section SaveOperations.

Context {TrainState Spec Key M : Type}.
Variable cm : CheckpointManager TrainState Spec M.
Variable rt : Runtime TrainState Spec Key M.

Local Abbreviation World := (World TrainState Spec M).

Lemma calls_not_extended (w : World) (c : MgrCall TrainState Spec) :
  calls w <> calls w ++ [c].
Proof.
  intro H. apply (f_equal (@List.length _)) in H.
  rewrite length_app in H. simpl in H. lia.
Qed.

Lemma none_or_older_dec (latest : option Z) (N : Z) :
  {none_or_older latest N} + {~ none_or_older latest N}.
Proof.
  destruct latest as [l|]; simpl; [apply Z_lt_dec | left; exact I].
Qed.

Lemma pjit_save_final_newer self N st (w : World) :
  none_or_older (latest_step cm (mgr w)) N ->
  OrbaxPjitTrainingCheckpointer.save_final cm self N st w
  = OrbaxPjitTrainingCheckpointer._save_with_args cm self N st true w.
Proof.
  unfold OrbaxPjitTrainingCheckpointer.save_final, none_or_older.
  destruct (latest_step cm (mgr w)) as [l|]; [|reflexivity].
  intro H. apply Z.ltb_lt in H. now rewrite H.
Qed.

Lemma pjit_save_final_not_newer self N st (w : World) :
  ~ none_or_older (latest_step cm (mgr w)) N ->
  OrbaxPjitTrainingCheckpointer.save_final cm self N st w = w.
Proof.
  unfold OrbaxPjitTrainingCheckpointer.save_final, none_or_older.
  destruct (latest_step cm (mgr w)) as [l|]; [|tauto].
  intro H. apply Z.ltb_nlt in H. now rewrite H.
Qed.

Lemma pmap_save_final_newer self N st (w : World) :
  none_or_older (latest_step cm (mgr w)) N ->
  OrbaxPmapTrainingCheckpointer.save_final cm rt self N st w
  = OrbaxPmapTrainingCheckpointer._save cm rt self N st true w.
Proof.
  unfold OrbaxPmapTrainingCheckpointer.save_final, none_or_older.
  destruct (latest_step cm (mgr w)) as [l|]; [|reflexivity].
  intro H. apply Z.ltb_lt in H. now rewrite H.
Qed.

Lemma pmap_save_final_not_newer self N st (w : World) :
  ~ none_or_older (latest_step cm (mgr w)) N ->
  OrbaxPmapTrainingCheckpointer.save_final cm rt self N st w = w.
Proof.
  unfold OrbaxPmapTrainingCheckpointer.save_final, none_or_older.
  destruct (latest_step cm (mgr w)) as [l|]; [|tauto].
  intro H. apply Z.ltb_nlt in H. now rewrite H.
Qed.

Lemma pmap_save_enabled self N st force (w : World) :
  OrbaxPmapTrainingCheckpointer._enable_checkpoint_saving self = true ->
  OrbaxPmapTrainingCheckpointer._save cm rt self N st force w
  = manager_save cm N (OrbaxPmapTrainingCheckpointer.marshal rt st) force w.
Proof.
  unfold OrbaxPmapTrainingCheckpointer._save,
    OrbaxPmapTrainingCheckpointer.marshal,
    OrbaxPmapTrainingCheckpointer._save_with_args.
  intros ->; simpl. destruct (pmap_use_tensorstore rt); reflexivity.
Qed.

(** C4, amended.  [save_final] at step [N] issues a forced save at [N],
    and nothing else, exactly when checkpoint saving is enabled and
    there is no checkpoint yet or the newest one is older than [N]; in
    every other case, so with a checkpoint at [N] or later, or with
    saving disabled, it leaves everything as it is.  The sharded
    checkpointer hands the manager the state itself, the replicated one
    the state as it marshals it. *)
Theorem save_final_saves_iff_enabled_and_newer
        (pj : OrbaxPjitTrainingCheckpointer.t)
        (pm : OrbaxPmapTrainingCheckpointer.t)
        (N : Z) (st : TrainState) (w : World) :
  let newer := none_or_older (latest_step cm (mgr w)) N in
  let w1 := OrbaxPjitTrainingCheckpointer.save_final cm pj N st w in
  let w2 := OrbaxPmapTrainingCheckpointer.save_final cm rt pm N st w in
  let on1 := OrbaxPjitTrainingCheckpointer._enable_checkpoint_saving pj in
  let on2 := OrbaxPmapTrainingCheckpointer._enable_checkpoint_saving pm in
  (performs_forced_save w w1 N <-> on1 = true /\ newer)
  /\ (on1 = true /\ newer -> w1 = manager_save cm N st true w)
  /\ (~ (on1 = true /\ newer) -> w1 = w)
  /\ (performs_forced_save w w2 N <-> on2 = true /\ newer)
  /\ (on2 = true /\ newer ->
      w2 = manager_save cm N (OrbaxPmapTrainingCheckpointer.marshal rt st)
                        true w)
  /\ (~ (on2 = true /\ newer) -> w2 = w).
Proof.
  cbv zeta.
  assert (P1 : OrbaxPjitTrainingCheckpointer._enable_checkpoint_saving pj = true
               /\ none_or_older (latest_step cm (mgr w)) N ->
               OrbaxPjitTrainingCheckpointer.save_final cm pj N st w
               = manager_save cm N st true w).
  { intros [E H]. rewrite (pjit_save_final_newer _ _ _ _ H).
    unfold OrbaxPjitTrainingCheckpointer._save_with_args. now rewrite E. }
  assert (N1 : ~ (OrbaxPjitTrainingCheckpointer._enable_checkpoint_saving pj
                  = true
                  /\ none_or_older (latest_step cm (mgr w)) N) ->
               OrbaxPjitTrainingCheckpointer.save_final cm pj N st w = w).
  { intro H. destruct (none_or_older_dec (latest_step cm (mgr w)) N) as [Y|Y].
    - rewrite (pjit_save_final_newer _ _ _ _ Y).
      unfold OrbaxPjitTrainingCheckpointer._save_with_args.
      destruct (OrbaxPjitTrainingCheckpointer._enable_checkpoint_saving pj);
        [tauto | reflexivity].
    - apply pjit_save_final_not_newer; exact Y. }
  assert (P2 : OrbaxPmapTrainingCheckpointer._enable_checkpoint_saving pm = true
               /\ none_or_older (latest_step cm (mgr w)) N ->
               OrbaxPmapTrainingCheckpointer.save_final cm rt pm N st w
               = manager_save cm N
                              (OrbaxPmapTrainingCheckpointer.marshal rt st)
                              true w).
  { intros [E H]. rewrite (pmap_save_final_newer _ _ _ _ H).
    apply pmap_save_enabled; exact E. }
  assert (N2 : ~ (OrbaxPmapTrainingCheckpointer._enable_checkpoint_saving pm
                  = true
                  /\ none_or_older (latest_step cm (mgr w)) N) ->
               OrbaxPmapTrainingCheckpointer.save_final cm rt pm N st w = w).
  { intro H. destruct (none_or_older_dec (latest_step cm (mgr w)) N) as [Y|Y].
    - rewrite (pmap_save_final_newer _ _ _ _ Y).
      unfold OrbaxPmapTrainingCheckpointer._save.
      destruct (OrbaxPmapTrainingCheckpointer._enable_checkpoint_saving pm);
        [tauto | reflexivity].
    - apply pmap_save_final_not_newer; exact Y. }
  assert (D : forall b : bool, {b = true /\ none_or_older (latest_step cm (mgr w)) N}
                               + {~ (b = true /\ none_or_older (latest_step cm (mgr w)) N)}).
  { intro b. destruct b; [|right; intros [H _]; discriminate].
    destruct (none_or_older_dec (latest_step cm (mgr w)) N);
      [left | right]; tauto. }
  split; [|split; [exact P1|split; [exact N1|split; [|split; [exact P2|exact N2]]]]].
  - split.
    + intros [s Hs].
      destruct (D (OrbaxPjitTrainingCheckpointer._enable_checkpoint_saving pj))
        as [Y|Y]; [exact Y|].
      rewrite (N1 Y) in Hs. exfalso. exact (calls_not_extended _ _ Hs).
    + intro Y. rewrite (P1 Y). exists st. reflexivity.
  - split.
    + intros [s Hs].
      destruct (D (OrbaxPmapTrainingCheckpointer._enable_checkpoint_saving pm))
        as [Y|Y]; [exact Y|].
      rewrite (N2 Y) in Hs. exfalso. exact (calls_not_extended _ _ Hs).
    + intro Y. rewrite (P2 Y).
      exists (OrbaxPmapTrainingCheckpointer.marshal rt st). reflexivity.
Qed.

(** The calls [save_if_needed] issues: when the manager asks for a save
    at [N], a save of the step and state it was given (if saving is
    enabled), then a poll for errors; otherwise none. *)
Lemma save_if_needed_calls
      (pj : OrbaxPjitTrainingCheckpointer.t)
      (pm : OrbaxPmapTrainingCheckpointer.t)
      (N : Z) (st : TrainState) (w : World) :
  calls (OrbaxPjitTrainingCheckpointer.save_if_needed cm pj N st w)
  = calls w
      ++ (if should_save cm (mgr w) N
          then (if OrbaxPjitTrainingCheckpointer._enable_checkpoint_saving pj
                then [Save N st false] else [])
                 ++ [CheckForErrors]
          else [])
  /\ calls (OrbaxPmapTrainingCheckpointer.save_if_needed cm rt pm N st w)
     = calls w
         ++ (if should_save cm (mgr w) N
             then (if OrbaxPmapTrainingCheckpointer._enable_checkpoint_saving pm
                   then [Save N (OrbaxPmapTrainingCheckpointer.marshal rt st)
                              false]
                   else [])
                    ++ [CheckForErrors]
             else []).
Proof.
  unfold OrbaxPjitTrainingCheckpointer.save_if_needed,
    OrbaxPmapTrainingCheckpointer.save_if_needed,
    OrbaxPjitTrainingCheckpointer._save_with_args,
    OrbaxPmapTrainingCheckpointer._save,
    OrbaxPmapTrainingCheckpointer._save_with_args,
    OrbaxPmapTrainingCheckpointer.marshal.
  destruct (should_save cm (mgr w) N); simpl;
    [|split; now rewrite app_nil_r].
  split.
  - destruct (OrbaxPjitTrainingCheckpointer._enable_checkpoint_saving pj);
      simpl; [now rewrite <- app_assoc | reflexivity].
  - destruct (OrbaxPmapTrainingCheckpointer._enable_checkpoint_saving pm);
      simpl; [|reflexivity].
    destruct (pmap_use_tensorstore rt); simpl; now rewrite <- app_assoc.
Qed.

End SaveOperations.

(** C4, as first stated, fails with checkpoint saving disabled: no
    checkpoint exists, and [save_final] at step 5 still saves nothing,
    in either checkpointer. *)
Lemma save_final_disabled_saves_nothing :
  ~ (performs_forced_save
       Demo.world0
       (OrbaxPjitTrainingCheckpointer.save_final
          Demo.manager (Demo.pjit false) 5 Demo.start Demo.world0) 5
     <-> none_or_older (latest_step Demo.manager (mgr Demo.world0)) 5)
  /\
  ~ (performs_forced_save
       Demo.world0
       (OrbaxPmapTrainingCheckpointer.save_final
          Demo.manager (Demo.runtime 1 false) (Demo.pmap false) 5
          Demo.start Demo.world0) 5
     <-> none_or_older (latest_step Demo.manager (mgr Demo.world0)) 5).
Proof.
  split; intros [_ H]; destruct (H I) as [st Hs]; discriminate Hs.
Qed.

Section SavingDisabled.

Context {TrainState Spec Key M : Type}.
Variable cm : CheckpointManager TrainState Spec M.
Variable rt : Runtime TrainState Spec Key M.

Local Abbreviation World := (World TrainState Spec M).

Lemma writes_nothing_refl (w : World) : writes_nothing w w.
Proof. split; reflexivity. Qed.

Lemma writes_nothing_check_for_errors (w : World) :
  writes_nothing w (manager_check_for_errors w).
Proof.
  split; [reflexivity|].
  unfold manager_check_for_errors, record; simpl.
  rewrite filter_app; simpl. now rewrite app_nil_r.
Qed.

(** C9.  With [enable_checkpoint_saving] false, [save_if_needed] and
    [save_final] of both checkpointers leave the manager's state as it
    is and issue no save call ([save_final] does nothing at all;
    [save_if_needed] may still poll [check_for_errors]); and
    [get_model_states] does not depend on the flag: two checkpointers
    of the same checkpoint type return the same result from the same
    world. *)
Theorem disabled_saving_writes_nothing
        (pj pj' : OrbaxPjitTrainingCheckpointer.t)
        (pm pm' : OrbaxPmapTrainingCheckpointer.t)
        (step : Z) (st : TrainState) (w : World)
        (mesh : option Spec) (md : TrainStateMetadata Spec) (key : Key) :
  OrbaxPjitTrainingCheckpointer._enable_checkpoint_saving pj = false ->
  OrbaxPmapTrainingCheckpointer._enable_checkpoint_saving pm = false ->
  OrbaxPjitTrainingCheckpointer._checkpoint_type pj'
  = OrbaxPjitTrainingCheckpointer._checkpoint_type pj ->
  OrbaxPmapTrainingCheckpointer._checkpoint_type pm'
  = OrbaxPmapTrainingCheckpointer._checkpoint_type pm ->
  writes_nothing w (OrbaxPjitTrainingCheckpointer.save_if_needed cm pj step st w)
  /\ OrbaxPjitTrainingCheckpointer.save_final cm pj step st w = w
  /\ writes_nothing
       w (OrbaxPmapTrainingCheckpointer.save_if_needed cm rt pm step st w)
  /\ OrbaxPmapTrainingCheckpointer.save_final cm rt pm step st w = w
  /\ OrbaxPjitTrainingCheckpointer.get_model_states cm rt pj' mesh md key w
     = OrbaxPjitTrainingCheckpointer.get_model_states cm rt pj mesh md key w
  /\ OrbaxPmapTrainingCheckpointer.get_model_states cm rt pm' mesh md key w
     = OrbaxPmapTrainingCheckpointer.get_model_states cm rt pm mesh md key w.
Proof.
  intros E1 E2 T1 T2.
  split; [|split; [|split; [|split; [|split]]]].
  - unfold OrbaxPjitTrainingCheckpointer.save_if_needed,
      OrbaxPjitTrainingCheckpointer._save_with_args.
    rewrite E1; simpl.
    destruct (should_save cm (mgr w) step); simpl.
    + apply writes_nothing_check_for_errors.
    + apply writes_nothing_refl.
  - unfold OrbaxPjitTrainingCheckpointer.save_final,
      OrbaxPjitTrainingCheckpointer._save_with_args.
    rewrite E1; simpl.
    destruct (latest_step cm (mgr w)) as [l|]; [destruct (l <? step)|];
      reflexivity.
  - unfold OrbaxPmapTrainingCheckpointer.save_if_needed,
      OrbaxPmapTrainingCheckpointer._save.
    rewrite E2; simpl.
    destruct (should_save cm (mgr w) step); simpl.
    + apply writes_nothing_check_for_errors.
    + apply writes_nothing_refl.
  - unfold OrbaxPmapTrainingCheckpointer.save_final,
      OrbaxPmapTrainingCheckpointer._save.
    rewrite E2; simpl.
    destruct (latest_step cm (mgr w)) as [l|]; [destruct (l <? step)|];
      reflexivity.
  - unfold OrbaxPjitTrainingCheckpointer.get_model_states,
      OrbaxPjitTrainingCheckpointer._restore_with_args.
    rewrite T1. reflexivity.
  - unfold OrbaxPmapTrainingCheckpointer.get_model_states,
      OrbaxPmapTrainingCheckpointer._restore_from_tensorstore.
    rewrite T2. reflexivity.
Qed.



End SavingDisabled.

Lemma disabled_saving_writes_nothing_witness :
  writes_nothing
    Demo.world0
    (OrbaxPjitTrainingCheckpointer.save_if_needed
       Demo.manager (Demo.pjit false) 0 Demo.start Demo.world0)
  /\ OrbaxPjitTrainingCheckpointer.save_final
       Demo.manager (Demo.pjit false) 0 Demo.start Demo.world0
     = Demo.world0.
Proof.
  pose proof (disabled_saving_writes_nothing
                Demo.manager (Demo.runtime 1 false)
                (Demo.pjit false) (Demo.pjit true)
                (Demo.pmap false) (Demo.pmap true)
                0 Demo.start Demo.world0 None Demo.metadata tt
                eq_refl eq_refl eq_refl eq_refl) as H.
  exact (conj (proj1 H) (proj1 (proj2 H))).
Defined.


(** ** Facts about counting calls *)

Section CountingFacts.

Context {TrainState : Type}.

Local Abbreviation Call := (@Call TrainState).

Lemma count_app (p : Call -> bool) (l m : list Call) :
  count p (l ++ m) = (count p l + count p m)%nat.
Proof. unfold count. now rewrite filter_app, length_app. Qed.

Lemma count_quiet (p q : Call -> bool) (l : list Call) :
  forallb q l = true ->
  (forall c, q c = true -> p c = false) ->
  count p l = 0%nat.
Proof.
  intros H D. induction l as [|c l IH]; [reflexivity|].
  simpl in H. apply andb_true_iff in H. destruct H as [Hc Hl].
  unfold count; simpl. rewrite (D c Hc). apply IH; exact Hl.
Qed.

Lemma first_early_stop_app (l m : list Call) :
  first_early_stop (l ++ m)
  = match first_early_stop l with
    | Some b => Some b
    | None => first_early_stop m
    end.
Proof.
  induction l as [|c l IH]; [reflexivity|].
  destruct c; simpl; auto.
Qed.

Lemma first_early_stop_evals (l : list Call) :
  forallb is_eval l = true -> first_early_stop l = None.
Proof.
  induction l as [|c l IH]; [reflexivity|].
  destruct c; simpl; try discriminate. exact IH.
Qed.

Lemma first_early_stop_decodes (l : list Call) :
  forallb is_decode l = true -> first_early_stop l = None.
Proof.
  induction l as [|c l IH]; [reflexivity|].
  destruct c; simpl; try discriminate. exact IH.
Qed.

End CountingFacts.

(** ** What one pass through the loop body does *)

Section LoopBody.

Context {TrainState Spec M Metrics E : Type}.

Local Abbreviation LoopState := (@LoopState TrainState Spec M E).

Variable train_p : TrainHParams.
Variable co : @Collaborators TrainState Metrics E.
Variable train_program : @TrainProgram TrainState Metrics E.
Variable eval_programs : list (@EvalProgram E).
Variable decode_input_p : list BaseInput.
Variable total_num_params : Z.
Variable early_stopping_fn : option (@EarlyStoppingFn Metrics E).
Variable checkpointer : @LoopCheckpointer TrainState Spec M.
Variable exit_after_ondemand_checkpoint : bool.
Variable passes_train_to_end : bool.

Local Abbreviation body :=
  (loop_body train_p co train_program eval_programs decode_input_p
             total_num_params early_stopping_fn checkpointer
             exit_after_ondemand_checkpoint passes_train_to_end).

Local Abbreviation loop :=
  (while_true train_p co train_program eval_programs decode_input_p
              total_num_params early_stopping_fn checkpointer
              exit_after_ondemand_checkpoint passes_train_to_end).

Local Abbreviation decode_due := (decode_due train_p decode_input_p).
Local Abbreviation ema_unavailable := (ema_unavailable train_p co).
Local Abbreviation decided_world :=
  (@decided_world TrainState Spec M E checkpointer).
Local Abbreviation preempted :=
  (@preempted TrainState Spec M E checkpointer exit_after_ondemand_checkpoint).
Local Abbreviation prologue :=
  (@prologue TrainState Spec M E checkpointer exit_after_ondemand_checkpoint).
Local Abbreviation extends := (@extends TrainState Spec M E).
Local Abbreviation remaining := (@remaining TrainState Spec M E).

Lemma extends_refl (ls : LoopState) : extends ls ls [].
Proof. repeat split. now rewrite app_nil_r. Qed.

Lemma eval_phase_extends (ls : LoopState) :
  exists evs,
    extends ls (snd (eval_phase train_p co eval_programs ls)) evs
    /\ forallb is_eval evs = true.
Proof.
  unfold eval_phase.
  destruct (interval_hit _ _); [|exists []; split; [apply extends_refl|reflexivity]].
  destruct (nonempty eval_programs);
    [|exists []; split; [apply extends_refl|reflexivity]].
  destruct (run_eval_loop_over_test_splits _ _ _ _ _) as [m e]; simpl.
  eexists [_]; split; [repeat split|reflexivity].
Qed.

Lemma decode_phase_extends (ls : LoopState) :
  exists evs,
    extends ls (snd (decode_phase train_p co decode_input_p ls)) evs
    /\ forallb is_decode evs = true
    /\ match fst (decode_phase train_p co decode_input_p ls) with
       | Raise e =>
           e = ema_error /\ evs = []
           /\ decode_due (step_i ls) = true /\ ema_unavailable = true
       | Ok _ => decode_due (step_i ls) && ema_unavailable = false
       end
    /\ (decode_due (step_i ls) = false -> evs = []).
Proof.
  unfold decode_phase, decode_due, ema_unavailable.
  destruct (nonempty decode_input_p && _); simpl;
    [|exists []; repeat split; apply extends_refl].
  destruct (decode_use_ema_states train_p); simpl.
  - destruct (has_ema co); simpl.
    + destruct (decode_once_fn _ _ _) as [m e]; simpl.
      eexists [_]; repeat split. discriminate.
    + exists []; repeat split. simpl. now rewrite app_nil_r.
  - destruct (decode_once_fn _ _ _) as [m e]; simpl.
    eexists [_]; repeat split. discriminate.
Qed.

Lemma early_stop_phase_extends out em dm (ls : LoopState) :
  exists evs,
    extends ls
            (step_state (early_stop_phase train_p co total_num_params
                                          early_stopping_fn passes_train_to_end
                                          out em dm ls)) evs
    /\ match early_stop_phase train_p co total_num_params
                              early_stopping_fn passes_train_to_end
                              out em dm ls with
       | Continue _ =>
           (early_stopping_fn = None /\ evs = [])
           \/ (early_stopping_fn <> None
               /\ exists b, evs = [CallEarlyStop (step_i ls) b false])
       | Break reason _ =>
           reason = early_stop
           /\ early_stopping_fn <> None
           /\ exists b, evs = [CallEarlyStop (step_i ls) b true]
       | Exit _ _ | Throw _ _ => False
       end.
Proof.
  unfold early_stop_phase.
  destruct early_stopping_fn as [fn|].
  - destruct (should_early_stop _ _ _ _ _) as [stop e].
    destruct stop; simpl; eexists [_]; (split; [repeat split|]).
    + split; [reflexivity|]. split; [discriminate|]. eexists; reflexivity.
    + right. split; [discriminate|]. eexists; reflexivity.
  - exists []; split; [apply extends_refl|]. left; split; reflexivity.
Qed.

(** The train step and what follows it: the log grows by the [run]
    call, then eval calls, decode calls and at most one early-stopping
    call; the step and state held afterwards are those of the program's
    output; the world of the checkpointer is not touched. *)
Lemma train_phase_spec (ls : LoopState) :
  let out := fst (run train_program (partitioned_train_state ls) (step_i ls)
                      (env ls)) in
  let r := train_phase train_p co train_program eval_programs decode_input_p
                       total_num_params early_stopping_fn passes_train_to_end
                       ls in
  exists ev dv sv,
    log (step_state r)
    = log ls ++ [CallRun (step_i ls) (partitioned_train_state ls)]
          ++ ev ++ dv ++ sv
    /\ forallb is_eval ev = true
    /\ forallb is_decode dv = true
    /\ step_i (step_state r) = new_train_step (aux out)
    /\ partitioned_train_state (step_state r) = state out
    /\ world (step_state r) = world ls
    /\ (decode_due (new_train_step (aux out)) = false -> dv = [])
    /\ match r with
       | Continue _ =>
           decode_due (new_train_step (aux out)) && ema_unavailable = false
           /\ ((early_stopping_fn = None /\ sv = [])
               \/ (early_stopping_fn <> None
                   /\ exists b,
                      sv = [CallEarlyStop (new_train_step (aux out)) b false]))
       | Break reason _ =>
           decode_due (new_train_step (aux out)) && ema_unavailable = false
           /\ reason = early_stop
           /\ early_stopping_fn <> None
           /\ exists b, sv = [CallEarlyStop (new_train_step (aux out)) b true]
       | Throw e _ =>
           e = ema_error /\ dv = [] /\ sv = []
           /\ decode_due (new_train_step (aux out)) = true
           /\ ema_unavailable = true
       | Exit _ _ => False
       end.
Proof.
  cbv zeta. unfold train_phase.
  change (env (emit _ ls)) with (env ls).
  change (step_i (emit _ ls)) with (step_i ls).
  change (partitioned_train_state (emit _ ls))
    with (partitioned_train_state ls).
  destruct (run train_program (partitioned_train_state ls) (step_i ls) (env ls))
    as [out e]; simpl fst.
  set (ls1 := mk_loop (new_train_step (aux out)) (state out) _ e _).
  destruct (eval_phase_extends ls1) as (ev & (E1 & E2 & E3 & E4) & Ev).
  destruct (eval_phase train_p co eval_programs ls1) as [em ls2].
  simpl in E1, E2, E3, E4.
  destruct (decode_phase_extends ls2)
    as (dv & (D1 & D2 & D3 & D4) & Dv & Dr & Dn).
  rewrite E1 in Dn. unfold ls1 in Dn; simpl in Dn.
  destruct (decode_phase train_p co decode_input_p ls2) as [[dm|err] ls3];
    simpl in D1, D2, D3, D4, Dr.
  - destruct (early_stop_phase_extends out em dm ls3)
      as (sv & (S1 & S2 & S3 & S4) & Sr).
    exists ev, dv, sv.
    assert (L : log (step_state
                        (early_stop_phase train_p co total_num_params
                           early_stopping_fn passes_train_to_end out em dm ls3))
                = log ls ++ [CallRun (step_i ls) (partitioned_train_state ls)]
                      ++ ev ++ dv ++ sv).
    { rewrite S4, D4, E4. unfold ls1; simpl.
      now rewrite <- !app_assoc. }
    assert (St : step_i ls3 = new_train_step (aux out))
      by (rewrite D1, E1; reflexivity).
    rewrite St in Sr. rewrite E1 in Dr.
    unfold ls1 in Dr; simpl in Dr.
    split; [exact L|]. split; [exact Ev|]. split; [exact Dv|].
    split; [rewrite S1; exact St|].
    split; [rewrite S2, D2, E2; reflexivity|].
    split; [rewrite S3, D3, E3; reflexivity|].
    split; [exact Dn|].
    destruct (early_stop_phase _ _ _ _ _ _ _ _ _);
      [split; [exact Dr | exact Sr] | split; [exact Dr | exact Sr]
       | contradiction | contradiction].
  - destruct Dr as (-> & -> & Due & Un).
    exists ev, [], []. simpl.
    split; [rewrite D4, E4; unfold ls1; simpl; now rewrite <- !app_assoc|].
    split; [exact Ev|]. split; [reflexivity|].
    split; [rewrite D1, E1; reflexivity|].
    split; [rewrite D2, E2; reflexivity|].
    split; [rewrite D3, E3; reflexivity|].
    split; [reflexivity|].
    rewrite E1 in Due. repeat split; assumption.
Qed.

Lemma loop_body_preempted (ls : LoopState) :
  preempted ls = true ->
  body ls
  = Exit 1 (mk_loop (step_i ls) (partitioned_train_state ls)
                    (ck_wait_until_finished checkpointer (decided_world ls))
                    (env ls)
                    (log ls ++ prologue ls ++ [CallWaitUntilFinished])).
Proof.
  unfold preempted, loop_body, prologue, decided_world.
  destruct exit_after_ondemand_checkpoint; simpl; [|discriminate].
  intros ->. unfold emit, with_world; simpl.
  now rewrite <- !app_assoc.
Qed.

Lemma loop_body_completed (ls : LoopState) :
  preempted ls = false ->
  should_run train_program (partitioned_train_state ls) (step_i ls) = false ->
  body ls
  = Break completed
          (mk_loop (step_i ls) (partitioned_train_state ls) (decided_world ls)
                   (env ls)
                   (log ls ++ prologue ls
                        ++ [CallShouldRun (step_i ls)
                                          (partitioned_train_state ls) false])).
Proof.
  unfold preempted, loop_body, prologue, decided_world.
  destruct exit_after_ondemand_checkpoint; simpl; intros P R.
  - rewrite P; simpl. rewrite R; simpl. unfold emit; simpl.
    now rewrite <- !app_assoc.
  - rewrite R; simpl. unfold emit; simpl. now rewrite <- !app_assoc.
Qed.

Lemma loop_body_trains (ls : LoopState) :
  preempted ls = false ->
  should_run train_program (partitioned_train_state ls) (step_i ls) = true ->
  body ls
  = train_phase train_p co train_program eval_programs decode_input_p
                total_num_params early_stopping_fn passes_train_to_end
                (mk_loop (step_i ls) (partitioned_train_state ls)
                         (decided_world ls) (env ls)
                         (log ls ++ prologue ls
                              ++ [CallShouldRun (step_i ls)
                                                (partitioned_train_state ls)
                                                true])).
Proof.
  unfold preempted, loop_body, prologue, decided_world.
  destruct exit_after_ondemand_checkpoint; simpl; intros P R.
  - rewrite P; simpl. rewrite R; simpl. unfold emit; simpl.
    now rewrite <- !app_assoc.
  - rewrite R; simpl. unfold emit; simpl. now rewrite <- !app_assoc.
Qed.

Lemma finish_spec (ls : LoopState) :
  finish checkpointer ls
  = mk_loop (step_i ls) (partitioned_train_state ls)
            (ck_wait_until_finished
               checkpointer
               (ck_save_final checkpointer (step_i ls)
                              (partitioned_train_state ls) (world ls)))
            (env ls)
            (log ls ++ [CallSaveFinal (step_i ls) (partitioned_train_state ls);
                        CallWaitUntilFinished]).
Proof. unfold finish, emit, with_world; simpl. now rewrite <- app_assoc. Qed.

Lemma count_run_prologue (ls : LoopState) : count is_run (prologue ls) = 0%nat.
Proof.
  unfold prologue; destruct exit_after_ondemand_checkpoint; reflexivity.
Qed.

Lemma count_decode_prologue (ls : LoopState) : count is_decode (prologue ls) = 0%nat.
Proof.
  unfold prologue; destruct exit_after_ondemand_checkpoint; reflexivity.
Qed.

Lemma first_early_stop_prologue (ls : LoopState) : first_early_stop (prologue ls) = None.
Proof.
  unfold prologue; destruct exit_after_ondemand_checkpoint; reflexivity.
Qed.

Lemma eval_not_run (c : @Call TrainState) : is_eval c = true -> is_run c = false.
Proof. destruct c; simpl; congruence. Qed.

Lemma decode_not_run (c : @Call TrainState) :
  is_decode c = true -> is_run c = false.
Proof. destruct c; simpl; congruence. Qed.

Lemma eval_not_decode (c : @Call TrainState) :
  is_eval c = true -> is_decode c = false.
Proof. destruct c; simpl; congruence. Qed.


Section Horizon.

Variable K : Z.
Hypothesis should_run_below :
  forall s step, should_run train_program s step = (step <? K).
Hypothesis run_advances :
  forall s step e,
    new_train_step (aux (fst (run train_program s step e))) = step + 1.
Hypothesis no_policy : early_stopping_fn = None.
Hypothesis no_preemption_exit : forall l, preempted l = false.
Hypothesis ema_available : ema_unavailable = false.

Lemma body_continues (ls : LoopState) :
  step_i ls < K ->
  exists ls',
    body ls = Continue ls'
    /\ step_i ls' = step_i ls + 1
    /\ count is_run (log ls') = S (count is_run (log ls)).
Proof.
  intro Hlt.
  assert (R : should_run train_program (partitioned_train_state ls) (step_i ls)
              = true)
    by (rewrite should_run_below; apply Z.ltb_lt; exact Hlt).
  rewrite (loop_body_trains ls (no_preemption_exit ls) R).
  set (ls0 := mk_loop _ _ _ _ _).
  pose proof (train_phase_spec ls0) as T. cbv zeta in T.
  destruct T as (ev & dv & sv & L & Ev & Dv & St & Ps & W & Dn & C).
  destruct (train_phase _ _ _ _ _ _ _ _ ls0) as [ls'|r ls'|c ls'|e ls'];
    cbn [step_state] in L, St, C.
  - exists ls'. split; [reflexivity|]. split.
    + rewrite St. apply run_advances.
    + destruct C as [_ [[_ ->] | [Hne _]]]; [|contradiction].
      rewrite L. unfold ls0; cbn [log]. rewrite !count_app.
      rewrite count_run_prologue.
      rewrite (count_quiet is_run is_eval ev Ev eval_not_run).
      rewrite (count_quiet is_run is_decode dv Dv decode_not_run).
      unfold count; simpl. lia.
  - destruct C as (_ & _ & Hne & _). contradiction.
  - contradiction.
  - destruct C as (_ & _ & _ & _ & U). congruence.
Qed.

Lemma body_completes (ls : LoopState) :
  K <= step_i ls ->
  exists ls',
    body ls = Break completed ls'
    /\ step_i ls' = step_i ls
    /\ partitioned_train_state ls' = partitioned_train_state ls
    /\ count is_run (log ls') = count is_run (log ls).
Proof.
  intro Hge.
  assert (R : should_run train_program (partitioned_train_state ls) (step_i ls)
              = false)
    by (rewrite should_run_below; apply Z.ltb_ge; exact Hge).
  rewrite (loop_body_completed ls (no_preemption_exit ls) R).
  eexists; split; [reflexivity|].
  cbn [step_i partitioned_train_state log].
  repeat split.
  rewrite !count_app, count_run_prologue. unfold count; simpl. lia.
Qed.

Lemma loop_completes_from (n : nat) :
  forall fuel ls,
    remaining K ls = n ->
    (n < fuel)%nat ->
    exists ls',
      loop fuel ls = Returned completed (finish checkpointer ls')
      /\ count is_run (log ls') = (count is_run (log ls) + n)%nat
      /\ step_i ls' = Z.max K (step_i ls).
Proof.
  unfold remaining.
  induction n as [|n IH]; intros fuel ls Hn Hf;
    destruct fuel as [|fuel]; try lia; simpl.
  - destruct (body_completes ls) as (ls' & B & S1 & _ & C1); [lia|].
    rewrite B. exists ls'. split; [reflexivity|]. split; lia.
  - destruct (body_continues ls) as (ls' & B & S1 & C1); [lia|].
    rewrite B.
    destruct (IH fuel ls') as (ls2 & L & C2 & S2); [lia | lia |].
    exists ls2. split; [exact L|]. split; lia.
Qed.

End Horizon.


(** C2, amended.  Let [should_run] hold exactly below the horizon [K]
    and each [run] advance the step by one; let no early-stopping policy
    be configured, no pass leave through the preemption exit, and EMA
    decode not be asked of a task without EMA states.  Then the loop
    makes exactly [K - step] calls of [run], [step] being the step it
    starts from (none when the start is at or past [K]), stops with
    reason [completed], and returns after [save_final] for the step and
    state reached, followed by [wait_until_finished]. *)
Theorem loop_runs_remaining_steps_then_completes
        (K : Z) (fuel : nat) (ls : LoopState) :
  (forall s step, should_run train_program s step = (step <? K)) ->
  (forall s step e,
      new_train_step (aux (fst (run train_program s step e))) = step + 1) ->
  early_stopping_fn = None ->
  (forall l, preempted l = false) ->
  ema_unavailable = false ->
  (remaining K ls < fuel)%nat ->
  exists ls',
    loop fuel ls = Returned completed (finish checkpointer ls')
    /\ count is_run (log ls') = (count is_run (log ls) + remaining K ls)%nat
    /\ count is_run (log (finish checkpointer ls')) = count is_run (log ls')
    /\ step_i ls' = Z.max K (step_i ls)
    /\ log (finish checkpointer ls')
       = log ls' ++ [CallSaveFinal (step_i ls') (partitioned_train_state ls');
                     CallWaitUntilFinished]
    /\ world (finish checkpointer ls')
       = ck_wait_until_finished
           checkpointer
           (ck_save_final checkpointer (step_i ls')
                          (partitioned_train_state ls') (world ls')).
Proof.
  intros HR HN HE HP HU Hf.
  destruct (@loop_completes_from K HR HN HE HP HU _ fuel ls eq_refl Hf)
    as (ls' & L & C & S1).
  exists ls'. split; [exact L|]. rewrite finish_spec. cbn [log world].
  split; [exact C|]. split.
  - rewrite count_app. unfold count at 2; simpl. lia.
  - split; [exact S1|]. split; reflexivity.
Qed.

Lemma body_log_grows (ls : LoopState) :
  exists evs,
    log (step_state (body ls)) = log ls ++ evs
    /\ (early_stopping_fn = None -> first_early_stop evs = None).
Proof.
  destruct (preempted ls) eqn:P.
  { rewrite (loop_body_preempted ls P). eexists; split; [reflexivity|].
    intros _. rewrite first_early_stop_app, first_early_stop_prologue.
    reflexivity. }
  destruct (should_run train_program (partitioned_train_state ls) (step_i ls))
    eqn:R.
  2:{ rewrite (loop_body_completed ls P R). eexists; split; [reflexivity|].
      intros _. rewrite first_early_stop_app, first_early_stop_prologue.
      reflexivity. }
  rewrite (loop_body_trains ls P R).
  set (ls0 := mk_loop _ _ _ _ _).
  pose proof (train_phase_spec ls0) as T. cbv zeta in T.
  destruct T as (ev & dv & sv & L & Ev & Dv & St & Ps & W & Dn & C).
  rewrite L. unfold ls0; cbn [log]. rewrite <- !app_assoc.
  eexists; split; [reflexivity|].
  intro HE.
  rewrite !first_early_stop_app, first_early_stop_prologue.
  rewrite (first_early_stop_evals ev Ev), (first_early_stop_decodes dv Dv).
  cbn [first_early_stop].
  destruct (train_phase _ _ _ _ _ _ _ _ ls0) as [ls'|r ls'|c ls'|e ls'].
  - destruct C as [_ [[_ ->] | [Hne _]]]; [reflexivity | contradiction].
  - destruct C as (_ & _ & Hne & _). contradiction.
  - contradiction.
  - destruct C as (_ & _ & -> & _). reflexivity.
Qed.

Lemma loop_log_grows (fuel : nat) :
  forall ls,
    exists evs,
      log (final_state (loop fuel ls)) = log ls ++ evs
      /\ (early_stopping_fn = None -> first_early_stop evs = None).
Proof.
  induction fuel as [|fuel IH]; intro ls; simpl.
  - exists []. split; [now rewrite app_nil_r | reflexivity].
  - destruct (body_log_grows ls) as (evs & L & F).
    destruct (body ls) as [ls'|r ls'|c ls'|e ls']; cbn [step_state] in L;
      cbn [final_state].
    + destruct (IH ls') as (evs' & L' & F').
      exists (evs ++ evs'). rewrite L', L, app_assoc. split; [reflexivity|].
      intro HE. rewrite first_early_stop_app, (F HE). exact (F' HE).
    + rewrite finish_spec. cbn [log]. rewrite L, <- app_assoc.
      eexists; split; [reflexivity|].
      intro HE. rewrite first_early_stop_app, (F HE). reflexivity.
    + exists evs; split; assumption.
    + exists evs; split; assumption.
Qed.

(** A run whose first call of the early-stopping policy answers true:
    the loop has stopped in its first pass, after exactly one call of
    [run], and returns after [save_final] for the step and state that
    [run] produced, followed by [wait_until_finished]. *)
Lemma early_stop_shape (fuel : nat) (ls : LoopState) :
  first_early_stop (log ls) = None ->
  first_early_stop (log (final_state (loop fuel ls))) = Some true ->
  let out := fst (run train_program (partitioned_train_state ls) (step_i ls)
                      (env ls)) in
  exists ls1,
    loop fuel ls = Returned early_stop (finish checkpointer ls1)
    /\ body ls = Break early_stop ls1
    /\ count is_run (log (finish checkpointer ls1)) = S (count is_run (log ls))
    /\ step_i ls1 = new_train_step (aux out)
    /\ partitioned_train_state ls1 = state out
    /\ log (finish checkpointer ls1)
       = log ls1 ++ [CallSaveFinal (new_train_step (aux out)) (state out);
                     CallWaitUntilFinished]
    /\ world (finish checkpointer ls1)
       = ck_wait_until_finished
           checkpointer
           (ck_save_final checkpointer (new_train_step (aux out)) (state out)
                          (decided_world ls)).
Proof.
  intros H0 H1. cbv zeta.
  destruct fuel as [|fuel]; [simpl in H1; congruence|].
  cbn [while_true] in H1 |- *.
  destruct (preempted ls) eqn:P.
  { rewrite (loop_body_preempted ls P) in H1. cbn [final_state log] in H1.
    rewrite !first_early_stop_app, H0, first_early_stop_prologue in H1.
    discriminate H1. }
  destruct (should_run train_program (partitioned_train_state ls) (step_i ls))
    eqn:R.
  2:{ rewrite (loop_body_completed ls P R) in H1.
      cbn [final_state] in H1. rewrite finish_spec in H1. cbn [log] in H1.
      rewrite !first_early_stop_app, H0, first_early_stop_prologue in H1.
      discriminate H1. }
  rewrite (loop_body_trains ls P R) in H1 |- *.
  set (ls0 := mk_loop _ _ _ _ _) in *.
  pose proof (train_phase_spec ls0) as T. cbv zeta in T.
  destruct T as (ev & dv & sv & L & Ev & Dv & St & Ps & W & Dn & C).
  set (A := log ls0 ++ [CallRun (step_i ls0) (partitioned_train_state ls0)]
                ++ ev ++ dv).
  assert (LA : log ls0 ++ [CallRun (step_i ls0) (partitioned_train_state ls0)]
                   ++ ev ++ dv ++ sv = A ++ sv)
    by (unfold A; now rewrite <- !app_assoc).
  assert (F0 : first_early_stop A = None).
  { unfold A, ls0; cbn [log step_i partitioned_train_state].
    rewrite !first_early_stop_app, H0, first_early_stop_prologue.
    rewrite (first_early_stop_evals ev Ev), (first_early_stop_decodes dv Dv).
    reflexivity. }
  destruct (train_phase _ _ _ _ _ _ _ _ ls0) as [ls'|r ls'|c ls'|e ls'];
    cbn [step_state] in L, St, Ps, W, C.
  - exfalso.
    destruct (loop_log_grows fuel ls') as (evs & L' & F').
    rewrite L', L, LA in H1.
    rewrite !first_early_stop_app, F0 in H1.
    destruct C as [_ [[HE ->] | [_ [b ->]]]].
    + cbn [first_early_stop] in H1. rewrite (F' HE) in H1. discriminate H1.
    + cbn [first_early_stop] in H1. discriminate H1.
  - destruct C as (_ & -> & _ & b & ->).
    exists ls'. split; [reflexivity|]. split; [reflexivity|].
    rewrite finish_spec. cbn [log world].
    rewrite St, Ps, W.
    unfold ls0; cbn [step_i partitioned_train_state env world].
    split.
    { rewrite L. unfold ls0; cbn [log step_i partitioned_train_state].
      rewrite !count_app, count_run_prologue.
      rewrite (count_quiet is_run is_eval ev Ev eval_not_run).
      rewrite (count_quiet is_run is_decode dv Dv decode_not_run).
      unfold count; simpl. lia. }
    repeat split.
  - contradiction.
  - exfalso. destruct C as (_ & -> & -> & _).
    cbn [final_state] in H1. rewrite L, LA, app_nil_r, F0 in H1.
    discriminate H1.
Qed.

(** With EMA decode asked of a task without EMA states, a pass that runs
    the train step and finds decode due raises, after [run] and before
    any decode call. *)
Lemma body_raises_when_decode_due (ls : LoopState) :
  ema_unavailable = true ->
  preempted ls = false ->
  should_run train_program (partitioned_train_state ls) (step_i ls) = true ->
  decode_due
    (new_train_step
       (aux (fst (run train_program (partitioned_train_state ls) (step_i ls)
                      (env ls))))) = true ->
  exists ls',
    body ls = Throw ema_error ls'
    /\ count is_run (log ls') = S (count is_run (log ls))
    /\ count is_decode (log ls') = count is_decode (log ls).
Proof.
  intros U P R Due.
  rewrite (loop_body_trains ls P R).
  set (ls0 := mk_loop _ _ _ _ _).
  pose proof (train_phase_spec ls0) as T. cbv zeta in T.
  destruct T as (ev & dv & sv & L & Ev & Dv & St & Ps & W & Dn & C).
  change (decode_due
            (new_train_step
               (aux (fst (run train_program (partitioned_train_state ls0)
                              (step_i ls0) (env ls0))))) = true) in Due.
  destruct (train_phase _ _ _ _ _ _ _ _ ls0) as [ls'|r ls'|c ls'|e ls'];
    cbn [step_state] in L.
  - destruct C as [C _]. rewrite Due, U in C. discriminate C.
  - destruct C as [C _]. rewrite Due, U in C. discriminate C.
  - contradiction.
  - destruct C as (-> & -> & -> & _).
    exists ls'. split; [reflexivity|].
    rewrite L. unfold ls0; cbn [log step_i partitioned_train_state].
    rewrite !count_app, count_run_prologue, count_decode_prologue.
    rewrite (count_quiet is_run is_eval ev Ev eval_not_run).
    rewrite (count_quiet is_decode is_eval ev Ev eval_not_decode).
    unfold count; simpl. split; lia.
Qed.

(** What any pass does to the counts of [run] and decode calls, and what
    a raise from the body tells. *)
Lemma body_counts (ls : LoopState) :
  (count is_run (log ls) <= count is_run (log (step_state (body ls))))%nat
  /\ (ema_unavailable = true ->
      count is_decode (log (step_state (body ls))) = count is_decode (log ls))
  /\ match body ls with
     | Throw e ls' =>
         e = ema_error
         /\ ema_unavailable = true
         /\ decode_due (step_i ls') = true
         /\ (count is_run (log ls) < count is_run (log ls'))%nat
     | _ => True
     end.
Proof.
  destruct (preempted ls) eqn:P.
  { rewrite (loop_body_preempted ls P). cbn [step_state log].
    rewrite !count_app, count_decode_prologue.
    unfold count; simpl. repeat split; lia. }
  destruct (should_run train_program (partitioned_train_state ls) (step_i ls))
    eqn:R.
  2:{ rewrite (loop_body_completed ls P R). cbn [step_state log].
      rewrite !count_app, count_decode_prologue.
      unfold count; simpl. repeat split; lia. }
  rewrite (loop_body_trains ls P R).
  set (ls0 := mk_loop _ _ _ _ _).
  pose proof (train_phase_spec ls0) as T. cbv zeta in T.
  destruct T as (ev & dv & sv & L & Ev & Dv & St & Ps & W & Dn & C).
  assert (RunUp : (count is_run (log ls)
                   < count is_run (log (step_state
                        (train_phase train_p co train_program eval_programs
                           decode_input_p total_num_params early_stopping_fn
                           passes_train_to_end ls0))))%nat).
  { rewrite L. unfold ls0; cbn [log step_i partitioned_train_state].
    rewrite !count_app.
    change (count is_run
              [CallRun (step_i ls) (partitioned_train_state ls)]) with 1%nat.
    lia. }
  split; [lia|].
  split.
  - intro U. rewrite L. unfold ls0; cbn [log step_i partitioned_train_state].
    assert (dv = []) as ->.
    { destruct (train_phase _ _ _ _ _ _ _ _ ls0).
      - destruct C as [C _]. rewrite U, andb_true_r in C. exact (Dn C).
      - destruct C as [C _]. rewrite U, andb_true_r in C. exact (Dn C).
      - contradiction.
      - destruct C as (_ & C & _). exact C. }
    assert (count is_decode sv = 0%nat) as Sv.
    { destruct (train_phase _ _ _ _ _ _ _ _ ls0).
      - destruct C as [_ [[_ ->] | [_ [b ->]]]]; reflexivity.
      - destruct C as (_ & _ & _ & b & ->); reflexivity.
      - contradiction.
      - destruct C as (_ & _ & -> & _); reflexivity. }
    rewrite !count_app, count_decode_prologue, Sv.
    rewrite (count_quiet is_decode is_eval ev Ev eval_not_decode).
    unfold count; simpl. lia.
  - destruct (train_phase _ _ _ _ _ _ _ _ ls0) as [ls'|r ls'|c ls'|e ls'];
      try exact I.
    cbn [step_state] in RunUp, St.
    destruct C as (-> & _ & _ & Due & U).
    rewrite St. repeat split; assumption.
Qed.

Lemma finish_counts (p : @Call TrainState -> bool) (ls : LoopState) :
  (forall n s, p (CallSaveFinal n s) = false) ->
  p CallWaitUntilFinished = false ->
  count p (log (finish checkpointer ls)) = count p (log ls).
Proof.
  intros H1 H2. rewrite finish_spec. cbn [log].
  rewrite count_app. unfold count at 2; simpl. rewrite H1, H2. simpl. lia.
Qed.

Lemma loop_counts (fuel : nat) :
  forall ls,
    (count is_run (log ls)
     <= count is_run (log (final_state (loop fuel ls))))%nat
    /\ (ema_unavailable = true ->
        count is_decode (log (final_state (loop fuel ls)))
        = count is_decode (log ls))
    /\ match loop fuel ls with
       | Raised e ls' =>
           e = ema_error
           /\ ema_unavailable = true
           /\ decode_due (step_i ls') = true
           /\ (count is_run (log ls) < count is_run (log ls'))%nat
       | _ => True
       end.
Proof.
  induction fuel as [|fuel IH]; intro ls; cbn [while_true].
  - cbn [final_state]. repeat split; lia.
  - destruct (body_counts ls) as (B1 & B2 & B3).
    destruct (body ls) as [ls'|r ls'|c ls'|e ls']; cbn [step_state] in B1, B2;
      cbn [final_state].
    + destruct (IH ls') as (I1 & I2 & I3).
      split; [lia|]. split.
      * intro U. rewrite (I2 U). exact (B2 U).
      * destruct (loop fuel ls'); try exact I.
        destruct I3 as (-> & U & Due & Lt). repeat split; try assumption. lia.
    + rewrite !finish_counts by reflexivity. repeat split; assumption.
    + repeat split; assumption.
    + split; [exact B1|]. split; [exact B2 | exact B3].
Qed.

End LoopBody.

(** ** Early stop and the final checkpoint *)

Section FinalSave.

Context {TrainState Spec Key M : Type}.
Variable cm : CheckpointManager TrainState Spec M.
Variable rt : Runtime TrainState Spec Key M.

Local Abbreviation World := (World TrainState Spec M).

(** What [save_final] of the sharded checkpointer leaves behind. *)
Lemma pjit_save_final_cases
      (pj : OrbaxPjitTrainingCheckpointer.t) (N : Z) (st : TrainState)
      (w : World) :
  let on := OrbaxPjitTrainingCheckpointer._enable_checkpoint_saving pj in
  let newer := none_or_older (latest_step cm (mgr w)) N in
  (on = true /\ newer ->
   OrbaxPjitTrainingCheckpointer.save_final cm pj N st w
   = manager_save cm N st true w)
  /\ (~ (on = true /\ newer) ->
      OrbaxPjitTrainingCheckpointer.save_final cm pj N st w = w).
Proof.
  cbv zeta. split.
  - intros [E H]. rewrite (pjit_save_final_newer cm pj N st w H).
    unfold OrbaxPjitTrainingCheckpointer._save_with_args. now rewrite E.
  - intro H. destruct (none_or_older_dec (latest_step cm (mgr w)) N) as [Y|Y].
    + rewrite (pjit_save_final_newer cm pj N st w Y).
      unfold OrbaxPjitTrainingCheckpointer._save_with_args.
      destruct (OrbaxPjitTrainingCheckpointer._enable_checkpoint_saving pj);
        [tauto | reflexivity].
    + apply pjit_save_final_not_newer; exact Y.
Qed.

(** What [save_final] of the replicated checkpointer leaves behind. *)
Lemma pmap_save_final_cases
      (pm : OrbaxPmapTrainingCheckpointer.t) (N : Z) (st : TrainState)
      (w : World) :
  let on := OrbaxPmapTrainingCheckpointer._enable_checkpoint_saving pm in
  let newer := none_or_older (latest_step cm (mgr w)) N in
  (on = true /\ newer ->
   OrbaxPmapTrainingCheckpointer.save_final cm rt pm N st w
   = manager_save cm N (OrbaxPmapTrainingCheckpointer.marshal rt st) true w)
  /\ (~ (on = true /\ newer) ->
      OrbaxPmapTrainingCheckpointer.save_final cm rt pm N st w = w).
Proof.
  cbv zeta. split.
  - intros [E H]. rewrite (pmap_save_final_newer cm rt pm N st w H).
    apply pmap_save_enabled; exact E.
  - intro H. destruct (none_or_older_dec (latest_step cm (mgr w)) N) as [Y|Y].
    + rewrite (pmap_save_final_newer cm rt pm N st w Y).
      unfold OrbaxPmapTrainingCheckpointer._save.
      destruct (OrbaxPmapTrainingCheckpointer._enable_checkpoint_saving pm);
        [tauto | reflexivity].
    + apply pmap_save_final_not_newer; exact Y.
Qed.

End FinalSave.

Section EarlyStopSave.

Context {TrainState Spec Key M Metrics E : Type}.

Local Abbreviation World := (World TrainState Spec M).
Local Abbreviation LoopState := (@LoopState TrainState Spec M E).

Variable cm : CheckpointManager TrainState Spec M.
Variable rt : Runtime TrainState Spec Key M.
Variable train_p : TrainHParams.
Variable co : @Collaborators TrainState Metrics E.
Variable train_program : @TrainProgram TrainState Metrics E.
Variable eval_programs : list (@EvalProgram E).
Variable decode_input_p : list BaseInput.
Variable total_num_params : Z.
Variable early_stopping_fn : option (@EarlyStoppingFn Metrics E).
Variable exit_after_ondemand_checkpoint : bool.
Variable passes_train_to_end : bool.

Local Abbreviation body checkpointer :=
  (loop_body train_p co train_program eval_programs decode_input_p
             total_num_params early_stopping_fn checkpointer
             exit_after_ondemand_checkpoint passes_train_to_end).

Local Abbreviation loop checkpointer :=
  (while_true train_p co train_program eval_programs decode_input_p
              total_num_params early_stopping_fn checkpointer
              exit_after_ondemand_checkpoint passes_train_to_end).

Local Abbreviation sharded pj :=
  (Train.loop_checkpointer
     (OrbaxPjitTrainingCheckpointer.as_checkpointer cm rt pj)).

Local Abbreviation replicated pm :=
  (Train.loop_checkpointer
     (OrbaxPmapTrainingCheckpointer.as_checkpointer cm rt pm)).

(** C3, amended.  If the run contains a call of the early-stopping
    policy and the first such call answers true, then the loop has
    stopped in its first pass, after exactly one call of [run], with
    reason [early_stop]; it returns after [save_final] for the step and
    state that [run] produced, followed by [wait_until_finished].  With
    a checkpointer of [train.py], that [save_final] takes a forced
    checkpoint at the new step exactly when checkpoint saving is enabled
    and there is no checkpoint yet or the newest one is older than the
    new step; otherwise the run ends with the checkpoints it had after
    the save decision of the pass, and only waits.  The sharded
    checkpointer saves the state itself, the replicated one the state
    as it marshals it. *)
Theorem early_stop_on_first_call
        (checkpointer : @LoopCheckpointer TrainState Spec M)
        (fuel : nat) (ls : LoopState) :
  first_early_stop (log ls) = None ->
  first_early_stop (log (final_state (loop checkpointer fuel ls)))
  = Some true ->
  let out := fst (run train_program (partitioned_train_state ls) (step_i ls)
                      (env ls)) in
  let N := new_train_step (aux out) in
  let w := decided_world checkpointer ls in
  let newer := none_or_older (latest_step cm (mgr w)) N in
  let final_save (on : bool) (saved : TrainState) (w' : World) :=
    (on = true /\ newer ->
     w' = manager_wait_until_finished cm (manager_save cm N saved true w))
    /\ (~ (on = true /\ newer) -> w' = manager_wait_until_finished cm w) in
  exists ls1,
    loop checkpointer fuel ls = Returned early_stop (finish checkpointer ls1)
    /\ body checkpointer ls = Break early_stop ls1
    /\ count is_run (log (finish checkpointer ls1))
       = S (count is_run (log ls))
    /\ step_i ls1 = N
    /\ partitioned_train_state ls1 = state out
    /\ log (finish checkpointer ls1)
       = log ls1 ++ [CallSaveFinal N (state out); CallWaitUntilFinished]
    /\ world (finish checkpointer ls1)
       = ck_wait_until_finished
           checkpointer (ck_save_final checkpointer N (state out) w)
    /\ (forall pj,
           checkpointer = sharded pj ->
           final_save
             (OrbaxPjitTrainingCheckpointer._enable_checkpoint_saving pj)
             (state out) (world (finish checkpointer ls1)))
    /\ (forall pm,
           checkpointer = replicated pm ->
           final_save
             (OrbaxPmapTrainingCheckpointer._enable_checkpoint_saving pm)
             (OrbaxPmapTrainingCheckpointer.marshal rt (state out))
             (world (finish checkpointer ls1))).
Proof.
  intros H0 H1. cbv zeta.
  destruct (@early_stop_shape
              TrainState Spec M Metrics E train_p co train_program
              eval_programs decode_input_p total_num_params early_stopping_fn
              checkpointer exit_after_ondemand_checkpoint passes_train_to_end
              fuel ls H0 H1)
    as (ls1 & A & B & C & D & F & G & W).
  exists ls1. repeat (split; [assumption|]).
  split.
  - intros pj ->. rewrite W.
    cbn [Train.loop_checkpointer ck_wait_until_finished ck_save_final
         OrbaxPjitTrainingCheckpointer.as_checkpointer wait_until_finished
         save_final].
    unfold OrbaxPjitTrainingCheckpointer.wait_until_finished.
    destruct (pjit_save_final_cases
                cm pj
                (new_train_step
                   (aux (fst (run train_program (partitioned_train_state ls)
                                  (step_i ls) (env ls)))))
                (state (fst (run train_program (partitioned_train_state ls)
                                 (step_i ls) (env ls))))
                (decided_world (sharded pj) ls)) as [P Q].
    split; intro Y; [rewrite (P Y) | rewrite (Q Y)]; reflexivity.
  - intros pm ->. rewrite W.
    cbn [Train.loop_checkpointer ck_wait_until_finished ck_save_final
         OrbaxPmapTrainingCheckpointer.as_checkpointer wait_until_finished
         save_final].
    unfold OrbaxPmapTrainingCheckpointer.wait_until_finished.
    destruct (pmap_save_final_cases
                cm rt pm
                (new_train_step
                   (aux (fst (run train_program (partitioned_train_state ls)
                                  (step_i ls) (env ls)))))
                (state (fst (run train_program (partitioned_train_state ls)
                                 (step_i ls) (env ls))))
                (decided_world (replicated pm) ls)) as [P Q].
    split; intro Y; [rewrite (P Y) | rewrite (Q Y)]; reflexivity.
Qed.

End EarlyStopSave.

(** ** Unique input names *)

Lemma check_unique_names_from_ok (inputs : list BaseInput) :
  forall seen,
    check_unique_names_from seen inputs = Ok tt
    <-> NoDup (map name inputs)
        /\ forall n, In n (map name inputs) -> ~ In n seen.
Proof.
  induction inputs as [|inp rest IH]; intro seen; simpl.
  - split; [intros _; split; [constructor | intros n []] | reflexivity].
  - destruct (existsb (String.eqb (name inp)) seen) eqn:X.
    + split; [discriminate|].
      intros [_ H]. exfalso. apply existsb_exists in X.
      destruct X as (x & Hx & Ex). apply String.eqb_eq in Ex. subst x.
      exact (H (name inp) (or_introl eq_refl) Hx).
    + rewrite IH. split.
      * intros [ND H]. split.
        -- constructor; [|exact ND].
           intro Hin. exact (H _ Hin (or_introl eq_refl)).
        -- intros n [<-|Hin] Hs.
           ++ assert (existsb (String.eqb (name inp)) seen = true) as Y
                by (apply existsb_exists; exists (name inp);
                    split; [exact Hs | apply String.eqb_refl]).
              congruence.
           ++ exact (H n Hin (or_intror Hs)).
      * intros [ND H]. inversion ND as [|a l NI ND']; subst. split; [exact ND'|].
        intros n Hin [<-|Hs]; [exact (NI Hin)|].
        exact (H n (or_intror Hin) Hs).
Qed.

(** The check passes exactly on pairwise distinct names. *)
Lemma check_unique_names_ok (inputs : list BaseInput) :
  check_unique_names inputs = Ok tt <-> NoDup (map name inputs).
Proof.
  unfold check_unique_names. rewrite check_unique_names_from_ok.
  split; [intros [H _]; exact H | intro H; split; [exact H | intros n _ []]].
Qed.

Lemma check_unique_names_from_raises (inputs : list BaseInput) :
  forall seen e,
    check_unique_names_from seen inputs = Raise e ->
    exists n, e = ValueError ("Duplicate param/input name found: " ++ n).
Proof.
  induction inputs as [|inp rest IH]; intros seen e; simpl; [discriminate|].
  destruct (existsb _ seen).
  - intro H; injection H as <-. eexists; reflexivity.
  - apply IH.
Qed.

Lemma check_unique_names_not_ema (inputs : list BaseInput) (e : Exn) :
  check_unique_names inputs = Raise e -> e <> ema_error.
Proof.
  intros H ->. apply check_unique_names_from_raises in H.
  destruct H as [n H]. discriminate H.
Qed.

Lemma check_unique_names_result (inputs : list BaseInput) :
  check_unique_names inputs = Ok tt
  \/ exists e, check_unique_names inputs = Raise e.
Proof.
  destruct (check_unique_names inputs) as [[]|e]; [left | right; exists e];
    reflexivity.
Qed.

(** ** Where the EMA request is checked *)

Section EmaRequest.

Context {TrainState Spec Key M Metrics E : Type}.

Variable train_p : TrainHParams.
Variable co : @Collaborators TrainState Metrics E.
Variable train_program : @TrainProgram TrainState Metrics E.

Lemma setup_eval_programs_counts
      (p : @Call TrainState -> bool) (programs : list (@EvalProgram E)) :
  (forall i, p (CallEvalSetup i) = false) ->
  forall ls : @LoopState TrainState Spec M E,
    count p (log (Executors.setup_eval_programs programs ls)) = count p (log ls).
Proof.
  intro H. induction programs as [|q r IH]; intro ls; simpl; [reflexivity|].
  rewrite IH. cbn [log with_env emit]. rewrite count_app.
  unfold count at 2; simpl. rewrite H. simpl. lia.
Qed.

(** C6, amended.  Asking for EMA decode of a task without EMA states is
    an error raised inside the training loop, not when the run is set
    up: in either file, a run that ends in this error has called [run]
    at least once, has called decode never, and holds a step at which
    decode is due; and a pass through the body that calls [run] and
    then finds decode due does raise it. *)
Theorem ema_error_raised_inside_loop
        (fuel : nat) (s : TrainState)
        (eval_programs : list (@EvalProgram E))
        (decode_input_p : list BaseInput) (total_num_params : Z)
        (early_stopping_fn : option (@EarlyStoppingFn Metrics E))
        (exec_checkpointer : @Executors.TrainingCheckpointer TrainState Spec M)
        (exit_after_ondemand_checkpoint : bool)
        (checkpointer : TrainingCheckpointer TrainState Spec Key M)
        (w : World TrainState Spec M) (e : E) :
  ema_unavailable train_p co = true ->
  (forall ls',
      Executors._train_and_evaluate_common
        fuel train_p co train_program s eval_programs decode_input_p
        total_num_params early_stopping_fn exec_checkpointer
        exit_after_ondemand_checkpoint w e = Raised ema_error ls' ->
      (0 < count is_run (log ls'))%nat
      /\ count is_decode (log ls') = 0%nat
      /\ decode_due train_p decode_input_p (step_i ls') = true)
  /\ (forall ls',
         Train._train_and_evaluate_common
           fuel train_p co train_program s eval_programs decode_input_p
           total_num_params early_stopping_fn checkpointer
           check_unique_names w e = Raised ema_error ls' ->
         (0 < count is_run (log ls'))%nat
         /\ count is_decode (log ls') = 0%nat
         /\ decode_due train_p decode_input_p (step_i ls') = true)
  /\ (forall (ck : @LoopCheckpointer TrainState Spec M) (flag pass : bool)
             (ls : @LoopState TrainState Spec M E),
         preempted ck flag ls = false ->
         should_run train_program (partitioned_train_state ls) (step_i ls)
         = true ->
         decode_due
           train_p decode_input_p
           (new_train_step
              (aux (fst (run train_program (partitioned_train_state ls)
                             (step_i ls) (env ls))))) = true ->
         exists ls',
           loop_body train_p co train_program eval_programs decode_input_p
                     total_num_params early_stopping_fn ck flag pass ls
           = Throw ema_error ls'
           /\ count is_run (log ls') = S (count is_run (log ls))
           /\ count is_decode (log ls') = count is_decode (log ls)).
Proof.
  intro U.
  assert (G : forall ck flag pass (ls ls' : @LoopState TrainState Spec M E),
             count is_run (log ls) = 0%nat ->
             count is_decode (log ls) = 0%nat ->
             while_true train_p co train_program eval_programs decode_input_p
                        total_num_params early_stopping_fn ck flag pass fuel ls
             = Raised ema_error ls' ->
             (0 < count is_run (log ls'))%nat
             /\ count is_decode (log ls') = 0%nat
             /\ decode_due train_p decode_input_p (step_i ls') = true).
  { intros ck flag pass ls ls' R0 D0 H.
    destruct (loop_counts train_p co train_program eval_programs decode_input_p
                          total_num_params early_stopping_fn ck flag pass
                          fuel ls) as (_ & C2 & C3).
    rewrite H in C2, C3. cbn [final_state] in C2.
    destruct C3 as (_ & _ & Due & Lt).
    split; [lia|]. split; [rewrite (C2 U); exact D0 | exact Due]. }
  split; [|split].
  - intro ls'. unfold Executors._train_and_evaluate_common.
    destruct (nonempty decode_input_p).
    + unfold Executors.partition_decode_once_fns,
        Executors._create_decode_programs.
      destruct (check_unique_names decode_input_p) as [[]|err] eqn:X; simpl.
      * destruct (match Executors.step_to_restore exec_checkpointer with
                  | Some r => _ | None => _ end); [discriminate|].
        destruct (check_unique_names (map eval_input eval_programs))
          as [[]|err] eqn:Y.
        -- apply G; rewrite setup_eval_programs_counts by reflexivity;
             reflexivity.
        -- intro H; injection H as -> _.
           exfalso. exact (check_unique_names_not_ema _ Y eq_refl).
      * intro H; injection H as -> _.
        exfalso. exact (check_unique_names_not_ema _ X eq_refl).
    + destruct (match Executors.step_to_restore exec_checkpointer with
                | Some r => _ | None => _ end); [discriminate|].
      destruct (check_unique_names (map eval_input eval_programs))
        as [[]|err] eqn:Y.
      * apply G; rewrite setup_eval_programs_counts by reflexivity;
          reflexivity.
      * intro H; injection H as -> _.
        exfalso. exact (check_unique_names_not_ema _ Y eq_refl).
  - intro ls'. unfold Train._train_and_evaluate_common.
    destruct (nonempty decode_input_p).
    + destruct (check_unique_names decode_input_p) as [[]|err] eqn:X.
      * apply G; reflexivity.
      * intro H; injection H as -> _.
        exfalso. exact (check_unique_names_not_ema _ X eq_refl).
    + apply G; reflexivity.
  - intros ck flag pass ls P R Due.
    exact (body_raises_when_decode_due
             train_p co train_program eval_programs decode_input_p
             total_num_params early_stopping_fn ck flag pass ls U P R Due).
Qed.

End EmaRequest.

(** ** Duplicate names on the three paths *)

Section DuplicateNames.

Context {TrainState Spec Key M Metrics E : Type}.

(** [executors.py]: a duplicate among the decode names, or among the
    eval names, ends the run with an exception before any [run]. *)
Lemma executors_rejects_duplicate_names
      fuel train_p (co : @Collaborators TrainState Metrics E) train_program s
      eval_programs decode_input_p total_num_params early_stopping_fn
      (checkpointer : @Executors.TrainingCheckpointer TrainState Spec M)
      exit_after_ondemand_checkpoint w e :
  ~ NoDup (map name decode_input_p)
  \/ ~ NoDup (map name (map eval_input eval_programs)) ->
  exists err ls,
    Executors._train_and_evaluate_common
      fuel train_p co train_program s eval_programs decode_input_p
      total_num_params early_stopping_fn checkpointer
      exit_after_ondemand_checkpoint w e = Raised err ls
    /\ count is_run (log ls) = 0%nat.
Proof.
  intro D. unfold Executors._train_and_evaluate_common.
  destruct (if nonempty decode_input_p then _ else _) as [names|err] eqn:X.
  2:{ do 2 eexists; split; reflexivity. }
  destruct (match Executors.step_to_restore checkpointer with
            | Some r => _ | None => _ end).
  { do 2 eexists; split; reflexivity. }
  destruct (check_unique_names (map eval_input eval_programs))
    as [[]|err] eqn:Y.
  2:{ do 2 eexists; split; [reflexivity|].
      rewrite setup_eval_programs_counts by reflexivity. reflexivity. }
  exfalso. apply check_unique_names_ok in Y.
  destruct D as [D|D]; [|exact (D Y)].
  apply D. destruct decode_input_p as [|i r]; [constructor|].
  cbn [nonempty] in X.
  unfold Executors.partition_decode_once_fns,
    Executors._create_decode_programs in X.
  destruct (check_unique_names (i :: r)) as [[]|err] eqn:Z;
    [|discriminate X].
  apply check_unique_names_ok; exact Z.
Qed.

(** [train_and_evaluate_pmap]: a duplicate among the eval names raises
    before the loop is entered. *)
Lemma pmap_rejects_duplicate_eval_names
      fuel train_p (co : @Collaborators TrainState Metrics E) train_program
      (checkpointer : TrainingCheckpointer TrainState Spec Key M)
      global_mesh metadata init_key eval_input_p decode_input_p
      early_stopping_fn_inst early_stopping_fn w (e : E) :
  ~ NoDup (map name eval_input_p) ->
  exists err,
    Train.train_and_evaluate_pmap
      fuel train_p co train_program checkpointer global_mesh metadata init_key
      eval_input_p decode_input_p early_stopping_fn_inst early_stopping_fn w e
    = Raise err.
Proof.
  intro D. unfold Train.train_and_evaluate_pmap.
  destruct (Train._create_program_and_states _ _ _ _ _) as [[[s n]|err] w'];
    [|eexists; reflexivity].
  destruct (is_some global_mesh); [eexists; reflexivity|].
  destruct (Train.merge_early_stopping _ _) as [f|err]; simpl;
    [|eexists; reflexivity].
  rewrite map_map. cbn [Train.SingleTaskEvalProgram eval_input].
  destruct (check_unique_names (map (fun x => x) eval_input_p))
    as [[]|err] eqn:Y; [|eexists; reflexivity].
  exfalso. apply check_unique_names_ok in Y. rewrite map_map in Y. exact (D Y).
Qed.

End DuplicateNames.

(** C7.  [train_and_evaluate_spmd_model] does not check the eval names:
    with two eval inputs both named ["test"], which
    [check_unique_names] rejects and on which
    [train_and_evaluate_pmap] raises before the loop, the sharded entry
    point sets up, runs the train step and returns normally. *)
Theorem spmd_accepts_duplicate_eval_names :
  let inputs := [{| name := "test" |}; {| name := "test" |}] in
  check_unique_names inputs
  = Raise (ValueError "Duplicate param/input name found: test")
  /\ Train.train_and_evaluate_pmap
       10 (Demo.hparams 1 None false) (Demo.collaborators false)
       (Demo.program 1) (Demo.pjit_checkpointer true) None Demo.metadata tt
       inputs [] None None Demo.world0 0%nat
     = Raise (ValueError "Duplicate param/input name found: test")
  /\ exists ls,
      Train.train_and_evaluate_spmd_model
        10 (Demo.hparams 1 None false) (Demo.collaborators false)
        (Demo.program 1) (Demo.pjit_checkpointer true) None Demo.metadata tt
        inputs [] None None Demo.world0 0%nat
      = Ok (Returned completed ls)
      /\ count is_run (log ls) = 1%nat.
Proof.
  cbv zeta. split; [reflexivity|]. split; [reflexivity|].
  eexists. split; reflexivity.
Qed.

(** ** Runs of the small instance *)

(** C2, as first stated, fails on two runs to the horizon 3 from step 0
    with no early-stopping policy, where [should_run] holds exactly
    below 3 and [run] advances the step by one.  With EMA decode asked
    of a task without EMA states and decode due at every step, the run
    ends in the EMA error after one train step.  With the preemption
    exit configured and preemption signalled at step 0, the run exits
    with status 1 before any train step. *)
Lemma loop_can_stop_before_the_horizon :
  (forall s step, should_run (Demo.program 3) s step = (step <? 3))
  /\ (forall s step e,
         new_train_step (aux (fst (run (Demo.program 3) s step e))) = step + 1)
  /\ (exists ls,
         Executors._train_and_evaluate_common
           10 (Demo.hparams 3 (Some 1) true) (Demo.collaborators false)
           (Demo.program 3) Demo.start [] [{| name := "d" |}] 7 None
           (Demo.exec_checkpointer None) false Demo.world0 0%nat
         = Raised ema_error ls
         /\ count is_run (log ls) = 1%nat)
  /\ (exists ls,
         Executors._train_and_evaluate_common
           10 (Demo.hparams 3 None false) (Demo.collaborators false)
           (Demo.program 3) Demo.start [] [] 7 None
           (Demo.exec_checkpointer (Some 0)) true Demo.world0 0%nat
         = Exited 1 ls
         /\ count is_run (log ls) = 0%nat).
Proof.
  split; [reflexivity|]. split; [reflexivity|].
  split; eexists; split; reflexivity.
Qed.

Lemma loop_runs_remaining_steps_then_completes_witness :
  exists ls',
    while_true (Demo.hparams 3 None false) (Demo.collaborators false)
               (Demo.program 3) [] [] 7 None
               (Executors.methods (Demo.exec_checkpointer None)) false true
               10 (mk_loop 0 Demo.start Demo.world0 0%nat [])
    = Returned completed
               (finish (Executors.methods (Demo.exec_checkpointer None)) ls')
    /\ count is_run (log ls') = 3%nat.
Proof.
  destruct (@loop_runs_remaining_steps_then_completes
              Demo.State unit Demo.Dir unit nat
              (Demo.hparams 3 None false) (Demo.collaborators false)
              (Demo.program 3) [] [] 7 None
              (Executors.methods (Demo.exec_checkpointer None)) false true
              3 10%nat (mk_loop 0 Demo.start Demo.world0 0%nat [])
              (fun _ _ => eq_refl) (fun _ _ _ => eq_refl) eq_refl
              (fun _ => eq_refl) eq_refl
              ltac:(unfold remaining; simpl; lia))
    as (ls' & A & B & _).
  exists ls'. split; [exact A | exact B].
Defined.

(** C3, as first stated, fails on two runs from step 0 whose policy
    stops at its first call.  Both stop after one train step, at step 1,
    and return after [save_final] and [wait_until_finished].  With
    checkpoint saving disabled, no save reaches the manager and the
    directory stays empty.  With saving enabled and a checkpoint at
    step 9 already there, the only save is the one the interval asks for
    at step 0, and there is no checkpoint at step 1. *)
Lemma early_stop_can_leave_no_checkpoint :
  (exists ls,
      Train._train_and_evaluate_common
        10 (Demo.hparams 3 None false) (Demo.collaborators false)
        (Demo.program 3) Demo.start [] [] 7 (Some Demo.stop_at_once)
        (Demo.pjit_checkpointer false) check_unique_names Demo.world0 0%nat
      = Returned early_stop ls
      /\ step_i ls = 1
      /\ count is_run (log ls) = 1%nat
      /\ first_early_stop (log ls) = Some true
      /\ saves_of (world ls) = []
      /\ IntervalManager.checkpoints (mgr (world ls)) = [])
  /\ (exists ls,
         Train._train_and_evaluate_common
           10 (Demo.hparams 3 None false) (Demo.collaborators false)
           (Demo.program 3) Demo.start [] [] 7 (Some Demo.stop_at_once)
           (Demo.pjit_checkpointer true) check_unique_names
           (mk_world
              {| IntervalManager.interval := 5;
                 IntervalManager.checkpoints :=
                   [(9, {| Demo.at_step := 9; Demo.weights := 9;
                           Demo.num_vars := 7 |})] |} [])
           0%nat
         = Returned early_stop ls
         /\ step_i ls = 1
         /\ count is_run (log ls) = 1%nat
         /\ first_early_stop (log ls) = Some true
         /\ saves_of (world ls) = [Save 0 Demo.start false]
         /\ IntervalManager.lookup
              (IntervalManager.checkpoints (mgr (world ls))) 1 = None).
Proof. split; eexists; repeat split; reflexivity. Qed.

Lemma early_stop_on_first_call_witness :
  exists ls1,
    while_true (Demo.hparams 3 None false) (Demo.collaborators false)
               (Demo.program 3) [] [] 7 (Some Demo.stop_at_once)
               (Train.loop_checkpointer (Demo.pjit_checkpointer true))
               false false 10 (mk_loop 0 Demo.start Demo.world0 0%nat [])
    = Returned early_stop
               (finish (Train.loop_checkpointer (Demo.pjit_checkpointer true))
                       ls1)
    /\ step_i ls1 = 1
    /\ saves_of
         (world (finish (Train.loop_checkpointer (Demo.pjit_checkpointer true))
                        ls1))
       = [Save 0 Demo.start false;
          Save 1 {| Demo.at_step := 1; Demo.weights := 1; Demo.num_vars := 7 |}
               true].
Proof.
  destruct (@early_stop_on_first_call
              Demo.State unit unit Demo.Dir unit nat
              Demo.manager (Demo.runtime 1 false)
              (Demo.hparams 3 None false) (Demo.collaborators false)
              (Demo.program 3) [] [] 7 (Some Demo.stop_at_once) false false
              (Train.loop_checkpointer (Demo.pjit_checkpointer true))
              10%nat (mk_loop 0 Demo.start Demo.world0 0%nat [])
              eq_refl eq_refl)
    as (ls1 & A & _ & _ & B & _ & _ & _ & P & _).
  exists ls1. split; [exact A|]. split; [exact B|].
  rewrite (proj1 (P (Demo.pjit true) eq_refl) (conj eq_refl eq_refl)).
  reflexivity.
Defined.



(** C6, as first stated, fails: with EMA decode asked of a task without
    EMA states, setting up raises nothing; the error comes out of the
    first pass through the loop, after the train step at step 0 has run.
    Where decode is never due, the same request raises nothing at all
    and the run completes. *)
Lemma ema_error_comes_after_a_train_step :
  Executors._train_and_evaluate_common
    10 (Demo.hparams 3 (Some 1) true) (Demo.collaborators false)
    (Demo.program 3) Demo.start [] [{| name := "d" |}] 7 None
    (Demo.exec_checkpointer None) false Demo.world0 0%nat
  = Raised ema_error
           (mk_loop
              1 {| Demo.at_step := 1; Demo.weights := 1; Demo.num_vars := 7 |}
              (mk_world
                 {| IntervalManager.interval := 5;
                    IntervalManager.checkpoints := [(0, Demo.start)] |}
                 [Save 0 Demo.start false; CheckForErrors])
              0%nat
              [CallSetup 0;
               CallSaveIfNeeded 0 Demo.start;
               CallShouldRun 0 Demo.start true;
               CallRun 0 Demo.start])
  /\ (exists ls,
         Train._train_and_evaluate_common
           10 (Demo.hparams 3 (Some 1) true) (Demo.collaborators false)
           (Demo.program 3) Demo.start [] [{| name := "d" |}] 7 None
           (Demo.pjit_checkpointer true) check_unique_names Demo.world0 0%nat
         = Raised ema_error ls
         /\ count is_run (log ls) = 1%nat)
  /\ (exists ls,
         Executors._train_and_evaluate_common
           10 (Demo.hparams 3 None true) (Demo.collaborators false)
           (Demo.program 3) Demo.start [] [{| name := "d" |}] 7 None
           (Demo.exec_checkpointer None) false Demo.world0 0%nat
         = Returned completed ls
         /\ count is_run (log ls) = 3%nat).
Proof.
  split; [vm_compute; reflexivity|].
  split; eexists; split; vm_compute; reflexivity.
Qed.

Lemma ema_error_raised_inside_loop_witness :
  Nat.lt 0
         (count is_run
                (log (final_state
                        (Executors._train_and_evaluate_common
                           10 (Demo.hparams 3 (Some 1) true)
                           (Demo.collaborators false) (Demo.program 3)
                           Demo.start [] [{| name := "d" |}] 7 None
                           (Demo.exec_checkpointer None) false Demo.world0
                           0%nat)))).
Proof.
  exact (proj1
           (proj1 (@ema_error_raised_inside_loop
                     Demo.State unit unit Demo.Dir unit nat
                     (Demo.hparams 3 (Some 1) true) (Demo.collaborators false)
                     (Demo.program 3) 10%nat Demo.start []
                     [{| name := "d" |}] 7 None (Demo.exec_checkpointer None)
                     false (Demo.pjit_checkpointer true) Demo.world0 0%nat
                     eq_refl)
                  _ eq_refl)).
Defined.

(** * Further properties *)

(** ** The duration parser on every string *)

Lemma string_app_nil_r (s : string) : (s ++ "")%string = s.
Proof. induction s as [|c s IH]; simpl; [reflexivity | now rewrite IH]. Qed.

Lemma string_app_assoc (a b c : string) :
  ((a ++ b) ++ c)%string = (a ++ (b ++ c))%string.
Proof. induction a as [|x a IH]; simpl; [reflexivity | now rewrite IH]. Qed.

Lemma span_prefix (p : ascii -> bool) (a b : string) :
  all_chars p a = true -> stops p b -> span p (a ++ b) = (a, b).
Proof.
  intros Ha Hb. induction a as [|c a IH]; simpl.
  - destruct b as [|c r]; simpl; [reflexivity|].
    simpl in Hb. now rewrite Hb.
  - cbn [all_chars] in Ha. apply andb_true_iff in Ha. destruct Ha as [Hc Ha].
    rewrite Hc, (IH Ha). reflexivity.
Qed.

Lemma word_stops_digit (s : string) : stops is_word s -> stops is_digit s.
Proof.
  destruct s as [|c r]; simpl; [trivial|].
  unfold is_word. intro H.
  destruct (is_digit c); [|reflexivity].
  cbn [orb] in H. discriminate H.
Qed.

Lemma stops_app (p : ascii -> bool) (a b : string) :
  stops p a -> (a = EmptyString -> stops p b) -> stops p (a ++ b).
Proof.
  destruct a as [|c r]; simpl; intros Ha Hb; [apply Hb; reflexivity | exact Ha].
Qed.

(** The match object on a string made of digits [ds], then word
    characters [ws] that do not begin with a digit, then [rest] that
    does not begin with a word character. *)
Lemma pattern_match_parts (ds ws rest : string) :
  ds <> EmptyString ->
  all_chars is_digit ds = true ->
  all_chars is_word ws = true ->
  stops is_digit ws ->
  stops is_word rest ->
  pattern_match (ds ++ ws ++ rest) = Some (mk_match ds (last_char ws)).
Proof.
  intros Hne Hd Hw Hs Hr. unfold pattern_match.
  rewrite (span_prefix is_digit ds (ws ++ rest) Hd).
  2:{ apply stops_app; [exact Hs|]. intros _. apply word_stops_digit; exact Hr. }
  destruct ds as [|c ds]; [congruence|].
  rewrite (span_prefix is_word ws rest Hw Hr). reflexivity.
Qed.

Lemma int_of_digits_nonneg (s : string) :
  forall acc, 0 <= acc -> all_chars is_digit s = true ->
              0 <= int_of_digits acc s.
Proof.
  induction s as [|c s IH]; intros acc Ha Hs; cbn [int_of_digits];
    [exact Ha|].
  cbn [all_chars] in Hs. apply andb_true_iff in Hs. destruct Hs as [Hc Hs].
  apply IH; [|exact Hs].
  unfold is_digit in Hc. apply andb_true_iff in Hc. destruct Hc as [H1 H2].
  apply Z.leb_le in H1. lia.
Qed.

Lemma decimal_value_nonneg (s : string) :
  all_chars is_digit s = true -> 0 <= decimal_value s.
Proof. apply int_of_digits_nonneg; lia. Qed.

Lemma int_of_short (s : string) :
  Z.of_nat (String.length s) <= int_max_str_digits ->
  int_of s = Ok (decimal_value s).
Proof.
  intro H. unfold int_of.
  replace (int_max_str_digits <? Z.of_nat (String.length s)) with false
    by (symmetry; apply Z.ltb_ge; exact H).
  reflexivity.
Qed.

Lemma int_of_long (s : string) :
  int_max_str_digits < Z.of_nat (String.length s) ->
  int_of s = Raise (exceeds_limit (String.length s)).
Proof.
  intro H. unfold int_of.
  replace (int_max_str_digits <? Z.of_nat (String.length s)) with true
    by (symmetry; apply Z.ltb_lt; exact H).
  reflexivity.
Qed.

Lemma int_of_nonneg (s : string) (v : Z) :
  all_chars is_digit s = true -> int_of s = Ok v -> 0 <= v.
Proof.
  intros D. unfold int_of.
  destruct (int_max_str_digits <? Z.of_nat (String.length s));
    [discriminate|].
  intro E; injection E as <-. apply decimal_value_nonneg; exact D.
Qed.

Lemma timedelta_of_seconds_in_range (v : Z) :
  0 <= v < timedelta_limit ->
  exists t, timedelta_of_seconds v = Ok t
            /\ total_seconds t = v
            /\ 0 <= days t <= 999999999
            /\ 0 <= seconds t < 86400
            /\ microseconds t = 0.
Proof.
  unfold timedelta_limit. intros [H0 H1]. unfold timedelta_of_seconds.
  assert (D : 0 <= v / 86400 <= 999999999).
  { split; [apply Z.div_pos; lia|].
    assert (v / 86400 < 1000000000) by (apply Z.div_lt_upper_bound; lia). lia. }
  replace (Z.abs (v / 86400) <=? 999999999) with true
    by (symmetry; apply Z.leb_le; lia).
  eexists; split; [reflexivity|]. unfold total_seconds; simpl.
  pose proof (Z.mod_pos_bound v 86400 ltac:(lia)).
  pose proof (Z.div_mod v 86400 ltac:(lia)).
  repeat split; lia.
Qed.

Lemma timedelta_of_seconds_overflow (v : Z) :
  timedelta_limit <= v -> timedelta_of_seconds v = Raise OverflowError.
Proof.
  unfold timedelta_limit. intro H. unfold timedelta_of_seconds.
  assert (1000000000 <= v / 86400) by (apply Z.div_le_lower_bound; lia).
  replace (Z.abs (v / 86400) <=? 999999999) with false
    by (symmetry; apply Z.leb_gt; lia).
  reflexivity.
Qed.

Lemma parsed_seconds_in_range (v : Z) :
  0 <= v < timedelta_limit ->
  parsed_seconds
    (t <- timedelta_of_seconds v ;; Ok (Some t))%result = Ok (Some v).
Proof.
  intro H. destruct (timedelta_of_seconds_in_range H) as (t & -> & T & _).
  simpl. now rewrite T.
Qed.

(** On a string that begins with digits, the parser's answer is read
    from the digits and the last character of the word run after
    them. *)
Lemma parse_duration_parts (ds ws rest : string) :
  ds <> EmptyString ->
  all_chars is_digit ds = true ->
  all_chars is_word ws = true ->
  stops is_digit ws ->
  stops is_word rest ->
  _parse_duration (Some (ds ++ ws ++ rest)%string)
  = if unit_ok (last_char ws)
    then (int_value <- int_of ds ;;
          int_value <- scale (ds ++ ws ++ rest)%string (last_char ws)
                             int_value ;;
          t <- timedelta_of_seconds int_value ;;
          Ok (Some t))%result
    else Raise (unable (ds ++ ws ++ rest)).
Proof.
  intros Hne Hd Hw Hs Hr. unfold _parse_duration.
  rewrite (@pattern_match_parts ds ws rest Hne Hd Hw Hs Hr).
  destruct ds as [|c ds]; [congruence|].
  cbn [append group1 group2 groups_len].
  destruct (unit_ok (last_char ws)); reflexivity.
Qed.

Lemma scale_message_free (s1 s2 : string) (u : ascii) (v : Z) :
  unit_ok (Some u) = true -> scale s1 (Some u) v = scale s2 (Some u) v.
Proof.
  unfold unit_ok, scale.
  destruct (u =? "s")%char; [reflexivity|].
  destruct (u =? "m")%char; [reflexivity|].
  destruct (u =? "h")%char; [reflexivity|].
  destruct (u =? "d")%char; [reflexivity | discriminate].
Qed.

Lemma unit_is_word_not_digit (u : ascii) :
  unit_ok (Some u) = true -> is_word u = true /\ is_digit u = false.
Proof.
  unfold unit_ok. intro H.
  repeat (apply orb_true_iff in H; destruct H as [H|H]);
    apply Ascii.eqb_eq in H; subst u; split; reflexivity.
Qed.

(** X1.  A nonempty string of the digits [0] to [9], of no more digits
    than [int] converts, parses to its decimal value in seconds, and
    followed by [s], [m], [h] or [d] to that value times 1, 60, 3600 or
    86400, as long as the product stays below the limit of
    [timedelta]. *)
Theorem parse_duration_digits_with_unit (ds : string) :
  ds <> EmptyString ->
  all_chars is_digit ds = true ->
  Z.of_nat (String.length ds) <= int_max_str_digits ->
  (decimal_value ds < timedelta_limit ->
   parsed_seconds (_parse_duration (Some ds)) = Ok (Some (decimal_value ds))
   /\ parsed_seconds (_parse_duration (Some (ds ++ "s")%string))
      = Ok (Some (decimal_value ds)))
  /\ (decimal_value ds * 60 < timedelta_limit ->
      parsed_seconds (_parse_duration (Some (ds ++ "m")%string))
      = Ok (Some (decimal_value ds * 60)))
  /\ (decimal_value ds * 3600 < timedelta_limit ->
      parsed_seconds (_parse_duration (Some (ds ++ "h")%string))
      = Ok (Some (decimal_value ds * 3600)))
  /\ (decimal_value ds * 86400 < timedelta_limit ->
      parsed_seconds (_parse_duration (Some (ds ++ "d")%string))
      = Ok (Some (decimal_value ds * 86400))).
Proof.
  intros Hne Hd Hlen.
  pose proof (decimal_value_nonneg ds Hd) as H0.
  assert (U : forall (u : string) (g : option ascii) (f : Z),
             all_chars is_word u = true -> stops is_digit u ->
             last_char u = g -> unit_ok g = true ->
             (forall m, scale m g (decimal_value ds)
                        = Ok (decimal_value ds * f)) ->
             0 < f -> decimal_value ds * f < timedelta_limit ->
             parsed_seconds (_parse_duration (Some (ds ++ u)%string))
             = Ok (Some (decimal_value ds * f))).
  { intros u g f Hw Hs Hl Hu Hsc Hf Hlt.
    rewrite <- (string_app_nil_r u) at 1.
    rewrite (@parse_duration_parts ds u EmptyString Hne Hd Hw Hs I).
    rewrite Hl, Hu, (int_of_short ds Hlen). cbn [bindR]. rewrite Hsc.
    cbn [bindR].
    apply parsed_seconds_in_range. split; [nia | exact Hlt]. }
  split; [|split; [|split]].
  - intro Hlt.
    assert (S1 : forall g, g = None \/ g = Some "s"%char ->
                 forall m, scale m g (decimal_value ds)
                           = Ok (decimal_value ds * 1)).
    { intros g [->| ->] m; simpl; f_equal; lia. }
    split.
    + pose proof (U EmptyString None 1 eq_refl I eq_refl eq_refl
                    (S1 None (or_introl eq_refl)) ltac:(lia) ltac:(lia)) as P.
      rewrite Z.mul_1_r, string_app_nil_r in P. exact P.
    + pose proof (U "s"%string (Some "s"%char) 1 eq_refl eq_refl eq_refl
                    eq_refl (S1 _ (or_intror eq_refl)) ltac:(lia) ltac:(lia))
        as P.
      rewrite Z.mul_1_r in P. exact P.
  - intro Hlt.
    apply (U "m"%string (Some "m"%char) 60); try reflexivity; lia.
  - intro Hlt.
    apply (U "h"%string (Some "h"%char) 3600); try reflexivity; lia.
  - intro Hlt.
    apply (U "d"%string (Some "d"%char) 86400); try reflexivity; lia.
Qed.

Lemma parse_duration_digits_with_unit_witness :
  parsed_seconds (_parse_duration (Some "15m"%string)) = Ok (Some 900).
Proof.
  exact (proj1 (proj2 (@parse_duration_digits_with_unit
                         "15"%string ltac:(discriminate) eq_refl
                         ltac:(vm_compute; discriminate)))
               ltac:(vm_compute; reflexivity)).
Defined.

(** X2.  A string over the code points below 256 that begins with
    anything but one of the digits [0] to [9] is rejected with the
    parser's own [ValueError], whatever follows. *)
Theorem parse_duration_rejects_non_digit_start (c : ascii) (r : string) :
  is_digit c = false ->
  _parse_duration (Some (String c r)) = Raise (unable (String c r)).
Proof.
  intro H. unfold _parse_duration, pattern_match. simpl span.
  rewrite H. reflexivity.
Qed.

Lemma parse_duration_rejects_non_digit_start_witness :
  _parse_duration (Some "-5s"%string) = Raise (unable "-5s").
Proof.
  exact (@parse_duration_rejects_non_digit_start "-"%char "5s"%string eq_refl).
Defined.

(** X3.  Strings over the code points below 256.  After the digits,
    only the last character of the run of word characters, the
    characters that [\w] matches, is read as the unit: if it is none of
    [s], [m], [h], [d] the string is rejected, and if it is one of them
    the string has the result, value or error, of the digits followed
    by that one letter. *)
Theorem parse_duration_last_word_char_decides
        (ds ws rest : string) (u : ascii) :
  ds <> EmptyString ->
  all_chars is_digit ds = true ->
  all_chars is_word ws = true ->
  stops is_digit ws ->
  stops is_word rest ->
  last_char ws = Some u ->
  (unit_ok (Some u) = false ->
   _parse_duration (Some (ds ++ ws ++ rest)%string)
   = Raise (unable (ds ++ ws ++ rest)))
  /\ (unit_ok (Some u) = true ->
      parsed_seconds (_parse_duration (Some (ds ++ ws ++ rest)%string))
      = parsed_seconds (_parse_duration (Some (ds ++ String u "")%string))).
Proof.
  intros Hne Hd Hw Hs Hr Hl.
  rewrite (@parse_duration_parts ds ws rest Hne Hd Hw Hs Hr), Hl.
  split; intro Hu; rewrite Hu; [reflexivity|].
  destruct (unit_is_word_not_digit u Hu) as [Uw Ud].
  rewrite <- (string_app_nil_r (String u "")) at 1.
  rewrite (@parse_duration_parts ds (String u "") EmptyString Hne Hd).
  - cbn [last_char]. rewrite Hu.
    destruct (int_of ds) as [v|e]; cbn [bindR]; [|reflexivity].
    rewrite (scale_message_free (ds ++ ws ++ rest)
                                (ds ++ String u "" ++ "") u v Hu).
    reflexivity.
  - cbn [all_chars]. now rewrite Uw.
  - exact Ud.
  - exact I.
Qed.

Lemma parse_duration_last_word_char_decides_witness :
  parsed_seconds (_parse_duration (Some "7weeks"%string))
  = parsed_seconds (_parse_duration (Some "7s"%string)).
Proof.
  exact (proj2 (@parse_duration_last_word_char_decides
                  "7"%string "weeks"%string EmptyString "s"%char
                  ltac:(discriminate) eq_refl eq_refl eq_refl I eq_refl)
               eq_refl).
Defined.

(** X4.  Strings over the code points below 256.  Whatever follows the
    first character that [\w] does not match is never read: when the
    unit before it is accepted, the whole string has the result, value
    or error, of the part before that character. *)
Theorem parse_duration_ignores_text_after_word_run (ds ws rest : string) :
  ds <> EmptyString ->
  all_chars is_digit ds = true ->
  all_chars is_word ws = true ->
  stops is_digit ws ->
  stops is_word rest ->
  unit_ok (last_char ws) = true ->
  parsed_seconds (_parse_duration (Some (ds ++ ws ++ rest)%string))
  = parsed_seconds (_parse_duration (Some (ds ++ ws)%string)).
Proof.
  intros Hne Hd Hw Hs Hr Hu.
  rewrite (@parse_duration_parts ds ws rest Hne Hd Hw Hs Hr), Hu.
  assert (E : (ds ++ ws)%string = (ds ++ ws ++ "")%string)
    by now rewrite string_app_nil_r.
  rewrite E.
  rewrite (@parse_duration_parts ds ws EmptyString Hne Hd Hw Hs I), Hu.
  destruct (int_of ds) as [v|e]; cbn [bindR]; [|reflexivity].
  destruct (last_char ws) as [u|]; [|reflexivity].
  rewrite (scale_message_free (ds ++ ws ++ rest) (ds ++ ws ++ "") u v Hu).
  reflexivity.
Qed.

Lemma parse_duration_ignores_text_after_word_run_witness :
  parsed_seconds (_parse_duration (Some "2h 30m"%string))
  = parsed_seconds (_parse_duration (Some "2h"%string)).
Proof.
  exact (@parse_duration_ignores_text_after_word_run
           "2"%string "h"%string " 30m"%string
           ltac:(discriminate) eq_refl eq_refl eq_refl eq_refl eq_refl).
Defined.

Lemma span_fst_all (p : ascii -> bool) (s : string) :
  all_chars p (fst (span p s)) = true.
Proof.
  induction s as [|c s IH]; simpl; [reflexivity|].
  destruct (p c) eqn:Pc; [|reflexivity].
  destruct (span p s) as [a b]. cbn [fst all_chars] in *. now rewrite Pc, IH.
Qed.

Lemma pattern_match_group1_digits (s : string) (m : Match) :
  pattern_match s = Some m -> all_chars is_digit (group1 m) = true.
Proof.
  unfold pattern_match. pose proof (span_fst_all is_digit s) as H.
  destruct (span is_digit s) as [ds rest]. cbn [fst] in H.
  destruct ds as [|c ds]; [discriminate|].
  destruct (span is_word rest) as [ws r].
  intro E; injection E as <-. exact H.
Qed.

Lemma scale_nonneg (m : string) (g : option ascii) (v v' : Z) :
  0 <= v -> scale m g v = Ok v' -> 0 <= v'.
Proof.
  intro H. unfold scale. destruct g as [c|].
  - destruct (c =? "s")%char; [intro E; injection E as <-; lia|].
    destruct (c =? "m")%char; [intro E; injection E as <-; lia|].
    destruct (c =? "h")%char; [intro E; injection E as <-; lia|].
    destruct (c =? "d")%char; [intro E; injection E as <-; lia|discriminate].
  - intro E; injection E as <-; lia.
Qed.

Lemma timedelta_of_seconds_ok (v : Z) (t : timedelta) :
  0 <= v -> timedelta_of_seconds v = Ok t -> v < timedelta_limit.
Proof.
  unfold timedelta_of_seconds, timedelta_limit. intros H0.
  destruct (Z.abs (v / 86400) <=? 999999999) eqn:L; [|discriminate].
  intros _. apply Z.leb_le in L.
  pose proof (Z.mod_pos_bound v 86400 ltac:(lia)).
  pose proof (Z.div_mod v 86400 ltac:(lia)). lia.
Qed.

(** X5.  Whenever the parser returns, the result is in normal form: no
    duration only for the empty string, and otherwise a duration of a
    whole, non-negative number of seconds below the limit of
    [timedelta], with its seconds field below one day. *)
Theorem parse_duration_result_normalised (s : string) (r : option timedelta) :
  _parse_duration (Some s) = Ok r ->
  match r with
  | None => s = EmptyString
  | Some t =>
      s <> EmptyString
      /\ 0 <= total_seconds t < timedelta_limit
      /\ 0 <= days t <= 999999999
      /\ 0 <= seconds t < 86400
      /\ microseconds t = 0
  end.
Proof.
  destruct s as [|c s].
  { intro E; injection E as <-. reflexivity. }
  unfold _parse_duration.
  destruct (pattern_match (String c s)) as [m|] eqn:P; [|discriminate].
  destruct (negb (groups_len m =? 2) || negb (unit_ok (group2 m)));
    [discriminate|].
  destruct (int_of (group1 m)) as [n|e] eqn:N; [|discriminate].
  pose proof (int_of_nonneg _ (pattern_match_group1_digits _ P) N) as H0.
  cbn [bindR].
  destruct (scale (String c s) (group2 m) n) as [v|e] eqn:S;
    [|discriminate].
  pose proof (scale_nonneg _ _ H0 S) as Hv.
  cbn [bindR].
  destruct (timedelta_of_seconds v) as [t|e] eqn:T; [|discriminate].
  cbn [bindR]. intro E; injection E as <-.
  pose proof (timedelta_of_seconds_ok Hv T) as Hl.
  destruct (timedelta_of_seconds_in_range (conj Hv Hl))
    as (t' & T' & Ts & Td & Tse & Tm).
  rewrite T in T'. injection T' as <-.
  split; [discriminate|]. rewrite Ts. repeat split; lia.
Qed.

Lemma parse_duration_result_normalised_witness :
  _parse_duration (Some "2d"%string) = Ok (Some (mk_timedelta 2 0 0))
  /\ total_seconds (mk_timedelta 2 0 0) < timedelta_limit.
Proof.
  split; [reflexivity|].
  exact (proj2 (proj1 (proj2 (@parse_duration_result_normalised
                                "2d"%string (Some (mk_timedelta 2 0 0))
                                eq_refl)))).
Defined.

(** X6.  Digits that stand for more seconds than a [timedelta] can hold
    are not rejected by the parser's own check.  With no more digits
    than [int] converts, the string is accepted and the construction of
    the [timedelta] raises [OverflowError]; with more, [int] raises its
    own [ValueError] about the limit, once the unit has been
    accepted. *)
Theorem parse_duration_overflow (ds : string) :
  ds <> EmptyString ->
  all_chars is_digit ds = true ->
  (Z.of_nat (String.length ds) <= int_max_str_digits ->
   (timedelta_limit <= decimal_value ds ->
    _parse_duration (Some ds) = Raise OverflowError)
   /\ (timedelta_limit <= decimal_value ds * 86400 ->
       _parse_duration (Some (ds ++ "d")%string) = Raise OverflowError))
  /\ (int_max_str_digits < Z.of_nat (String.length ds) ->
      _parse_duration (Some ds) = Raise (exceeds_limit (String.length ds))
      /\ _parse_duration (Some (ds ++ "d")%string)
         = Raise (exceeds_limit (String.length ds))).
Proof.
  intros Hne Hd.
  assert (A : _parse_duration (Some ds)
              = (int_value <- int_of ds ;;
                 t <- timedelta_of_seconds int_value ;;
                 Ok (Some t))%result).
  { rewrite <- (string_app_nil_r ds) at 1.
    change (ds ++ "")%string with (ds ++ "" ++ "")%string.
    rewrite (@parse_duration_parts ds EmptyString EmptyString Hne Hd
                                   eq_refl I I).
    cbn [last_char unit_ok]. destruct (int_of ds); reflexivity. }
  assert (B : _parse_duration (Some (ds ++ "d")%string)
              = (int_value <- int_of ds ;;
                 t <- timedelta_of_seconds (int_value * 86400) ;;
                 Ok (Some t))%result).
  { change (ds ++ "d")%string with (ds ++ "d" ++ "")%string.
    rewrite (@parse_duration_parts ds "d"%string EmptyString Hne Hd
                                   eq_refl eq_refl I).
    cbn [last_char]. change (unit_ok (Some "d"%char)) with true. cbv iota.
    destruct (int_of ds); reflexivity. }
  rewrite A, B. split.
  - intro Hlen. rewrite (int_of_short ds Hlen). cbn [bindR].
    split; intro H; now rewrite (timedelta_of_seconds_overflow H).
  - intro Hlen. rewrite (int_of_long ds Hlen). split; reflexivity.
Qed.

Lemma parse_duration_overflow_witness :
  _parse_duration (Some "1000000000d"%string) = Raise OverflowError.
Proof.
  exact (proj2 (proj1 (@parse_duration_overflow "1000000000"%string
                         ltac:(discriminate) eq_refl)
                      ltac:(vm_compute; discriminate))
               ltac:(vm_compute; discriminate)).
Defined.

(** ** Saving and restoring through the two checkpointers *)

Lemma interval_manager_newest_cons
      (TrainState : Type) (l : list (Z * TrainState)) (N : Z) (st : TrainState) :
  IntervalManager.newest ((N, st) :: l)
  = Some (match IntervalManager.newest l with
          | None => N
          | Some m => Z.max N m
          end).
Proof. simpl. destruct (IntervalManager.newest l); reflexivity. Qed.

Lemma interval_manager_keeps_forced_saves (TrainState Spec : Type) :
  keeps_forced_saves (IntervalManager.manager TrainState Spec).
Proof.
  intros m N st H. cbn [latest_step save restore IntervalManager.manager] in *.
  unfold IntervalManager.save, IntervalManager.latest_step,
    IntervalManager.restore in *.
  cbn [orb IntervalManager.checkpoints]. rewrite interval_manager_newest_cons.
  split.
  - destruct (IntervalManager.newest (IntervalManager.checkpoints m)) as [l|];
      [|reflexivity].
    simpl in H. f_equal. lia.
  - intros _ _. simpl. now rewrite Z.eqb_refl.
Qed.

Lemma interval_manager_latest_follows_saves (TrainState Spec : Type) :
  latest_follows_saves (IntervalManager.manager TrainState Spec).
Proof.
  intros m N st force H. cbn [latest_step save should_save
                               IntervalManager.manager] in *.
  unfold IntervalManager.save, IntervalManager.latest_step.
  rewrite H. cbn [IntervalManager.checkpoints].
  rewrite interval_manager_newest_cons.
  eexists; split; [reflexivity|].
  destruct (IntervalManager.newest _); lia.
Qed.

Section RoundTrips.

Context {TrainState Spec Key M : Type}.
Variable cm : CheckpointManager TrainState Spec M.
Variable rt : Runtime TrainState Spec Key M.

Local Abbreviation World := (World TrainState Spec M).

(** X7.  Sharded checkpointer, saving enabled, manager that keeps forced
    saves: after [save_final] at a step newer than every checkpoint,
    [get_model_states] returns the very state that was saved, with its
    parameter count, and does not initialize a fresh one. *)
Theorem pjit_save_final_then_get_model_states
        (pj : OrbaxPjitTrainingCheckpointer.t) (N : Z) (st : TrainState)
        (w : World) (mesh : option Spec) (md : TrainStateMetadata Spec)
        (key : Key) :
  keeps_forced_saves cm ->
  OrbaxPjitTrainingCheckpointer._enable_checkpoint_saving pj = true ->
  none_or_older (latest_step cm (mgr w)) N ->
  fst (OrbaxPjitTrainingCheckpointer.get_model_states
         cm rt pj mesh md key
         (OrbaxPjitTrainingCheckpointer.save_final cm pj N st w))
  = Ok (st, total_num_vars rt st).
Proof.
  intros Law En Old.
  rewrite (pjit_save_final_newer cm pj N st w Old).
  unfold OrbaxPjitTrainingCheckpointer._save_with_args. rewrite En. simpl negb.
  cbv iota.
  destruct (Law (mgr w) N st Old) as [L R].
  unfold OrbaxPjitTrainingCheckpointer.get_model_states.
  cbn [manager_save record mgr]. rewrite L.
  unfold OrbaxPjitTrainingCheckpointer._restore_with_args, manager_restore.
  cbn [mgr]. rewrite R. reflexivity.
Qed.

(** X8.  Replicated checkpointer without TensorStore, under the same
    conditions: [save_final] stores the first replica of the state, and
    [get_model_states] returns that replica replicated again, with the
    count of the replicated state divided by the local device count. *)
Theorem pmap_save_final_then_get_model_states
        (pm : OrbaxPmapTrainingCheckpointer.t) (N : Z) (st : TrainState)
        (w : World) (mesh : option Spec) (md : TrainStateMetadata Spec)
        (key : Key) :
  keeps_forced_saves cm ->
  OrbaxPmapTrainingCheckpointer._enable_checkpoint_saving pm = true ->
  pmap_use_tensorstore rt = false ->
  none_or_older (latest_step cm (mgr w)) N ->
  let restored := replicate_model_state rt (first_replica rt st) in
  local_device_count rt <> 0 ->
  total_num_vars rt restored mod local_device_count rt = 0 ->
  fst (OrbaxPmapTrainingCheckpointer.get_model_states
         cm rt pm mesh md key
         (OrbaxPmapTrainingCheckpointer.save_final cm rt pm N st w))
  = Ok (restored, total_num_vars rt restored / local_device_count rt).
Proof.
  intros Law En Ts Old restored D0 Dv.
  rewrite (pmap_save_final_newer cm rt pm N st w Old).
  rewrite (pmap_save_enabled cm rt pm N st true w En).
  unfold OrbaxPmapTrainingCheckpointer.marshal. rewrite Ts.
  destruct (Law (mgr w) N (first_replica rt st) Old) as [L R].
  unfold OrbaxPmapTrainingCheckpointer.get_model_states.
  rewrite Ts. cbn [manager_save record mgr]. rewrite L.
  unfold manager_restore. cbn [mgr]. rewrite R.
  cbn [fst]. fold restored.
  unfold OrbaxPmapTrainingCheckpointer.py_divides,
    OrbaxPmapTrainingCheckpointer.py_floordiv.
  apply Z.eqb_neq in D0. rewrite D0. cbn [bindR]. rewrite Dv.
  cbn [Z.eqb negb bindR]. reflexivity.
Qed.

(** X9.  [get_model_states] of either checkpointer never writes: it
    issues no save call and leaves the manager's state as it is, whether
    it restores or initializes. *)
Theorem get_model_states_writes_nothing
        (pj : OrbaxPjitTrainingCheckpointer.t)
        (pm : OrbaxPmapTrainingCheckpointer.t)
        (mesh : option Spec) (md : TrainStateMetadata Spec) (key : Key)
        (w : World) :
  writes_nothing
    w (snd (OrbaxPjitTrainingCheckpointer.get_model_states
              cm rt pj mesh md key w))
  /\ writes_nothing
       w (snd (OrbaxPmapTrainingCheckpointer.get_model_states
                 cm rt pm mesh md key w)).
Proof.
  assert (R : forall (c : MgrCall TrainState Spec) (w0 w1 : World),
             is_save c = false -> writes_nothing w0 w1 ->
             writes_nothing w0 (record c w1)).
  { intros c w0 w1 Hc [H1 H2]. split; [exact H1|].
    unfold record; cbn [calls]. rewrite filter_app. cbn [filter].
    rewrite Hc, app_nil_r. exact H2. }
  split.
  - unfold OrbaxPjitTrainingCheckpointer.get_model_states,
      OrbaxPjitTrainingCheckpointer._restore_with_args, manager_restore.
    destruct (latest_step cm (mgr w)); cbn [snd].
    + apply R; [reflexivity | apply writes_nothing_refl].
    + apply writes_nothing_refl.
  - unfold OrbaxPmapTrainingCheckpointer.get_model_states,
      OrbaxPmapTrainingCheckpointer._restore_from_tensorstore, manager_restore.
    destruct (pmap_use_tensorstore rt); cbn [snd].
    + apply R; [reflexivity|]. apply R; [reflexivity|].
      apply writes_nothing_refl.
    + destruct (latest_step cm (mgr w)); cbn [snd].
      * apply R; [reflexivity | apply writes_nothing_refl].
      * apply writes_nothing_refl.
Qed.

(** X10.  With a manager whose latest step follows its saves:
    [save_final] at a step that [save_if_needed] has just saved issues
    no second save, and [save_final] called twice does what one call
    does.  Both checkpointers. *)
Theorem save_final_never_saves_twice
        (pj : OrbaxPjitTrainingCheckpointer.t)
        (pm : OrbaxPmapTrainingCheckpointer.t)
        (N : Z) (st st' : TrainState) (w : World) :
  latest_follows_saves cm ->
  (OrbaxPjitTrainingCheckpointer._enable_checkpoint_saving pj = true ->
   should_save cm (mgr w) N = true ->
   OrbaxPjitTrainingCheckpointer.save_final
     cm pj N st' (OrbaxPjitTrainingCheckpointer.save_if_needed cm pj N st w)
   = OrbaxPjitTrainingCheckpointer.save_if_needed cm pj N st w)
  /\ (OrbaxPmapTrainingCheckpointer._enable_checkpoint_saving pm = true ->
      should_save cm (mgr w) N = true ->
      OrbaxPmapTrainingCheckpointer.save_final
        cm rt pm N st'
        (OrbaxPmapTrainingCheckpointer.save_if_needed cm rt pm N st w)
      = OrbaxPmapTrainingCheckpointer.save_if_needed cm rt pm N st w)
  /\ OrbaxPjitTrainingCheckpointer.save_final
       cm pj N st' (OrbaxPjitTrainingCheckpointer.save_final cm pj N st w)
     = OrbaxPjitTrainingCheckpointer.save_final cm pj N st w
  /\ OrbaxPmapTrainingCheckpointer.save_final
       cm rt pm N st' (OrbaxPmapTrainingCheckpointer.save_final cm rt pm N st w)
     = OrbaxPmapTrainingCheckpointer.save_final cm rt pm N st w.
Proof.
  intro Law.
  assert (After : forall s force (w0 : World),
             force || should_save cm (mgr w0) N = true ->
             ~ none_or_older (latest_step cm (mgr (manager_save cm N s force w0)))
                             N).
  { intros s force w0 H. cbn [manager_save record mgr].
    destruct (Law (mgr w0) N s force H) as (l & -> & Hl). simpl. lia. }
  split; [|split; [|split]].
  - intros En Sh.
    apply pjit_save_final_not_newer.
    unfold OrbaxPjitTrainingCheckpointer.save_if_needed,
      OrbaxPjitTrainingCheckpointer._save_with_args.
    rewrite Sh, En. cbn [negb]. cbv iota.
    unfold manager_check_for_errors.
    change (mgr (record CheckForErrors (manager_save cm N st false w)))
      with (mgr (manager_save cm N st false w)).
    apply After. now rewrite Sh.
  - intros En Sh.
    apply pmap_save_final_not_newer.
    unfold OrbaxPmapTrainingCheckpointer.save_if_needed.
    rewrite Sh. cbn [negb]. cbv iota.
    rewrite (pmap_save_enabled cm rt pm N st false w En).
    unfold manager_check_for_errors.
    change (mgr (record CheckForErrors
                        (manager_save
                           cm N (OrbaxPmapTrainingCheckpointer.marshal rt st)
                           false w)))
      with (mgr (manager_save
                   cm N (OrbaxPmapTrainingCheckpointer.marshal rt st) false w)).
    apply After. now rewrite Sh.
  - destruct (none_or_older_dec (latest_step cm (mgr w)) N) as [Y|Y].
    + rewrite (pjit_save_final_newer cm pj N st w Y).
      unfold OrbaxPjitTrainingCheckpointer._save_with_args.
      destruct (OrbaxPjitTrainingCheckpointer._enable_checkpoint_saving pj)
        eqn:En; cbn [negb]; cbv iota.
      * apply pjit_save_final_not_newer. apply After. reflexivity.
      * rewrite (pjit_save_final_newer cm pj N st' w Y).
        unfold OrbaxPjitTrainingCheckpointer._save_with_args. now rewrite En.
    + rewrite (pjit_save_final_not_newer cm pj N st w Y).
      apply pjit_save_final_not_newer; exact Y.
  - destruct (none_or_older_dec (latest_step cm (mgr w)) N) as [Y|Y].
    + rewrite (pmap_save_final_newer cm rt pm N st w Y).
      destruct (OrbaxPmapTrainingCheckpointer._enable_checkpoint_saving pm)
        eqn:En.
      * rewrite (pmap_save_enabled cm rt pm N st true w En).
        apply pmap_save_final_not_newer. apply After. reflexivity.
      * unfold OrbaxPmapTrainingCheckpointer._save. rewrite En. cbn [negb].
        cbv iota.
        rewrite (pmap_save_final_newer cm rt pm N st' w Y).
        unfold OrbaxPmapTrainingCheckpointer._save. now rewrite En.
    + rewrite (pmap_save_final_not_newer cm rt pm N st w Y).
      apply pmap_save_final_not_newer; exact Y.
Qed.

End RoundTrips.

Lemma pjit_save_final_then_get_model_states_witness :
  fst (OrbaxPjitTrainingCheckpointer.get_model_states
         Demo.manager (Demo.runtime 1 false) (Demo.pjit true) None
         Demo.metadata tt
         (OrbaxPjitTrainingCheckpointer.save_final
            Demo.manager (Demo.pjit true) 4 Demo.start Demo.world0))
  = Ok (Demo.start, 7).
Proof.
  exact (@pjit_save_final_then_get_model_states
           Demo.State unit unit Demo.Dir Demo.manager (Demo.runtime 1 false)
           (Demo.pjit true) 4 Demo.start Demo.world0 None Demo.metadata tt
           (@interval_manager_keeps_forced_saves Demo.State unit) eq_refl I).
Defined.

Lemma pmap_save_final_then_get_model_states_witness :
  fst (OrbaxPmapTrainingCheckpointer.get_model_states
         Demo.manager (Demo.runtime 2 false) (Demo.pmap true) None
         Demo.metadata tt
         (OrbaxPmapTrainingCheckpointer.save_final
            Demo.manager (Demo.runtime 2 false) (Demo.pmap true) 4
            {| Demo.at_step := 4; Demo.weights := 4; Demo.num_vars := 14 |}
            Demo.world0))
  = Ok ({| Demo.at_step := 4; Demo.weights := 4; Demo.num_vars := 14 |}, 7).
Proof.
  exact (@pmap_save_final_then_get_model_states
           Demo.State unit unit Demo.Dir Demo.manager (Demo.runtime 2 false)
           (Demo.pmap true) 4
           {| Demo.at_step := 4; Demo.weights := 4; Demo.num_vars := 14 |}
           Demo.world0 None Demo.metadata tt
           (@interval_manager_keeps_forced_saves Demo.State unit)
           eq_refl eq_refl I ltac:(discriminate) eq_refl).
Defined.

Lemma save_final_never_saves_twice_witness :
  OrbaxPjitTrainingCheckpointer.save_final
    Demo.manager (Demo.pjit true) 5 Demo.start
    (OrbaxPjitTrainingCheckpointer.save_if_needed
       Demo.manager (Demo.pjit true) 5 Demo.start Demo.world0)
  = OrbaxPjitTrainingCheckpointer.save_if_needed
      Demo.manager (Demo.pjit true) 5 Demo.start Demo.world0.
Proof.
  exact (proj1 (@save_final_never_saves_twice
                  Demo.State unit unit Demo.Dir Demo.manager
                  (Demo.runtime 1 false) (Demo.pjit true) (Demo.pmap true)
                  5 Demo.start Demo.start Demo.world0
                  (@interval_manager_latest_follows_saves Demo.State unit))
               eq_refl eq_refl).
Defined.

(** ** Accounting of the calls of a run *)

Lemma forallb_impl {A : Type} (p q : A -> bool) (l : list A) :
  (forall a, p a = true -> q a = true) ->
  forallb p l = true -> forallb q l = true.
Proof.
  intros H. induction l as [|a l IH]; [reflexivity|]. simpl.
  intro F. apply andb_true_iff in F. destruct F as [Fa Fl].
  rewrite (H a Fa), (IH Fl). reflexivity.
Qed.

Lemma interval_hit_set (interval : option Z) (step : Z) :
  interval_hit interval step = true -> interval_set interval = true.
Proof.
  destruct interval as [n|]; simpl; [|discriminate].
  intro H. apply andb_true_iff in H. exact (proj1 H).
Qed.

Section LoopAccounting.

Context {TrainState Spec M Metrics E : Type}.

Local Abbreviation LoopState := (@LoopState TrainState Spec M E).

Variable train_p : TrainHParams.
Variable co : @Collaborators TrainState Metrics E.
Variable train_program : @TrainProgram TrainState Metrics E.
Variable eval_programs : list (@EvalProgram E).
Variable decode_input_p : list BaseInput.
Variable total_num_params : Z.
Variable early_stopping_fn : option (@EarlyStoppingFn Metrics E).
Variable checkpointer : @LoopCheckpointer TrainState Spec M.
Variable exit_after_ondemand_checkpoint : bool.
Variable passes_train_to_end : bool.

Local Abbreviation body :=
  (loop_body train_p co train_program eval_programs decode_input_p
             total_num_params early_stopping_fn checkpointer
             exit_after_ondemand_checkpoint passes_train_to_end).

Local Abbreviation loop :=
  (while_true train_p co train_program eval_programs decode_input_p
              total_num_params early_stopping_fn checkpointer
              exit_after_ondemand_checkpoint passes_train_to_end).

Local Abbreviation train_step :=
  (train_phase train_p co train_program eval_programs decode_input_p
               total_num_params early_stopping_fn passes_train_to_end).

Local Abbreviation decided_world :=
  (@decided_world TrainState Spec M E checkpointer).
Local Abbreviation preempted :=
  (@preempted TrainState Spec M E checkpointer exit_after_ondemand_checkpoint).
Local Abbreviation prologue :=
  (@prologue TrainState Spec M E checkpointer exit_after_ondemand_checkpoint).
Local Abbreviation extends := (@extends TrainState Spec M E).
Local Abbreviation placed :=
  (@well_placed TrainState Metrics E train_p eval_programs decode_input_p
                early_stopping_fn exit_after_ondemand_checkpoint).

(** A call that may follow [run] and that the configuration allows. *)
Local Abbreviation fits := (fun c => after_run c && placed c).

Lemma eval_phase_fits (ls : LoopState) :
  exists evs,
    extends ls (snd (eval_phase train_p co eval_programs ls)) evs
    /\ forallb fits evs = true.
Proof.
  unfold eval_phase.
  destruct (interval_hit (eval_interval_steps train_p) (step_i ls)) eqn:H;
    [|exists []; split; [repeat split; now rewrite app_nil_r | reflexivity]].
  destruct (nonempty eval_programs) eqn:N;
    [|exists []; split; [repeat split; now rewrite app_nil_r | reflexivity]].
  destruct (run_eval_loop_over_test_splits _ _ _ _ _) as [m e]; simpl.
  eexists [_]; split; [repeat split|].
  simpl. rewrite N, H. reflexivity.
Qed.

Lemma decode_phase_fits (ls : LoopState) :
  exists evs,
    extends ls (snd (decode_phase train_p co decode_input_p ls)) evs
    /\ forallb fits evs = true.
Proof.
  unfold decode_phase.
  destruct (nonempty decode_input_p) eqn:N; simpl;
    [|exists []; split; [repeat split; now rewrite app_nil_r | reflexivity]].
  destruct (interval_hit (decode_interval_steps train_p) (step_i ls)) eqn:H;
    [|exists []; split; [repeat split; now rewrite app_nil_r | reflexivity]].
  pose proof (interval_hit_set _ _ H) as S.
  destruct (decode_use_ema_states train_p); simpl.
  - destruct (has_ema co); simpl.
    + destruct (decode_once_fn _ _ _) as [m e]; simpl.
      eexists [_]; split; [repeat split|]. simpl. rewrite N, S. reflexivity.
    + exists []; split; [repeat split; now rewrite app_nil_r | reflexivity].
  - destruct (decode_once_fn _ _ _) as [m e]; simpl.
    eexists [_]; split; [repeat split|]. simpl. rewrite N, S. reflexivity.
Qed.

Lemma early_stop_phase_fits out em dm (ls : LoopState) :
  exists evs,
    extends ls
            (step_state (early_stop_phase train_p co total_num_params
                                          early_stopping_fn passes_train_to_end
                                          out em dm ls)) evs
    /\ forallb fits evs = true
    /\ match early_stop_phase train_p co total_num_params
                              early_stopping_fn passes_train_to_end
                              out em dm ls with
       | Continue _ => True
       | Break reason _ =>
           reason = early_stop /\ early_stopping_fn <> None
           /\ exists b, evs = [CallEarlyStop (step_i ls) b true]
       | Exit _ _ | Throw _ _ => False
       end.
Proof.
  unfold early_stop_phase, well_placed.
  destruct early_stopping_fn as [fn|].
  - destruct (should_early_stop _ _ _ _ _) as [stop e].
    destruct stop; simpl; eexists [_]; (split; [repeat split|]);
      (split; [reflexivity|]).
    + split; [reflexivity|]. split; [discriminate|]. eexists; reflexivity.
    + exact I.
  - exists []; split; [repeat split; now rewrite app_nil_r|].
    split; [reflexivity | exact I].
Qed.

(** The train step and what follows it, call by call. *)
Lemma train_phase_tail (ls : LoopState) :
  exists evs,
    log (step_state (train_step ls))
    = log ls ++ CallRun (step_i ls) (partitioned_train_state ls) :: evs
    /\ forallb fits evs = true
    /\ world (step_state (train_step ls)) = world ls
    /\ match train_step ls with
       | Continue _ => True
       | Throw e _ => e = ema_error
       | Break reason _ =>
           reason = early_stop /\ early_stopping_fn <> None
           /\ exists evs' b,
               evs = evs' ++ [CallEarlyStop
                                (step_i (step_state (train_step ls))) b true]
       | Exit _ _ => False
       end.
Proof.
  unfold train_phase.
  change (env (emit _ ls)) with (env ls).
  change (step_i (emit _ ls)) with (step_i ls).
  change (partitioned_train_state (emit _ ls))
    with (partitioned_train_state ls).
  destruct (run train_program (partitioned_train_state ls) (step_i ls) (env ls))
    as [out e].
  set (ls1 := mk_loop (new_train_step (aux out)) (state out) _ e _).
  destruct (eval_phase_fits ls1) as (ev & (E1 & E2 & E3 & E4) & Ev).
  destruct (eval_phase train_p co eval_programs ls1) as [em ls2].
  simpl in E1, E2, E3, E4.
  destruct (decode_phase_fits ls2) as (dv & (D1 & D2 & D3 & D4) & Dv).
  pose proof (decode_phase_extends train_p co decode_input_p ls2) as DX.
  destruct (decode_phase train_p co decode_input_p ls2) as [[dm|err] ls3];
    simpl in D1, D2, D3, D4.
  - destruct (early_stop_phase_fits out em dm ls3)
      as (sv & (S1 & S2 & S3 & S4) & Sv & Sr).
    exists (ev ++ dv ++ sv).
    split.
    { rewrite S4, D4, E4. unfold ls1; simpl. now rewrite <- !app_assoc. }
    split; [rewrite !forallb_app, Ev, Dv, Sv; reflexivity|].
    split; [rewrite S3, D3, E3; reflexivity|].
    destruct (early_stop_phase _ _ _ _ _ _ _ _ _);
      [exact I | | contradiction | contradiction].
    destruct Sr as (-> & Hne & b & ->). cbn [step_state] in S1 |- *.
    split; [reflexivity|]. split; [exact Hne|].
    exists (ev ++ dv), b. rewrite S1. now rewrite <- app_assoc.
  - exists (ev ++ dv). simpl.
    split.
    { rewrite D4, E4. unfold ls1; simpl. now rewrite <- !app_assoc. }
    split; [rewrite !forallb_app, Ev, Dv; reflexivity|].
    split; [rewrite D3, E3; reflexivity|].
    destruct DX as (dv' & _ & _ & Dr & _). simpl in Dr. exact (proj1 Dr).
Qed.

End LoopAccounting.

(** ** The ledger of one pass and of a run *)

Section Ledger.

Context {TrainState Spec M Metrics E : Type}.

Local Abbreviation LoopState := (@LoopState TrainState Spec M E).

Variable train_p : TrainHParams.
Variable co : @Collaborators TrainState Metrics E.
Variable train_program : @TrainProgram TrainState Metrics E.
Variable eval_programs : list (@EvalProgram E).
Variable decode_input_p : list BaseInput.
Variable total_num_params : Z.
Variable early_stopping_fn : option (@EarlyStoppingFn Metrics E).
Variable checkpointer : @LoopCheckpointer TrainState Spec M.
Variable exit_after_ondemand_checkpoint : bool.
Variable passes_train_to_end : bool.

Local Abbreviation body :=
  (loop_body train_p co train_program eval_programs decode_input_p
             total_num_params early_stopping_fn checkpointer
             exit_after_ondemand_checkpoint passes_train_to_end).

Local Abbreviation loop :=
  (while_true train_p co train_program eval_programs decode_input_p
              total_num_params early_stopping_fn checkpointer
              exit_after_ondemand_checkpoint passes_train_to_end).

Local Abbreviation train_step :=
  (train_phase train_p co train_program eval_programs decode_input_p
               total_num_params early_stopping_fn passes_train_to_end).

Local Abbreviation decided_world :=
  (@decided_world TrainState Spec M E checkpointer).
Local Abbreviation preempted :=
  (@preempted TrainState Spec M E checkpointer exit_after_ondemand_checkpoint).
Local Abbreviation prologue :=
  (@prologue TrainState Spec M E checkpointer exit_after_ondemand_checkpoint).
Local Abbreviation placed :=
  (@well_placed TrainState Metrics E train_p eval_programs decode_input_p
                early_stopping_fn exit_after_ondemand_checkpoint).

(** The counts a ledger keeps: [save_if_needed], [should_run], [run],
    [save_final] and [wait_until_finished] calls. *)
Local Abbreviation tally :=
  (fun (l : list (@Call TrainState)) (a b c d e : nat) =>
     count is_save_if_needed l = a /\ count is_should_run l = b
     /\ count is_run l = c /\ count is_save_final l = d
     /\ count is_wait l = e).

Lemma tally_app (l m : list (@Call TrainState)) (a b c d e a' b' c' d' e' : nat) :
  tally l a b c d e -> tally m a' b' c' d' e' ->
  tally (l ++ m) (a + a')%nat (b + b')%nat (c + c')%nat (d + d')%nat
        (e + e')%nat.
Proof.
  cbv beta. intros (A & B & C & D & F) (A' & B' & C' & D' & F').
  rewrite !count_app. repeat split; congruence.
Qed.

Lemma tally_after_run (evs : list (@Call TrainState)) :
  forallb (fun c => after_run c && placed c) evs = true ->
  tally evs 0%nat 0%nat 0%nat 0%nat 0%nat /\ forallb placed evs = true.
Proof.
  intro F. split.
  - cbv beta.
    rewrite (@count_quiet TrainState is_save_if_needed _ evs F),
      (@count_quiet TrainState is_should_run _ evs F),
      (@count_quiet TrainState is_run _ evs F),
      (@count_quiet TrainState is_save_final _ evs F),
      (@count_quiet TrainState is_wait _ evs F);
      [repeat split | | | | |];
      intros [] H; simpl in H; try discriminate; reflexivity.
  - apply (forallb_impl (fun c => after_run c && placed c) placed); [|exact F].
    intros c H. apply andb_true_iff in H. exact (proj2 H).
Qed.

Lemma prologue_tally (ls : LoopState) :
  tally (prologue ls) 1%nat 0%nat 0%nat 0%nat 0%nat
  /\ forallb placed (prologue ls) = true.
Proof.
  unfold prologue, well_placed.
  destruct exit_after_ondemand_checkpoint; repeat split.
Qed.

(** One pass through the body: what it adds to the log, by the way it
    ends. *)
Lemma body_ledger (ls : LoopState) :
  exists evs,
    log (step_state (body ls)) = log ls ++ evs
    /\ forallb placed evs = true
    /\ match body ls with
       | Continue ls' =>
           tally evs 1%nat 1%nat 1%nat 0%nat 0%nat
           /\ world ls' = decided_world ls
       | Break completed ls' =>
           tally evs 1%nat 1%nat 0%nat 0%nat 0%nat
           /\ world ls' = decided_world ls
           /\ step_i ls' = step_i ls
           /\ partitioned_train_state ls' = partitioned_train_state ls
           /\ exists evs',
               evs = evs' ++ [CallShouldRun (step_i ls)
                                            (partitioned_train_state ls) false]
       | Break early_stop ls' =>
           tally evs 1%nat 1%nat 1%nat 0%nat 0%nat
           /\ world ls' = decided_world ls
           /\ early_stopping_fn <> None
           /\ exists evs' b, evs = evs' ++ [CallEarlyStop (step_i ls') b true]
       | Exit code ls' =>
           tally evs 1%nat 0%nat 0%nat 0%nat 1%nat
           /\ world ls' = ck_wait_until_finished checkpointer (decided_world ls)
           /\ code = 1
           /\ exit_after_ondemand_checkpoint = true
           /\ step_i ls' = step_i ls
           /\ exists evs',
               evs = evs' ++ [CallReachedPreemption (step_i ls) true;
                              CallWaitUntilFinished]
       | Throw e ls' =>
           tally evs 1%nat 1%nat 1%nat 0%nat 0%nat
           /\ world ls' = decided_world ls
           /\ e = ema_error
       end.
Proof.
  destruct (prologue_tally ls) as [PT PP].
  destruct (preempted ls) eqn:P.
  { rewrite (@loop_body_preempted
               TrainState Spec M Metrics E train_p co train_program
               eval_programs decode_input_p total_num_params early_stopping_fn
               checkpointer exit_after_ondemand_checkpoint passes_train_to_end
               ls P).
    cbn [step_state log world].
    eexists; split; [reflexivity|].
    split; [rewrite forallb_app, PP; reflexivity|].
    split; [exact (@tally_app (prologue ls) [CallWaitUntilFinished]
                              1 0 0 0 0 0 0 0 0 1 PT ltac:(repeat split))|].
    split; [reflexivity|]. split; [reflexivity|].
    unfold preempted in P. apply andb_true_iff in P.
    destruct P as [F R]. split; [exact F|]. split; [reflexivity|].
    unfold prologue. rewrite F, R.
    eexists [_]. reflexivity. }
  destruct (should_run train_program (partitioned_train_state ls) (step_i ls))
    eqn:R.
  2:{ rewrite (@loop_body_completed
                 TrainState Spec M Metrics E train_p co train_program
                 eval_programs decode_input_p total_num_params
                 early_stopping_fn checkpointer exit_after_ondemand_checkpoint
                 passes_train_to_end ls P R).
      cbn [step_state log world step_i partitioned_train_state].
      eexists; split; [reflexivity|].
      split; [rewrite forallb_app, PP; reflexivity|].
      split; [exact (@tally_app
                       (prologue ls)
                       [CallShouldRun (step_i ls) (partitioned_train_state ls)
                                      false]
                       1 0 0 0 0 0 1 0 0 0 PT ltac:(repeat split))|].
      split; [reflexivity|]. split; [reflexivity|]. split; [reflexivity|].
      eexists; reflexivity. }
  rewrite (@loop_body_trains
             TrainState Spec M Metrics E train_p co train_program
             eval_programs decode_input_p total_num_params early_stopping_fn
             checkpointer exit_after_ondemand_checkpoint passes_train_to_end
             ls P R).
  set (ls0 := mk_loop _ _ _ _ _).
  destruct (@train_phase_tail
              TrainState Spec M Metrics E train_p co train_program
              eval_programs decode_input_p total_num_params early_stopping_fn
              exit_after_ondemand_checkpoint passes_train_to_end ls0)
    as (evs & L & F & W & C).
  destruct (tally_after_run evs F) as [T Pl].
  exists (prologue ls
          ++ [CallShouldRun (step_i ls) (partitioned_train_state ls) true]
          ++ CallRun (step_i ls) (partitioned_train_state ls) :: evs).
  split.
  { rewrite L. unfold ls0; cbn [log step_i partitioned_train_state].
    now rewrite <- !app_assoc. }
  split.
  { rewrite !forallb_app, PP. cbn [forallb]. rewrite Pl. reflexivity. }
  assert (TT : tally (prologue ls
                      ++ [CallShouldRun (step_i ls)
                                        (partitioned_train_state ls) true]
                      ++ CallRun (step_i ls) (partitioned_train_state ls) :: evs)
                     1%nat 1%nat 1%nat 0%nat 0%nat).
  { exact (@tally_app
             (prologue ls) _ 1 0 0 0 0 0 1 1 0 0 PT
             (@tally_app
                [CallShouldRun (step_i ls) (partitioned_train_state ls) true]
                (CallRun (step_i ls) (partitioned_train_state ls) :: evs)
                0 1 0 0 0 0 0 1 0 0 ltac:(repeat split)
                (@tally_app [CallRun (step_i ls) (partitioned_train_state ls)]
                            evs 0 0 1 0 0 0 0 0 0 0 ltac:(repeat split) T))). }
  change (world ls0) with (decided_world ls) in W.
  destruct (train_phase _ _ _ _ _ _ _ _ ls0) as [ls'|r ls'|c ls'|e ls'];
    cbn [step_state] in W.
  - split; assumption.
  - cbn [step_state] in C. destruct C as (-> & Hne & evs' & b & ->).
    split; [exact TT|]. split; [exact W|]. split; [exact Hne|].
    exists (prologue ls
            ++ [CallShouldRun (step_i ls) (partitioned_train_state ls) true]
            ++ CallRun (step_i ls) (partitioned_train_state ls) :: evs'), b.
    now rewrite <- !app_assoc.
  - contradiction.
  - split; [exact TT|]. split; [exact W | exact C].
Qed.

Ltac tally_done :=
  cbv beta in *; unfold count in *;
  rewrite ?filter_app, ?length_app in *; simpl in *; repeat split; lia.

(** A whole run: what it adds to the log, by the way it ends. *)
Lemma loop_ledger (fuel : nat) :
  forall ls : LoopState,
    exists evs,
      log (final_state (loop fuel ls)) = log ls ++ evs
      /\ forallb placed evs = true
      /\ match loop fuel ls with
         | Returned completed ls' =>
             tally evs (S (count is_run evs)) (S (count is_run evs))
                   (count is_run evs) 1%nat 1%nat
             /\ exists evs',
                 evs = evs'
                       ++ [CallShouldRun (step_i ls')
                                         (partitioned_train_state ls') false;
                           CallSaveFinal (step_i ls')
                                         (partitioned_train_state ls');
                           CallWaitUntilFinished]
         | Returned early_stop ls' =>
             tally evs (count is_run evs) (count is_run evs)
                   (count is_run evs) 1%nat 1%nat
             /\ early_stopping_fn <> None
             /\ exists evs' b,
                 evs = evs'
                       ++ [CallEarlyStop (step_i ls') b true;
                           CallSaveFinal (step_i ls')
                                         (partitioned_train_state ls');
                           CallWaitUntilFinished]
         | Exited code ls' =>
             tally evs (S (count is_run evs)) (count is_run evs)
                   (count is_run evs) 0%nat 1%nat
             /\ code = 1
             /\ exit_after_ondemand_checkpoint = true
             /\ exists evs',
                 evs = evs'
                       ++ [CallReachedPreemption (step_i ls') true;
                           CallWaitUntilFinished]
         | Raised e ls' =>
             tally evs (count is_run evs) (count is_run evs)
                   (count is_run evs) 0%nat 0%nat
             /\ e = ema_error
         | Diverged ls' =>
             tally evs (count is_run evs) (count is_run evs)
                   (count is_run evs) 0%nat 0%nat
         end.
Proof.
  induction fuel as [|fuel IH]; intro ls; cbn [while_true].
  - exists []. cbn [final_state]. split; [now rewrite app_nil_r|].
    split; [reflexivity|]. repeat split.
  - destruct (body_ledger ls) as (evs & L & Pl & C).
    destruct (body ls) as [ls1|r ls1|c ls1|e ls1]; cbn [step_state] in L.
    + destruct C as [T _].
      destruct (IH ls1) as (evs1 & L1 & Pl1 & C1).
      exists (evs ++ evs1).
      split; [rewrite L1, L; now rewrite app_assoc|].
      split; [rewrite forallb_app, Pl, Pl1; reflexivity|].
      destruct (loop fuel ls1) as [[|] ls'|c ls'|e ls'|ls'].
      * destruct C1 as (T1 & evs' & ->).
        split; [tally_done|].
        exists (evs ++ evs'). now rewrite <- app_assoc.
      * destruct C1 as (T1 & Hne & evs' & b & ->).
        split; [tally_done|]. split; [exact Hne|].
        exists (evs ++ evs'), b. now rewrite <- app_assoc.
      * destruct C1 as (T1 & -> & F & evs' & ->).
        split; [tally_done|]. split; [reflexivity|]. split; [exact F|].
        exists (evs ++ evs'). now rewrite <- app_assoc.
      * destruct C1 as (T1 & ->). split; [tally_done | reflexivity].
      * tally_done.
    + cbn [final_state].
      rewrite (@finish_spec TrainState Spec M E checkpointer ls1).
      cbn [log step_i partitioned_train_state].
      exists (evs ++ [CallSaveFinal (step_i ls1) (partitioned_train_state ls1);
                      CallWaitUntilFinished]).
      split; [rewrite L; now rewrite <- app_assoc|].
      split; [rewrite forallb_app, Pl; reflexivity|].
      destruct r.
      * destruct C as (T & _ & S1 & S2 & evs' & ->).
        split; [tally_done|].
        exists evs'. rewrite S1, S2. now rewrite <- app_assoc.
      * destruct C as (T & _ & Hne & evs' & b & ->).
        split; [tally_done|]. split; [exact Hne|].
        exists evs', b. now rewrite <- app_assoc.
    + cbn [final_state]. exists evs.
      destruct C as (T & _ & -> & F & S1 & evs' & ->).
      split; [exact L|]. split; [exact Pl|].
      split; [tally_done|]. split; [reflexivity|]. split; [exact F|].
      exists evs'. rewrite S1. reflexivity.
    + cbn [final_state]. exists evs.
      destruct C as (T & _ & ->).
      split; [exact L|]. split; [exact Pl|].
      split; [tally_done | reflexivity].
Qed.

(** X11.  How a run of the loop ends shows in the last calls of its log.
    A run that returns has called [save_final] and [wait_until_finished]
    once each, as its last two calls, for the step and state it returns
    with; the call before them is [should_run] answering false when the
    reason is [completed], and the early-stopping policy answering true
    when the reason is [early_stop], which needs a policy.  A run that
    exits does so with status 1, under [exit_after_ondemand_checkpoint],
    right after the preemption query answered true and one
    [wait_until_finished], and never calls [save_final].  A run that
    raises raises the EMA error and calls neither [save_final] nor
    [wait_until_finished]; nor does a run still under way. *)
Theorem run_ends_by_outcome (fuel : nat) (ls : LoopState) :
  exists evs,
    log (final_state (loop fuel ls)) = log ls ++ evs
    /\ match loop fuel ls with
       | Returned reason ls' =>
           count is_save_final evs = 1%nat
           /\ count is_wait evs = 1%nat
           /\ (reason = early_stop -> early_stopping_fn <> None)
           /\ exists evs' b,
               evs = evs'
                     ++ [match reason with
                         | completed =>
                             CallShouldRun (step_i ls')
                                           (partitioned_train_state ls') false
                         | early_stop => CallEarlyStop (step_i ls') b true
                         end;
                         CallSaveFinal (step_i ls')
                                       (partitioned_train_state ls');
                         CallWaitUntilFinished]
       | Exited code ls' =>
           code = 1
           /\ exit_after_ondemand_checkpoint = true
           /\ count is_save_final evs = 0%nat
           /\ count is_wait evs = 1%nat
           /\ exists evs',
               evs = evs'
                     ++ [CallReachedPreemption (step_i ls') true;
                         CallWaitUntilFinished]
       | Raised e ls' =>
           e = ema_error
           /\ count is_save_final evs = 0%nat
           /\ count is_wait evs = 0%nat
       | Diverged ls' =>
           count is_save_final evs = 0%nat /\ count is_wait evs = 0%nat
       end.
Proof.
  destruct (loop_ledger fuel ls) as (evs & L & _ & C).
  exists evs. split; [exact L|].
  destruct (loop fuel ls) as [[|] ls'|c ls'|e ls'|ls'].
  - destruct C as ((_ & _ & _ & F & W) & evs' & Ev).
    split; [exact F|]. split; [exact W|]. split; [discriminate|].
    exists evs', true. exact Ev.
  - destruct C as ((_ & _ & _ & F & W) & Hne & evs' & b & Ev).
    split; [exact F|]. split; [exact W|]. split; [intros _; exact Hne|].
    exists evs', b. exact Ev.
  - destruct C as ((_ & _ & _ & F & W) & Hc & Hx & Ev).
    repeat (split; [assumption|]). exact Ev.
  - destruct C as ((_ & _ & _ & F & W) & He).
    repeat (split; [assumption|]). exact W.
  - destruct C as (_ & _ & _ & F & W). split; assumption.
Qed.

(** X12.  The loop asks the checkpointer once per pass, before anything
    else: a run has made as many [save_if_needed] calls as train steps,
    and one more when it returned with reason [completed] or left through
    the preemption exit, the two ways a pass ends without a train step.
    [should_run] is asked once before every train step, and once more by
    the pass that finds nothing left to run. *)
Theorem save_decisions_match_train_steps (fuel : nat) (ls : LoopState) :
  exists evs,
    log (final_state (loop fuel ls)) = log ls ++ evs
    /\ count is_save_if_needed evs
       = (count is_run evs + passes_without_run (loop fuel ls))%nat
    /\ count is_should_run evs
       = match loop fuel ls with
         | Returned completed _ => S (count is_run evs)
         | _ => count is_run evs
         end.
Proof.
  destruct (loop_ledger fuel ls) as (evs & L & _ & C).
  exists evs. split; [exact L|].
  destruct (loop fuel ls) as [[|] ls'|c ls'|e ls'|ls'];
    cbn [passes_without_run];
    [destruct C as ((A & B & _) & _) | destruct C as ((A & B & _) & _)
     | destruct C as ((A & B & _) & _) | destruct C as ((A & B & _) & _)
     | destruct C as (A & B & _)];
    split; lia.
Qed.

(** X13.  Every call a run of the loop adds to the log is one the
    configuration allows: eval calls only with eval programs and at a
    step the eval interval hits, decode calls only with decode inputs
    and a decode interval that is set and not zero, calls of the
    early-stopping policy only when one is configured, the preemption
    query only under [exit_after_ondemand_checkpoint], and no set-up
    call. *)
Theorem loop_calls_are_well_placed (fuel : nat) (ls : LoopState) :
  exists evs,
    log (final_state (loop fuel ls)) = log ls ++ evs
    /\ forallb placed evs = true.
Proof.
  destruct (loop_ledger fuel ls) as (evs & L & Pl & _).
  exists evs. split; assumption.
Qed.

End Ledger.

(** ** The checkpointer's world over a run *)

Section WorldOfARun.

Context {TrainState Spec M Metrics E : Type}.

Local Abbreviation LoopState := (@LoopState TrainState Spec M E).
Local Abbreviation World := (World TrainState Spec M).

Variable train_p : TrainHParams.
Variable co : @Collaborators TrainState Metrics E.
Variable train_program : @TrainProgram TrainState Metrics E.
Variable eval_programs : list (@EvalProgram E).
Variable decode_input_p : list BaseInput.
Variable total_num_params : Z.
Variable early_stopping_fn : option (@EarlyStoppingFn Metrics E).
Variable checkpointer : @LoopCheckpointer TrainState Spec M.
Variable exit_after_ondemand_checkpoint : bool.
Variable passes_train_to_end : bool.

Local Abbreviation body :=
  (loop_body train_p co train_program eval_programs decode_input_p
             total_num_params early_stopping_fn checkpointer
             exit_after_ondemand_checkpoint passes_train_to_end).

Local Abbreviation loop :=
  (while_true train_p co train_program eval_programs decode_input_p
              total_num_params early_stopping_fn checkpointer
              exit_after_ondemand_checkpoint passes_train_to_end).

(** Something [save_if_needed] keeps true of the world. *)
Variable Inv : World -> Prop.
Hypothesis save_if_needed_keeps :
  forall n s w, Inv w -> Inv (ck_save_if_needed checkpointer n s w).

(** The loop hands the world to the checkpointer only: it reaches the
    end of a run through [save_if_needed] calls, followed on return by
    one [save_final] and one [wait_until_finished], and on exit by one
    [wait_until_finished]. *)
Lemma loop_world (fuel : nat) :
  forall ls : LoopState,
    Inv (world ls) ->
    match loop fuel ls with
    | Returned _ ls' =>
        exists w1,
          Inv w1
          /\ world ls'
             = ck_wait_until_finished
                 checkpointer
                 (ck_save_final checkpointer (step_i ls')
                                (partitioned_train_state ls') w1)
    | Exited _ ls' =>
        exit_after_ondemand_checkpoint = true
        /\ exists w1,
            Inv w1 /\ world ls' = ck_wait_until_finished checkpointer w1
    | Raised _ ls' | Diverged ls' => Inv (world ls')
    end.
Proof.
  induction fuel as [|fuel IH]; intros ls H; cbn [while_true]; [exact H|].
  pose proof (save_if_needed_keeps (step_i ls) (partitioned_train_state ls) H)
    as D.
  destruct (@body_ledger
              TrainState Spec M Metrics E train_p co train_program
              eval_programs decode_input_p total_num_params early_stopping_fn
              checkpointer exit_after_ondemand_checkpoint passes_train_to_end
              ls) as (evs & _ & _ & C).
  destruct (body ls) as [ls1|r ls1|c ls1|e ls1].
  - destruct C as [_ W]. apply IH. rewrite W. exact D.
  - rewrite (@finish_spec TrainState Spec M E checkpointer ls1).
    cbn [world step_i partitioned_train_state].
    exists (world ls1). split; [|reflexivity].
    destruct r; destruct C as (_ & W & _); rewrite W; exact D.
  - destruct C as (_ & W & _ & F & _). split; [exact F|].
    eexists; split; [exact D | exact W].
  - destruct C as (_ & W & _). rewrite W. exact D.
Qed.

End WorldOfARun.

(** ** Whole runs of [train.py] with its two checkpointers *)

Section RunsWithCheckpointers.

Context {TrainState Spec Key M Metrics E : Type}.
Variable cm : CheckpointManager TrainState Spec M.
Variable rt : Runtime TrainState Spec Key M.

Local Abbreviation World := (World TrainState Spec M).
Local Abbreviation sharded :=
  (@OrbaxPjitTrainingCheckpointer.as_checkpointer TrainState Spec Key M cm rt).
Local Abbreviation replicated :=
  (@OrbaxPmapTrainingCheckpointer.as_checkpointer TrainState Spec Key M cm rt).

Lemma saves_of_record (c : MgrCall TrainState Spec) (w : World) :
  is_save c = false -> saves_of (record c w) = saves_of w.
Proof.
  intro H. unfold saves_of, record; cbn [calls].
  rewrite filter_app. cbn [filter]. rewrite H. apply app_nil_r.
Qed.

Lemma wait_until_finished_saves_nothing (w : World) :
  saves_of (manager_wait_until_finished cm w) = saves_of w
  /\ mgr (manager_wait_until_finished cm w) = drain cm (mgr w).
Proof.
  unfold manager_wait_until_finished. split; [|reflexivity].
  now rewrite saves_of_record.
Qed.

(** With saving disabled, the save methods of a checkpointer leave the
    manager's state and the save calls as they are. *)
Lemma disabled_methods_save_nothing
      (ck : TrainingCheckpointer TrainState Spec Key M)
      (pj : OrbaxPjitTrainingCheckpointer.t)
      (pm : OrbaxPmapTrainingCheckpointer.t) :
  (ck = sharded pj
   /\ OrbaxPjitTrainingCheckpointer._enable_checkpoint_saving pj = false)
  \/ (ck = replicated pm
      /\ OrbaxPmapTrainingCheckpointer._enable_checkpoint_saving pm = false) ->
  (forall n s (w : World),
      mgr (save_if_needed ck n s w) = mgr w
      /\ saves_of (save_if_needed ck n s w) = saves_of w)
  /\ (forall n s (w : World), save_final ck n s w = w)
  /\ (forall w : World,
         wait_until_finished ck w = manager_wait_until_finished cm w).
Proof.
  intros [[-> En]|[-> En]]; cbn [save_if_needed save_final wait_until_finished
                                  OrbaxPjitTrainingCheckpointer.as_checkpointer
                                  OrbaxPmapTrainingCheckpointer.as_checkpointer].
  - split; [|split]; [intros n s w | intros n s w | reflexivity].
    + unfold OrbaxPjitTrainingCheckpointer.save_if_needed,
        OrbaxPjitTrainingCheckpointer._save_with_args.
      rewrite En; cbn [negb].
      destruct (should_save cm (mgr w) n); cbn [negb]; [|split; reflexivity].
      unfold manager_check_for_errors. split; [reflexivity|].
      now rewrite saves_of_record.
    + unfold OrbaxPjitTrainingCheckpointer.save_final,
        OrbaxPjitTrainingCheckpointer._save_with_args.
      rewrite En; cbn [negb].
      destruct (latest_step cm (mgr w)) as [l|]; [destruct (l <? n)|];
        reflexivity.
  - split; [|split]; [intros n s w | intros n s w | reflexivity].
    + unfold OrbaxPmapTrainingCheckpointer.save_if_needed,
        OrbaxPmapTrainingCheckpointer._save.
      rewrite En; cbn [negb].
      destruct (should_save cm (mgr w) n); cbn [negb]; [|split; reflexivity].
      unfold manager_check_for_errors. split; [reflexivity|].
      now rewrite saves_of_record.
    + unfold OrbaxPmapTrainingCheckpointer.save_final,
        OrbaxPmapTrainingCheckpointer._save.
      rewrite En; cbn [negb].
      destruct (latest_step cm (mgr w)) as [l|]; [destruct (l <? n)|];
        reflexivity.
Qed.

(** With saving enabled and a manager whose latest step follows its
    saves, [save_final] at a step leaves a checkpoint at that step or a
    later one. *)
Lemma enabled_save_final_covers
      (ck : TrainingCheckpointer TrainState Spec Key M)
      (pj : OrbaxPjitTrainingCheckpointer.t)
      (pm : OrbaxPmapTrainingCheckpointer.t) :
  latest_follows_saves cm ->
  (ck = sharded pj
   /\ OrbaxPjitTrainingCheckpointer._enable_checkpoint_saving pj = true)
  \/ (ck = replicated pm
      /\ OrbaxPmapTrainingCheckpointer._enable_checkpoint_saving pm = true) ->
  (forall n s (w : World),
      exists l, latest_step cm (mgr (save_final ck n s w)) = Some l /\ n <= l)
  /\ (forall w : World,
         wait_until_finished ck w = manager_wait_until_finished cm w).
Proof.
  intros Law [[-> En]|[-> En]];
    cbn [save_final wait_until_finished
         OrbaxPjitTrainingCheckpointer.as_checkpointer
         OrbaxPmapTrainingCheckpointer.as_checkpointer];
    (split; [intros n s w | reflexivity]);
    destruct (none_or_older_dec (latest_step cm (mgr w)) n) as [Y|Y].
  - rewrite (pjit_save_final_newer cm pj n s w Y).
    unfold OrbaxPjitTrainingCheckpointer._save_with_args.
    rewrite En; cbn [negb]. cbn [manager_save record mgr].
    apply Law. reflexivity.
  - rewrite (pjit_save_final_not_newer cm pj n s w Y).
    destruct (latest_step cm (mgr w)) as [l|]; simpl in Y; [|tauto].
    exists l. split; [reflexivity | lia].
  - rewrite (pmap_save_final_newer cm rt pm n s w Y).
    rewrite (pmap_save_enabled cm rt pm n s true w En).
    cbn [manager_save record mgr]. apply Law. reflexivity.
  - rewrite (pmap_save_final_not_newer cm rt pm n s w Y).
    destruct (latest_step cm (mgr w)) as [l|]; simpl in Y; [|tauto].
    exists l. split; [reflexivity | lia].
Qed.

Variable train_p : TrainHParams.
Variable co : @Collaborators TrainState Metrics E.
Variable train_program : @TrainProgram TrainState Metrics E.
Variable test_eval_programs : list (@EvalProgram E).
Variable decode_input_p : list BaseInput.
Variable total_num_params : Z.
Variable early_stopping_fn : option (@EarlyStoppingFn Metrics E).
Variable partition_decode_once_fns : list BaseInput -> Result unit.

Local Abbreviation run_with :=
  (fun (fuel : nat) (ck : TrainingCheckpointer TrainState Spec Key M)
       (st : TrainState) (w : World) (e : E) =>
     Train._train_and_evaluate_common
       fuel train_p co train_program st test_eval_programs decode_input_p
       total_num_params early_stopping_fn ck partition_decode_once_fns w e).

(** X14.  With [enable_checkpoint_saving] false, a whole run of the loop
    of [train.py], with either checkpointer and however it ends, issues
    no save call to the manager; the manager's state at the end is the
    one the run began with, drained once when the run returns. *)
Theorem disabled_saving_run_saves_nothing
        (ck : TrainingCheckpointer TrainState Spec Key M)
        (pj : OrbaxPjitTrainingCheckpointer.t)
        (pm : OrbaxPmapTrainingCheckpointer.t)
        (fuel : nat) (st : TrainState) (w : World) (e : E) :
  (ck = sharded pj
   /\ OrbaxPjitTrainingCheckpointer._enable_checkpoint_saving pj = false)
  \/ (ck = replicated pm
      /\ OrbaxPmapTrainingCheckpointer._enable_checkpoint_saving pm = false) ->
  saves_of (world (final_state (run_with fuel ck st w e))) = saves_of w
  /\ mgr (world (final_state (run_with fuel ck st w e)))
     = match run_with fuel ck st w e with
       | Returned _ _ => drain cm (mgr w)
       | _ => mgr w
       end.
Proof.
  intro Off.
  destruct (disabled_methods_save_nothing Off) as (Sin & Sf & Wt).
  cbv beta. unfold Train._train_and_evaluate_common.
  destruct (if nonempty decode_input_p
            then partition_decode_once_fns decode_input_p
            else Ok tt); [|split; reflexivity].
  set (ls := emit _ _).
  pose proof (@loop_world
                TrainState Spec M Metrics E train_p co train_program
                test_eval_programs decode_input_p total_num_params
                early_stopping_fn (Train.loop_checkpointer ck) false false
                (fun w' : World => mgr w' = mgr w /\ saves_of w' = saves_of w)
                ltac:(cbn [ck_save_if_needed Train.loop_checkpointer];
                      intros n s w' [H1 H2];
                      destruct (Sin n s w') as [G1 G2];
                      split; congruence)
                fuel ls (conj eq_refl eq_refl)) as H.
  destruct (while_true _ _ _ _ _ _ _ _ _ _ _ _) as [r ls'|c ls'|err ls'|ls'];
    cbn [final_state].
  - destruct H as (w1 & [H1 H2] & ->).
    cbn [ck_wait_until_finished ck_save_final Train.loop_checkpointer].
    rewrite Sf, Wt.
    destruct (wait_until_finished_saves_nothing w1) as [G1 G2].
    split; congruence.
  - destruct H as [H _]. discriminate H.
  - destruct H as [H1 H2]. split; assumption.
  - destruct H as [H1 H2]. split; assumption.
Qed.

(** X15.  With saving enabled, a manager whose latest step follows its
    saves and whose latest step survives waiting: a run of the loop of
    [train.py] that returns, with either checkpointer and for either
    reason, leaves a checkpoint at the step it returns with, or at a
    later one. *)
Theorem returned_run_leaves_final_checkpoint
        (ck : TrainingCheckpointer TrainState Spec Key M)
        (pj : OrbaxPjitTrainingCheckpointer.t)
        (pm : OrbaxPmapTrainingCheckpointer.t)
        (fuel : nat) (st : TrainState) (w : World) (e : E)
        (reason : StopReason) (ls' : @LoopState TrainState Spec M E) :
  latest_follows_saves cm ->
  drain_keeps_latest cm ->
  (ck = sharded pj
   /\ OrbaxPjitTrainingCheckpointer._enable_checkpoint_saving pj = true)
  \/ (ck = replicated pm
      /\ OrbaxPmapTrainingCheckpointer._enable_checkpoint_saving pm = true) ->
  run_with fuel ck st w e = Returned reason ls' ->
  exists l, latest_step cm (mgr (world ls')) = Some l /\ step_i ls' <= l.
Proof.
  intros Law Dr On.
  destruct (enabled_save_final_covers Law On) as (Sf & Wt).
  cbv beta. unfold Train._train_and_evaluate_common.
  destruct (if nonempty decode_input_p
            then partition_decode_once_fns decode_input_p
            else Ok tt); [|discriminate].
  set (ls := emit _ _).
  pose proof (@loop_world
                TrainState Spec M Metrics E train_p co train_program
                test_eval_programs decode_input_p total_num_params
                early_stopping_fn (Train.loop_checkpointer ck) false false
                (fun _ : World => True) ltac:(intros; exact I)
                fuel ls I) as H.
  intro R. rewrite R in H. destruct H as (w1 & _ & ->).
  cbn [ck_wait_until_finished ck_save_final Train.loop_checkpointer].
  rewrite Wt. cbn [manager_wait_until_finished record mgr]. rewrite Dr.
  apply Sf.
Qed.

End RunsWithCheckpointers.

Lemma interval_manager_drain_keeps_latest (TrainState Spec : Type) :
  drain_keeps_latest (IntervalManager.manager TrainState Spec).
Proof. intro m. reflexivity. Qed.

Lemma disabled_saving_run_saves_nothing_witness :
  saves_of
    (world
       (final_state
          (Train._train_and_evaluate_common
             10 (Demo.hparams 3 None false) (Demo.collaborators false)
             (Demo.program 3) Demo.start [] [] 7 None
             (Demo.pjit_checkpointer false) check_unique_names
             Demo.world0 0%nat)))
  = saves_of Demo.world0
  /\ mgr
       (world
          (final_state
             (Train._train_and_evaluate_common
                10 (Demo.hparams 3 None false) (Demo.collaborators false)
                (Demo.program 3) Demo.start [] [] 7 None
                (Demo.pjit_checkpointer false) check_unique_names
                Demo.world0 0%nat)))
     = match
         Train._train_and_evaluate_common
           10 (Demo.hparams 3 None false) (Demo.collaborators false)
           (Demo.program 3) Demo.start [] [] 7 None
           (Demo.pjit_checkpointer false) check_unique_names
           Demo.world0 0%nat
       with
       | Returned _ _ => drain Demo.manager (mgr Demo.world0)
       | _ => mgr Demo.world0
       end.
Proof.
  exact (@disabled_saving_run_saves_nothing
           Demo.State unit unit Demo.Dir unit nat Demo.manager
           (Demo.runtime 1 false) (Demo.hparams 3 None false)
           (Demo.collaborators false) (Demo.program 3) [] [] 7 None
           check_unique_names (Demo.pjit_checkpointer false)
           (Demo.pjit false) (Demo.pmap false) 10%nat Demo.start Demo.world0
           0%nat (or_introl (conj eq_refl eq_refl))).
Defined.

Lemma returned_run_leaves_final_checkpoint_witness :
  exists l,
    latest_step
      Demo.manager
      (mgr (world
              (final_state
                 (Train._train_and_evaluate_common
                    10 (Demo.hparams 3 None false) (Demo.collaborators false)
                    (Demo.program 3) Demo.start [] [] 7 None
                    (Demo.pjit_checkpointer true) check_unique_names
                    Demo.world0 0%nat)))) = Some l
    /\ 3 <= l.
Proof.
  exact (@returned_run_leaves_final_checkpoint
           Demo.State unit unit Demo.Dir unit nat Demo.manager
           (Demo.runtime 1 false) (Demo.hparams 3 None false)
           (Demo.collaborators false) (Demo.program 3) [] [] 7 None
           check_unique_names (Demo.pjit_checkpointer true)
           (Demo.pjit true) (Demo.pmap true) 10%nat Demo.start Demo.world0
           0%nat completed
           (final_state
              (Train._train_and_evaluate_common
                 10 (Demo.hparams 3 None false) (Demo.collaborators false)
                 (Demo.program 3) Demo.start [] [] 7 None
                 (Demo.pjit_checkpointer true) check_unique_names
                 Demo.world0 0%nat))
           (@interval_manager_latest_follows_saves Demo.State unit)
           (@interval_manager_drain_keeps_latest Demo.State unit)
           (or_introl (conj eq_refl eq_refl))
           ltac:(vm_compute; reflexivity)).
Defined.

(** ** How [executors.py] starts a run *)

Section ExecutorsStart.

Context {TrainState Spec M Metrics E : Type}.

Local Abbreviation LoopState := (@LoopState TrainState Spec M E).

Lemma setup_eval_programs_log (programs : list (@EvalProgram E)) :
  forall ls : LoopState,
    log (Executors.setup_eval_programs programs ls)
    = log ls ++ map (fun p => CallEvalSetup (eval_input p)) programs
    /\ step_i (Executors.setup_eval_programs programs ls) = step_i ls
    /\ partitioned_train_state (Executors.setup_eval_programs programs ls)
       = partitioned_train_state ls
    /\ world (Executors.setup_eval_programs programs ls) = world ls.
Proof.
  induction programs as [|p r IH]; intro ls; cbn [Executors.setup_eval_programs map].
  - rewrite app_nil_r. repeat split.
  - destruct (IH (with_env (eval_setup p (env (emit (CallEvalSetup (eval_input p)) ls)))
                           (emit (CallEvalSetup (eval_input p)) ls)))
      as (L & S & P & W).
    rewrite L, S, P, W. cbn [log step_i partitioned_train_state world
                             with_env emit].
    rewrite <- app_assoc. repeat split.
Qed.

(** Past the start-up checks: the set-up calls, the check of the eval
    names, the loop. *)
Lemma executors_set_up_then_loop
      (fuel : nat) (train_p : TrainHParams)
      (co : @Collaborators TrainState Metrics E)
      (train_program : @TrainProgram TrainState Metrics E)
      (st : TrainState) (eval_programs : list (@EvalProgram E))
      (decode_input_p : list BaseInput) (total_num_params : Z)
      (early_stopping_fn : option (@EarlyStoppingFn Metrics E))
      (methods : @LoopCheckpointer TrainState Spec M)
      (exit_after_ondemand_checkpoint : bool)
      (w : World TrainState Spec M) (e : E) :
  let step := step_of co st in
  let ls :=
    Executors.setup_eval_programs
      eval_programs
      (emit (CallSetup step)
            (with_env (setup train_program step e) (mk_loop step st w e []))) in
  let o :=
    match check_unique_names (map eval_input eval_programs) with
    | Raise err => Raised err ls
    | Ok _ =>
        while_true train_p co train_program eval_programs decode_input_p
                   total_num_params early_stopping_fn methods
                   exit_after_ondemand_checkpoint true fuel ls
    end in
  exists evs,
    log (final_state o)
    = (CallSetup step
       :: map (fun p => CallEvalSetup (eval_input p)) eval_programs) ++ evs
    /\ forallb (well_placed train_p eval_programs decode_input_p
                            early_stopping_fn
                            exit_after_ondemand_checkpoint) evs = true
    /\ match check_unique_names (map eval_input eval_programs) with
       | Ok _ => True
       | Raise err => evs = [] /\ exists ls', o = Raised err ls'
       end.
Proof.
  cbv zeta.
  set (ls := Executors.setup_eval_programs _ _).
  destruct (@setup_eval_programs_log
              eval_programs
              (emit (CallSetup (step_of co st))
                    (with_env (setup train_program (step_of co st) e)
                              (mk_loop (step_of co st) st w e []))))
    as (L & _).
  fold ls in L. cbn [log emit with_env app] in L.
  destruct (check_unique_names (map eval_input eval_programs)) as [[]|err].
  - destruct (@loop_ledger
                TrainState Spec M Metrics E train_p co train_program
                eval_programs decode_input_p total_num_params
                early_stopping_fn methods exit_after_ondemand_checkpoint true
                fuel ls) as (evs & L' & Pl & _).
    exists evs. rewrite L', L. repeat split. exact Pl.
  - exists []. cbn [final_state]. rewrite L, app_nil_r.
    repeat split. eexists; reflexivity.
Qed.

(** X16.  A run of [_train_and_evaluate_common] of [executors.py] either
    raises before anything is set up, with an empty log and the world
    and environment it was given, or has set up the train program and
    then every eval program, once each and in order, before the first
    call of the loop.  It raises at the start for decode inputs whose
    names the uniqueness check refuses, and with [AssertionError] when
    the checkpointer's [step_to_restore] is set and differs from the
    step of the state; past that point [step_to_restore] is unset or
    equal to that step.  The eval names are checked after the eval
    programs are set up: when that check fails the run raises with the
    set-up calls made and no call of the loop. *)
Theorem executors_sets_up_before_the_loop
        (fuel : nat) (train_p : TrainHParams)
        (co : @Collaborators TrainState Metrics E)
        (train_program : @TrainProgram TrainState Metrics E)
        (st : TrainState) (eval_programs : list (@EvalProgram E))
        (decode_input_p : list BaseInput) (total_num_params : Z)
        (early_stopping_fn : option (@EarlyStoppingFn Metrics E))
        (ck : @Executors.TrainingCheckpointer TrainState Spec M)
        (exit_after_ondemand_checkpoint : bool)
        (w : World TrainState Spec M) (e : E) :
  let o :=
    Executors._train_and_evaluate_common
      fuel train_p co train_program st eval_programs decode_input_p
      total_num_params early_stopping_fn ck exit_after_ondemand_checkpoint
      w e in
  let step := step_of co st in
  let setups :=
    CallSetup step :: map (fun p => CallEvalSetup (eval_input p)) eval_programs in
  (exists err,
      o = Raised err (mk_loop step st w e [])
      /\ ((nonempty decode_input_p = true
           /\ check_unique_names decode_input_p = Raise err)
          \/ (err = AssertionError
              /\ exists r, Executors.step_to_restore ck = Some r /\ r <> step)))
  \/ (match Executors.step_to_restore ck with
      | Some r => r = step
      | None => True
      end
      /\ exists evs,
          log (final_state o) = setups ++ evs
          /\ forallb (well_placed train_p eval_programs decode_input_p
                                  early_stopping_fn
                                  exit_after_ondemand_checkpoint) evs = true
          /\ match check_unique_names (map eval_input eval_programs) with
             | Ok _ => True
             | Raise err => evs = [] /\ exists ls, o = Raised err ls
             end).
Proof.
  cbv zeta. unfold Executors._train_and_evaluate_common.
  destruct (if nonempty decode_input_p
            then Executors.partition_decode_once_fns decode_input_p
            else Ok []) as [names|err] eqn:D.
  2:{ left. exists err. split; [reflexivity|]. left.
      destruct (nonempty decode_input_p); [|discriminate D].
      split; [reflexivity|].
      unfold Executors.partition_decode_once_fns,
        Executors._create_decode_programs in D.
      destruct (check_unique_names decode_input_p) as [[]|err'];
        cbn [bindR] in D; [discriminate D | congruence]. }
  destruct (Executors.step_to_restore ck) as [r|] eqn:R.
  - destruct (r =? step_of co st) eqn:Q; cbn [negb].
    + apply Z.eqb_eq in Q. right. split; [exact Q|].
      apply executors_set_up_then_loop.
    + apply Z.eqb_neq in Q. left. exists AssertionError.
      split; [reflexivity|]. right. split; [reflexivity|].
      exists r. split; [reflexivity | exact Q].
  - right. split; [exact I|]. apply executors_set_up_then_loop.
Qed.

End ExecutorsStart.

(** ** From the experiment to the loop *)

Lemma placed_without_eval_programs
      {TrainState Metrics E : Type} (train_p : TrainHParams)
      (decode_input_p : list BaseInput)
      (early_stopping_fn : option (@EarlyStoppingFn Metrics E))
      (exit_after_ondemand_checkpoint : bool)
      (evs : list (@Call TrainState)) :
  forallb (well_placed train_p (@nil (@EvalProgram E)) decode_input_p
                       early_stopping_fn exit_after_ondemand_checkpoint)
          evs = true ->
  count is_eval evs = 0%nat.
Proof.
  intro F.
  apply (@count_quiet TrainState is_eval _ evs F).
  intros [] H; simpl in H; try discriminate; reflexivity.
Qed.

Lemma placed_without_decode_inputs
      {TrainState Metrics E : Type} (train_p : TrainHParams)
      (eval_programs : list (@EvalProgram E))
      (early_stopping_fn : option (@EarlyStoppingFn Metrics E))
      (exit_after_ondemand_checkpoint : bool)
      (evs : list (@Call TrainState)) :
  forallb (well_placed train_p eval_programs [] early_stopping_fn
                       exit_after_ondemand_checkpoint) evs = true ->
  count is_decode evs = 0%nat.
Proof.
  intro F.
  apply (@count_quiet TrainState is_decode _ evs F).
  intros [] H; simpl in H; try discriminate; reflexivity.
Qed.

(** The log of a run of the loop of [train.py]: empty when the decode
    inputs are refused, and otherwise the set-up of the train program
    followed by calls the configuration allows. *)
Lemma train_run_log
      {TrainState Spec Key M Metrics E : Type}
      (fuel : nat) (train_p : TrainHParams)
      (co : @Collaborators TrainState Metrics E)
      (train_program : @TrainProgram TrainState Metrics E)
      (st : TrainState) (test_eval_programs : list (@EvalProgram E))
      (decode_input_p : list BaseInput) (total_num_params : Z)
      (early_stopping_fn : option (@EarlyStoppingFn Metrics E))
      (ck : TrainingCheckpointer TrainState Spec Key M)
      (partition_decode_once_fns : list BaseInput -> Result unit)
      (w : World TrainState Spec M) (e : E) :
  exists evs,
    forallb (well_placed train_p test_eval_programs decode_input_p
                         early_stopping_fn false) evs = true
    /\ (log (final_state
               (Train._train_and_evaluate_common
                  fuel train_p co train_program st test_eval_programs
                  decode_input_p total_num_params early_stopping_fn ck
                  partition_decode_once_fns w e)) = evs
        \/ log (final_state
                  (Train._train_and_evaluate_common
                     fuel train_p co train_program st test_eval_programs
                     decode_input_p total_num_params early_stopping_fn ck
                     partition_decode_once_fns w e))
           = CallSetup (step_of co st) :: evs).
Proof.
  unfold Train._train_and_evaluate_common.
  destruct (if nonempty decode_input_p
            then partition_decode_once_fns decode_input_p
            else Ok tt).
  - set (ls := emit _ _).
    destruct (@loop_ledger
                TrainState Spec M Metrics E train_p co train_program
                test_eval_programs decode_input_p total_num_params
                early_stopping_fn (Train.loop_checkpointer ck) false false
                fuel ls) as (evs & L & Pl & _).
    exists evs. split; [exact Pl|]. right. rewrite L. reflexivity.
  - exists []. split; [reflexivity|]. left. reflexivity.
Qed.

Section LaunchFacts.

Context {TrainState Spec Key M Metrics E Async : Type}.

Local Abbreviation World := (World TrainState Spec M).
Local Abbreviation Program := (@TrainProgram TrainState Metrics E).
Local Abbreviation TaskHParams := (@Launch.TaskHParams Metrics E).
Local Abbreviation Partitioner := (@Launch.Partitioner Spec).

Variable joinpath : string -> string -> string.
Variable process_count : Z.
Variable process_index : Z.
Variable retrieve_checkpoint_type : bool -> TaskHParams -> CheckpointType.
Variable OrbaxCheckpointManager :
  string -> @Launch.OrbaxCheckpointer Async ->
  Launch.CheckpointManagerOptions -> CheckpointType ->
  CheckpointManager TrainState Spec M.
Variable rt : Runtime TrainState Spec Key M.
Variable co : @Collaborators TrainState Metrics E.
Variable init_key : TaskHParams -> Key.
Variable create_partitioner :
  TaskHParams -> Launch.InputHParams -> bool -> bool -> Partitioner.
Variable preprocess_input_params :
  Partitioner -> Launch.InputHParams -> Launch.InputHParams.
Variable SingleTaskTrainProgram :
  TaskHParams -> Launch.InputHParams -> Partitioner -> Program.
Variable program_truth : Program -> bool.

Local Abbreviation truth := (Launch.truth program_truth).
Local Abbreviation pmap_entry :=
  (@Launch.train_and_evaluate_pmap
     TrainState Spec Key M Metrics E co init_key create_partitioner
     preprocess_input_params SingleTaskTrainProgram program_truth).
Local Abbreviation spmd_entry :=
  (@Launch.train_and_evaluate_spmd_model
     TrainState Spec Key M Metrics E co init_key create_partitioner
     preprocess_input_params SingleTaskTrainProgram program_truth).
Local Abbreviation create_checkpointer :=
  (@Launch._create_checkpointer
     TrainState Spec M Metrics E Async joinpath OrbaxCheckpointManager).
Local Abbreviation launch :=
  (@Launch.train_and_evaluate
     TrainState Spec Key M Metrics E Async joinpath process_count
     process_index retrieve_checkpoint_type OrbaxCheckpointManager rt co
     init_key create_partitioner preprocess_input_params
     SingleTaskTrainProgram program_truth).

(** X17.  [train_and_evaluate_pmap] never runs the experiment's train
    program: its sixth positional argument reaches
    [_create_program_and_states] as [enable_auto_sharding], so the
    program only decides, by its truth value, the auto-sharding mode
    asked of the partitioner, and the loop runs with the default
    [SingleTaskTrainProgram]; two experiment programs of the same truth
    value give the same run.  [train_and_evaluate_spmd_model] passes the
    program by name and runs the loop with it. *)
Theorem pmap_entry_ignores_experiment_program
        (fuel : nat) (task_p : TaskHParams) (train_input_p : Launch.InputHParams)
        (job_log_dir : string)
        (checkpointer : TrainingCheckpointer TrainState Spec Key M)
        (checkpoint_type : CheckpointType)
        (eval_input_p decode_input_p : list Launch.InputHParams)
        (early_stopping_fn : option (@EarlyStoppingFn Metrics E))
        (enable_auto_sharding : bool)
        (p q : option Program) (P : Program) (w : World) (e : E) :
  (truth (Launch.as_argument p) = truth (Launch.as_argument q) ->
   pmap_entry fuel task_p train_input_p job_log_dir checkpointer
              checkpoint_type eval_input_p decode_input_p early_stopping_fn
              p w e
   = pmap_entry fuel task_p train_input_p job_log_dir checkpointer
                checkpoint_type eval_input_p decode_input_p early_stopping_fn
                q w e)
  /\ (let partitioner :=
        create_partitioner task_p train_input_p
                           (negb (Launch.is_persistence checkpoint_type))
                           (truth (Launch.as_argument p)) in
      forall st n w',
        get_model_states checkpointer (Launch.global_mesh partitioner)
                         (Launch.get_train_state_metadata partitioner)
                         (init_key task_p) w = (Ok (st, n), w') ->
        pmap_entry fuel task_p train_input_p job_log_dir checkpointer
                   checkpoint_type eval_input_p decode_input_p
                   early_stopping_fn p w e
        = Train.train_and_evaluate_pmap
            fuel (Launch.train task_p) co
            (SingleTaskTrainProgram
               task_p
               (Launch._maybe_update_latest_model_step
                  (preprocess_input_params partitioner train_input_p)
                  (step_of co st))
               partitioner)
            checkpointer (Launch.global_mesh partitioner)
            (Launch.get_train_state_metadata partitioner) (init_key task_p)
            (map Launch.instantiate eval_input_p)
            (map Launch.instantiate decode_input_p)
            (Launch.early_stopping_fn_inst task_p) early_stopping_fn w e)
  /\ (program_truth P = true ->
      let partitioner :=
        create_partitioner task_p train_input_p
                           (negb (Launch.is_persistence checkpoint_type))
                           enable_auto_sharding in
      spmd_entry fuel task_p train_input_p job_log_dir checkpointer
                 checkpoint_type eval_input_p decode_input_p early_stopping_fn
                 enable_auto_sharding (Some P) w e
      = Train.train_and_evaluate_spmd_model
          fuel (Launch.train task_p) co P checkpointer
          (Launch.global_mesh partitioner)
          (Launch.get_train_state_metadata partitioner) (init_key task_p)
          (map Launch.instantiate eval_input_p)
          (map Launch.instantiate decode_input_p)
          (Launch.early_stopping_fn_inst task_p) early_stopping_fn w e).
Proof.
  split; [|split].
  - intro H.
    unfold Launch.train_and_evaluate_pmap, Launch._create_program_and_states.
    rewrite H. reflexivity.
  - intros partitioner st n w' G.
    unfold Launch.train_and_evaluate_pmap, Launch._create_program_and_states,
      Train.train_and_evaluate_pmap, Train._create_program_and_states.
    fold partitioner. rewrite G.
    destruct (is_some (Launch.global_mesh partitioner)); [reflexivity|].
    destruct (Train.merge_early_stopping _ _); cbn [bindR]; [|reflexivity].
    rewrite !map_map. reflexivity.
  - intros H partitioner.
    unfold Launch.train_and_evaluate_spmd_model,
      Launch._create_program_and_states,
      Train.train_and_evaluate_spmd_model.
    cbn [Launch.truth]. fold partitioner. rewrite H.
    destruct (Train._create_program_and_states
                checkpointer (Launch.global_mesh partitioner)
                (Launch.get_train_state_metadata partitioner)
                (init_key task_p) w) as [[[s n]|err] w'];
      [|reflexivity].
    destruct (Train.merge_early_stopping _ _); cbn [bindR]; [|reflexivity].
    rewrite !map_map. reflexivity.
Qed.



Local Abbreviation set_infeed := (Launch.set_infeed process_count process_index).
Local Abbreviation check_datasets :=
  (Launch.check_datasets process_count process_index).

Lemma check_datasets_ok (input_p : list Launch.InputHParams) :
  forall checked,
    check_datasets input_p = Ok checked ->
    forallb Launch.is_input_hparams input_p = true
    /\ checked = map set_infeed input_p.
Proof.
  induction input_p as [|inp rest IH]; intros checked H;
    cbn [Launch.check_datasets] in H.
  - injection H as <-. split; reflexivity.
  - cbn [forallb map].
    destruct (Launch.is_input_hparams inp); cbn [negb] in H;
      [|discriminate H].
    destruct (Launch.check_datasets process_count process_index rest)
      as [rest'|err]; cbn [bindR] in H; [|discriminate H].
    injection H as <-. destruct (IH rest' eq_refl) as [F ->].
    split; [exact F | reflexivity].
Qed.

Lemma filter_set_infeed (input_p : list Launch.InputHParams) :
  filter Launch.is_training (map set_infeed input_p)
  = map set_infeed (filter Launch.is_training input_p).
Proof.
  induction input_p as [|inp rest IH]; [reflexivity|].
  cbn [map filter Launch.set_infeed Launch.is_training].
  destruct (Launch.is_training inp); cbn [map]; now rewrite IH.
Qed.

(** What a checkpointer made by [_create_checkpointer] is. *)
Lemma create_checkpointer_ok
      (task_p : TaskHParams) (job_log_dir : string)
      (checkpoint_type : CheckpointType) (todelete_subdir : option string)
      (async_checkpointer : option Async) (enable_checkpoint_saving : bool)
      (w w1 : World) (created : Launch.Created) :
  create_checkpointer task_p job_log_dir checkpoint_type todelete_subdir
                      async_checkpointer enable_checkpoint_saving w
  = (Ok created, w1) ->
  w1 = record MakeCheckpointDir w
  /\ (exists d,
         Duration._parse_duration (Launch.save_keep_interval_duration task_p)
         = Ok d)
  /\ (checkpoint_type = PERSISTENCE -> async_checkpointer <> None)
  /\ (if is_some (Launch.ici_mesh_shape task_p)
      then checkpoint_type <> FLAX
           /\ exists cm pj,
               created = Launch.Sharded cm pj
               /\ OrbaxPjitTrainingCheckpointer._enable_checkpoint_saving pj
                  = enable_checkpoint_saving
               /\ OrbaxPjitTrainingCheckpointer._checkpoint_type pj
                  = checkpoint_type
      else exists cm pm,
          created = Launch.Replicated cm pm
          /\ OrbaxPmapTrainingCheckpointer._enable_checkpoint_saving pm
             = enable_checkpoint_saving
          /\ OrbaxPmapTrainingCheckpointer._checkpoint_type pm
             = checkpoint_type).
Proof.
  unfold Launch._create_checkpointer, Launch._make_checkpoint_dir.
  destruct (Duration._parse_duration
              (Launch.save_keep_interval_duration task_p)) as [d|err];
    cbn [bindR]; [|discriminate].
  intro H. injection H as H <-.
  split; [reflexivity|]. split; [exists d; reflexivity|].
  destruct checkpoint_type; cbn [is_flax option_map] in H.
  - (* FLAX *)
    cbn [bindR] in H. split; [discriminate|].
    destruct (is_some (Launch.ici_mesh_shape task_p)).
    + cbn [OrbaxPjitTrainingCheckpointer.__init__ is_flax bindR] in H.
      discriminate H.
    + injection H as <-. do 2 eexists; repeat split.
  - (* GDA *)
    split; [discriminate|].
    destruct async_checkpointer as [a|]; cbn [option_map bindR] in H;
      destruct (is_some (Launch.ici_mesh_shape task_p));
      cbn [OrbaxPjitTrainingCheckpointer.__init__ is_flax bindR] in H;
      injection H as <-;
      try (split; [discriminate|]); do 2 eexists; repeat split.
  - (* PERSISTENCE *)
    destruct async_checkpointer as [a|]; cbn [option_map bindR] in H;
      [|discriminate H].
    split; [discriminate|].
    destruct (is_some (Launch.ici_mesh_shape task_p));
      cbn [OrbaxPjitTrainingCheckpointer.__init__ is_flax bindR] in H;
      injection H as <-;
      try (split; [discriminate|]); do 2 eexists; repeat split.
Qed.

(** The inputs [train_and_evaluate] hands on. *)
Local Abbreviation eval_inputs :=
  (fun (experiment_config : @Launch.BaseExperiment TrainState Metrics E)
       (eval_on_test : option bool) =>
     if Launch.is_true eval_on_test
        && Launch.positive
             (eval_interval_steps
                (Launch.train (Launch.task experiment_config)))
     then filter (fun v => negb (Launch.is_training v))
                 (map set_infeed (Launch.datasets experiment_config))
     else []).

Local Abbreviation decode_inputs :=
  (fun (experiment_config : @Launch.BaseExperiment TrainState Metrics E)
       (run_decode : bool) =>
     map set_infeed
         (if run_decode
             && Launch.positive
                  (decode_interval_steps
                     (Launch.train (Launch.task experiment_config)))
          then Launch.decoder_datasets experiment_config
          else [])).

(** A launch that reaches the loop, taken apart. *)
Lemma launch_reaches_loop
      (fuel : nat)
      (experiment_config : @Launch.BaseExperiment TrainState Metrics E)
      (job_log_dir : string) (maybe_use_persistence_checkpointing : bool)
      (eval_on_test : option bool) (checkpoint_todelete_subdir : option string)
      (early_stopping_fn : option (@EarlyStoppingFn Metrics E))
      (run_decode enable_auto_sharding : bool)
      (async_checkpointer : option Async) (enable_checkpoint_saving : bool)
      (w : World) (e : E) (o : @Outcome TrainState Spec M E) :
  launch fuel experiment_config job_log_dir
         maybe_use_persistence_checkpointing eval_on_test
         checkpoint_todelete_subdir early_stopping_fn run_decode
         enable_auto_sharding async_checkpointer enable_checkpoint_saving w e
  = Ok o ->
  let task_p := Launch.task experiment_config in
  let checkpoint_type :=
    retrieve_checkpoint_type maybe_use_persistence_checkpointing task_p in
  forallb Launch.is_input_hparams (Launch.datasets experiment_config) = true
  /\ List.length (filter Launch.is_training
                         (Launch.datasets experiment_config)) = 1%nat
  /\ exists created w1 mesh md program st n w2 stop,
      create_checkpointer task_p job_log_dir checkpoint_type
                          checkpoint_todelete_subdir async_checkpointer
                          enable_checkpoint_saving w = (Ok created, w1)
      /\ get_model_states (Launch.as_training_checkpointer rt created)
                          mesh md (init_key task_p) w1 = (Ok (st, n), w2)
      /\ (is_some (Launch.ici_mesh_shape task_p) = false ->
          mesh = None
          /\ NoDup (map name
                        (map Launch.instantiate
                             (eval_inputs experiment_config eval_on_test))))
      /\ Train.merge_early_stopping (Launch.early_stopping_fn_inst task_p)
                                    early_stopping_fn = Ok stop
      /\ o = Train._train_and_evaluate_common
               fuel (Launch.train task_p) co program st
               (map (fun p => Train.SingleTaskEvalProgram
                                (Launch.instantiate p))
                    (eval_inputs experiment_config eval_on_test))
               (map Launch.instantiate
                    (decode_inputs experiment_config run_decode))
               n stop (Launch.as_training_checkpointer rt created)
               check_unique_names w2 e.
Proof.
  unfold Launch.train_and_evaluate. cbv zeta.
  destruct (Launch.check_datasets process_count process_index
                                  (Launch.datasets experiment_config))
    as [input_p|err] eqn:C; cbn [bindR]; [|discriminate].
  destruct (check_datasets_ok _ C) as [F ->].
  rewrite filter_set_infeed.
  destruct (filter Launch.is_training (Launch.datasets experiment_config))
    as [|t [|t' r]]; cbn [map]; try discriminate.
  destruct (Launch._create_checkpointer _ _ _ _ _ _ _ _ _)
    as [[created|err] w1] eqn:K; [|discriminate].
  destruct (is_some (Launch.ici_mesh_shape (Launch.task experiment_config)))
    eqn:Mesh.
  - unfold Launch.train_and_evaluate_spmd_model,
      Launch._create_program_and_states, Train._create_program_and_states.
    set (part := create_partitioner _ _ _ _).
    destruct (get_model_states _ _ _ _ _) as [[[st n]|err] w2] eqn:G;
      [|discriminate].
    destruct (Train.merge_early_stopping _ _) as [stop|err] eqn:Mg;
      cbn [bindR]; [|discriminate].
    intro H. injection H as <-.
    split; [exact F|]. split; [reflexivity|].
    do 9 eexists. split; [reflexivity|]. split; [exact G|].
    split; [discriminate|]. split; [reflexivity|]. reflexivity.
  - unfold Launch.train_and_evaluate_pmap,
      Launch._create_program_and_states, Train._create_program_and_states.
    set (part := create_partitioner _ _ _ _).
    destruct (get_model_states _ _ _ _ _) as [[[st n]|err] w2] eqn:G;
      [|discriminate].
    destruct (is_some (Launch.global_mesh part)) eqn:GM; [discriminate|].
    destruct (Train.merge_early_stopping _ _) as [stop|err] eqn:Mg;
      cbn [bindR]; [|discriminate].
    destruct (check_unique_names _) as [[]|err] eqn:U; cbn [bindR];
      [|discriminate].
    intro H. injection H as <-.
    split; [exact F|]. split; [reflexivity|].
    do 9 eexists. split; [reflexivity|]. split; [exact G|].
    split.
    { intros _. split.
      - destruct (Launch.global_mesh part); [discriminate GM | reflexivity].
      - apply check_unique_names_ok. rewrite map_map in U. exact U. }
    split; [reflexivity|]. reflexivity.
Qed.



(** X18.  Through [train_and_evaluate], the loop evaluates on test data
    only when the caller asks for it with [eval_on_test] and the eval
    interval is set and positive, and decodes only under [run_decode]
    with a decode interval that is set and positive: otherwise no eval
    (no decode) call is made in the whole run, even at steps that a
    negative interval divides. *)
Theorem launch_evaluates_only_on_request
        (fuel : nat)
        (experiment_config : @Launch.BaseExperiment TrainState Metrics E)
        (job_log_dir : string) (maybe_use_persistence_checkpointing : bool)
        (eval_on_test : option bool)
        (checkpoint_todelete_subdir : option string)
        (early_stopping_fn : option (@EarlyStoppingFn Metrics E))
        (run_decode enable_auto_sharding : bool)
        (async_checkpointer : option Async) (enable_checkpoint_saving : bool)
        (w : World) (e : E) (o : @Outcome TrainState Spec M E) :
  launch fuel experiment_config job_log_dir
         maybe_use_persistence_checkpointing eval_on_test
         checkpoint_todelete_subdir early_stopping_fn run_decode
         enable_auto_sharding async_checkpointer enable_checkpoint_saving w e
  = Ok o ->
  (Launch.is_true eval_on_test
   && Launch.positive
        (eval_interval_steps (Launch.train (Launch.task experiment_config)))
   = false ->
   count is_eval (log (final_state o)) = 0%nat)
  /\ (run_decode
      && Launch.positive
           (decode_interval_steps
              (Launch.train (Launch.task experiment_config)))
      = false ->
      count is_decode (log (final_state o)) = 0%nat).
Proof.
  intro H. apply launch_reaches_loop in H. cbv zeta in H.
  destruct H as (_ & _ & created & w1 & mesh & md & program & st & n & w2
                 & stop & _ & _ & _ & _ & ->).
  split; intro Off; rewrite Off; cbn [map].
  - destruct (train_run_log
                fuel (Launch.train (Launch.task experiment_config)) co program
                st []
                (map Launch.instantiate
                     (decode_inputs experiment_config run_decode))
                n stop (Launch.as_training_checkpointer rt created)
                check_unique_names w2 e) as (evs & Pl & [L|L]);
      rewrite L.
    + exact (placed_without_eval_programs _ _ _ _ _ Pl).
    + change (CallSetup (step_of co st) :: evs)
        with ([CallSetup (step_of co st)] ++ evs).
      rewrite count_app, (placed_without_eval_programs _ _ _ _ _ Pl).
      reflexivity.
  - destruct (train_run_log
                fuel (Launch.train (Launch.task experiment_config)) co program
                st
                (map (fun p => Train.SingleTaskEvalProgram
                                 (Launch.instantiate p))
                     (eval_inputs experiment_config eval_on_test))
                [] n stop (Launch.as_training_checkpointer rt created)
                check_unique_names w2 e) as (evs & Pl & [L|L]);
      rewrite L.
    + exact (placed_without_decode_inputs _ _ _ _ _ Pl).
    + change (CallSetup (step_of co st) :: evs)
        with ([CallSetup (step_of co st)] ++ evs).
      rewrite count_app, (placed_without_decode_inputs _ _ _ _ _ Pl).
      reflexivity.
Qed.

(** X19.  What a launch that reaches the loop has passed: every dataset
    is input params and exactly one of them is a training split; the
    keep-interval duration parses; a [PERSISTENCE] checkpoint type comes
    with a checkpointer already made; a model with a mesh shape does not
    use [FLAX] checkpoints; the early-stopping function is not given
    both by the task and by the caller; and on the path without a mesh
    shape the partitioner has no global mesh and the eval inputs handed
    on have pairwise distinct names. *)
Theorem launch_requirements
        (fuel : nat)
        (experiment_config : @Launch.BaseExperiment TrainState Metrics E)
        (job_log_dir : string) (maybe_use_persistence_checkpointing : bool)
        (eval_on_test : option bool)
        (checkpoint_todelete_subdir : option string)
        (early_stopping_fn : option (@EarlyStoppingFn Metrics E))
        (run_decode enable_auto_sharding : bool)
        (async_checkpointer : option Async) (enable_checkpoint_saving : bool)
        (w : World) (e : E) (o : @Outcome TrainState Spec M E) :
  launch fuel experiment_config job_log_dir
         maybe_use_persistence_checkpointing eval_on_test
         checkpoint_todelete_subdir early_stopping_fn run_decode
         enable_auto_sharding async_checkpointer enable_checkpoint_saving w e
  = Ok o ->
  let task_p := Launch.task experiment_config in
  let checkpoint_type :=
    retrieve_checkpoint_type maybe_use_persistence_checkpointing task_p in
  forallb Launch.is_input_hparams (Launch.datasets experiment_config) = true
  /\ List.length (filter Launch.is_training
                         (Launch.datasets experiment_config)) = 1%nat
  /\ (exists d,
         Duration._parse_duration (Launch.save_keep_interval_duration task_p)
         = Ok d)
  /\ (checkpoint_type = PERSISTENCE -> async_checkpointer <> None)
  /\ (Launch.ici_mesh_shape task_p <> None -> checkpoint_type <> FLAX)
  /\ (Launch.early_stopping_fn_inst task_p = None \/ early_stopping_fn = None)
  /\ (Launch.ici_mesh_shape task_p = None ->
      NoDup (map name
                 (map Launch.instantiate
                      (eval_inputs experiment_config eval_on_test)))).
Proof.
  intro H. apply launch_reaches_loop in H. cbv zeta in H |- *.
  destruct H as (F & One & created & w1 & mesh & md & program & st & n & w2
                 & stop & K & _ & Pm & Mg & _).
  apply create_checkpointer_ok in K.
  destruct K as (_ & D & Pers & Kind).
  split; [exact F|]. split; [exact One|]. split; [exact D|].
  split; [exact Pers|].
  split.
  { intro Mesh.
    destruct (Launch.ici_mesh_shape (Launch.task experiment_config));
      [|contradiction]. exact (proj1 Kind). }
  split.
  { unfold Train.merge_early_stopping in Mg.
    destruct (Launch.early_stopping_fn_inst (Launch.task experiment_config));
      [|left; reflexivity].
    destruct early_stopping_fn; [discriminate Mg | right; reflexivity]. }
  intro Mesh. apply Pm. rewrite Mesh. reflexivity.
Qed.

Lemma get_model_states_keeps_saves
      (created : @Launch.Created TrainState Spec M)
      (mesh : option Spec) (md : TrainStateMetadata Spec) (key : Key)
      (w : World) :
  saves_of (snd (get_model_states (Launch.as_training_checkpointer rt created)
                                  mesh md key w))
  = saves_of w.
Proof.
  destruct created as [cm pj|cm pm];
    cbn [Launch.as_training_checkpointer get_model_states
         OrbaxPjitTrainingCheckpointer.as_checkpointer
         OrbaxPmapTrainingCheckpointer.as_checkpointer].
  - unfold OrbaxPjitTrainingCheckpointer.get_model_states,
      OrbaxPjitTrainingCheckpointer._restore_with_args, manager_restore.
    destruct (latest_step cm (mgr w)); cbn [snd]; [|reflexivity].
    now rewrite saves_of_record.
  - unfold OrbaxPmapTrainingCheckpointer.get_model_states,
      OrbaxPmapTrainingCheckpointer._restore_from_tensorstore, manager_restore.
    destruct (pmap_use_tensorstore rt); cbn [snd].
    + now rewrite !saves_of_record.
    + destruct (latest_step cm (mgr w)); cbn [snd]; [|reflexivity].
      now rewrite saves_of_record.
Qed.

(** X20.  [train_and_evaluate] with [enable_checkpoint_saving] false
    hands the flag to the checkpointer it makes, and the run that
    follows, restore or initialization included, issues no save call to
    the checkpoint manager. *)
Theorem launch_without_saving_saves_nothing
        (fuel : nat)
        (experiment_config : @Launch.BaseExperiment TrainState Metrics E)
        (job_log_dir : string) (maybe_use_persistence_checkpointing : bool)
        (eval_on_test : option bool)
        (checkpoint_todelete_subdir : option string)
        (early_stopping_fn : option (@EarlyStoppingFn Metrics E))
        (run_decode enable_auto_sharding : bool)
        (async_checkpointer : option Async)
        (w : World) (e : E) (o : @Outcome TrainState Spec M E) :
  launch fuel experiment_config job_log_dir
         maybe_use_persistence_checkpointing eval_on_test
         checkpoint_todelete_subdir early_stopping_fn run_decode
         enable_auto_sharding async_checkpointer false w e
  = Ok o ->
  saves_of (world (final_state o)) = saves_of w.
Proof.
  intro H. apply launch_reaches_loop in H. cbv zeta in H.
  destruct H as (_ & _ & created & w1 & mesh & md & program & st & n & w2
                 & stop & K & G & _ & _ & ->).
  apply create_checkpointer_ok in K. destruct K as (-> & _ & _ & Kind).
  pose proof (get_model_states_keeps_saves created mesh md (init_key (Launch.task experiment_config))
                                           (record MakeCheckpointDir w)) as S.
  rewrite G in S. cbn [snd] in S.
  rewrite saves_of_record in S by reflexivity.
  rewrite <- S.
  assert (Off :
            exists cm pj pm,
              (Launch.as_training_checkpointer rt created
               = OrbaxPjitTrainingCheckpointer.as_checkpointer cm rt pj
               /\ OrbaxPjitTrainingCheckpointer._enable_checkpoint_saving pj
                  = false)
              \/ (Launch.as_training_checkpointer rt created
                  = OrbaxPmapTrainingCheckpointer.as_checkpointer cm rt pm
                  /\ OrbaxPmapTrainingCheckpointer._enable_checkpoint_saving pm
                     = false)).
  { destruct (is_some (Launch.ici_mesh_shape (Launch.task experiment_config))).
    - destruct Kind as (_ & cm & pj & -> & En & _).
      exists cm, pj,
        (OrbaxPmapTrainingCheckpointer.__init__ job_log_dir FLAX false).
      left. split; [reflexivity | exact En].
    - destruct Kind as (cm & pm & -> & En & _).
      exists cm,
        {| OrbaxPjitTrainingCheckpointer._checkpoint_type := GDA;
           OrbaxPjitTrainingCheckpointer._enable_checkpoint_saving := false |},
        pm.
      right. split; [reflexivity | exact En]. }
  destruct Off as (cm & pj & pm & Off).
  destruct (disabled_methods_save_nothing Off) as (Sin & Sf & Wt).
  unfold Train._train_and_evaluate_common.
  destruct (if nonempty _ then _ else _); [|reflexivity].
  set (ls := emit _ _).
  pose proof (@loop_world
                TrainState Spec M Metrics E
                (Launch.train (Launch.task experiment_config)) co program
                (map (fun p => Train.SingleTaskEvalProgram
                                 (Launch.instantiate p))
                     (eval_inputs experiment_config eval_on_test))
                (map Launch.instantiate
                     (decode_inputs experiment_config run_decode))
                n stop
                (Train.loop_checkpointer
                   (Launch.as_training_checkpointer rt created))
                false false
                (fun w' : World => saves_of w' = saves_of w2)
                ltac:(cbn [ck_save_if_needed Train.loop_checkpointer];
                      intros k s w' Hw;
                      destruct (Sin k s w') as [_ G2]; congruence)
                fuel ls eq_refl) as L.
  destruct (while_true _ _ _ _ _ _ _ _ _ _ _ _) as [r ls'|c ls'|err ls'|ls'];
    cbn [final_state].
  - destruct L as (w3 & H3 & ->).
    cbn [ck_wait_until_finished ck_save_final Train.loop_checkpointer].
    rewrite Sf, Wt.
    destruct (wait_until_finished_saves_nothing cm w3) as [G1 _].
    congruence.
  - destruct L as [L _]. discriminate L.
  - exact L.
  - exact L.
Qed.

End LaunchFacts.

Lemma pmap_entry_ignores_experiment_program_witness :
  DemoLaunch.train_and_evaluate_pmap
    10 (DemoLaunch.task None None) (DemoLaunch.input "train" true) "/logs"
    (OrbaxPmapTrainingCheckpointer.as_checkpointer
       Demo.manager (Demo.runtime 1 false) (Demo.pmap true))
    GDA [] [] None (Some (Demo.program 5)) Demo.world0 0%nat
  = DemoLaunch.train_and_evaluate_pmap
      10 (DemoLaunch.task None None) (DemoLaunch.input "train" true) "/logs"
      (OrbaxPmapTrainingCheckpointer.as_checkpointer
         Demo.manager (Demo.runtime 1 false) (Demo.pmap true))
      GDA [] [] None (Some (Demo.program 9)) Demo.world0 0%nat.
Proof.
  exact (proj1 (@pmap_entry_ignores_experiment_program
                  Demo.State unit unit Demo.Dir unit nat
                  (Demo.collaborators false) (fun _ => tt)
                  DemoLaunch.partitioner (fun _ p => p)
                  DemoLaunch.default_program (fun _ => true)
                  10%nat (DemoLaunch.task None None)
                  (DemoLaunch.input "train" true) "/logs"%string
                  (OrbaxPmapTrainingCheckpointer.as_checkpointer
                     Demo.manager (Demo.runtime 1 false) (Demo.pmap true))
                  GDA [] [] None false
                  (Some (Demo.program 5)) (Some (Demo.program 9))
                  (Demo.program 5) Demo.world0 0%nat)
               eq_refl).
Defined.

Lemma launch_evaluates_only_on_request_witness :
  count is_eval
        (log (final_state
                (DemoLaunch.outcome DemoLaunch.launch_negative_interval)))
  = 0%nat.
Proof.
  exact (proj1 (@launch_evaluates_only_on_request
                  Demo.State unit unit Demo.Dir unit nat unit
                  (fun a b => (a ++ "/" ++ b)%string) 1 0 (fun _ _ => GDA)
                  (fun _ _ _ _ => Demo.manager) (Demo.runtime 1 false)
                  (Demo.collaborators false) (fun _ => tt)
                  DemoLaunch.partitioner (fun _ p => p)
                  DemoLaunch.default_program (fun _ => true)
                  10%nat (DemoLaunch.experiment None (Some (-1)) None)
                  "/logs"%string false (Some true) None None false false
                  None true Demo.world0 0%nat
                  (DemoLaunch.outcome DemoLaunch.launch_negative_interval)
                  ltac:(vm_compute; reflexivity))
               eq_refl).
Defined.

Lemma launch_requirements_witness :
  List.length
    (filter Launch.is_training
            (Launch.datasets (DemoLaunch.experiment None (Some 2) None)))
  = 1%nat.
Proof.
  exact (proj1 (proj2
                  (@launch_requirements
                     Demo.State unit unit Demo.Dir unit nat unit
                     (fun a b => (a ++ "/" ++ b)%string) 1 0 (fun _ _ => GDA)
                     (fun _ _ _ _ => Demo.manager) (Demo.runtime 1 false)
                     (Demo.collaborators false) (fun _ => tt)
                     DemoLaunch.partitioner (fun _ p => p)
                     DemoLaunch.default_program (fun _ => true)
                     10%nat (DemoLaunch.experiment None (Some 2) None)
                     "/logs"%string false (Some true) None None false false
                     None false Demo.world0 0%nat
                     (DemoLaunch.outcome DemoLaunch.launch_saving_disabled)
                     ltac:(vm_compute; reflexivity)))).
Defined.

Lemma launch_without_saving_saves_nothing_witness :
  saves_of
    (world (final_state
              (DemoLaunch.outcome DemoLaunch.launch_saving_disabled)))
  = saves_of Demo.world0.
Proof.
  exact (@launch_without_saving_saves_nothing
           Demo.State unit unit Demo.Dir unit nat unit
           (fun a b => (a ++ "/" ++ b)%string) 1 0 (fun _ _ => GDA)
           (fun _ _ _ _ => Demo.manager) (Demo.runtime 1 false)
           (Demo.collaborators false) (fun _ => tt)
           DemoLaunch.partitioner (fun _ p => p)
           DemoLaunch.default_program (fun _ => true)
           10%nat (DemoLaunch.experiment None (Some 2) None)
           "/logs"%string false (Some true) None None false false
           None Demo.world0 0%nat
           (DemoLaunch.outcome DemoLaunch.launch_saving_disabled)
           ltac:(vm_compute; reflexivity)).
Defined.
